(** * Logging hooks: log-all-bash, log-failed-bash, log-build-loop

    A shallow embedding of the three hook scripts and of the parts of the
    Python runtime they call ([json.loads], [json.dumps], [str.strip],
    [re.match], slicing, f-strings), followed by the properties of the
    event-logging pipeline.

    Conventions of the embedding
    - a Python [str] is a list of code points ([pystr]);
    - a Python object reachable in these scripts is a [value]; [None] and
      the JSON [null] are the same value;
    - a [dict] is an association list in insertion order with distinct keys;
    - integers are unbounded ([Z]); [int] on a run of digits obeys the
      interpreter's limit on the digits of a conversion, while the decoder
      [json_loads] is the one of the library without that limit and
      without the recursion limit;
    - a failure of standard output shows where the stream has it: at the
      call of [print], or at the flush as the interpreter exits (status
      120);
    - floating point, the Unicode character tables and the digit limit
      are parameters of the development ([PyRuntime]). *)

From Stdlib Require Import List NArith ZArith Bool Lia String Ascii Wf_nat.
Import ListNotations.
Local Open Scope N_scope.

(** ** Text *)

Definition pystr := list N.

(** A literal of the source, as code points. *)
Definition py (s : string) : pystr := map N_of_ascii (list_ascii_of_string s).

(** The same, with every apostrophe standing for a double quote, so that
    JSON text can be written down legibly. *)
Definition jq (s : string) : pystr :=
  map (fun c => if c =? 39 then 34 else c) (py s).

Fixpoint pystr_eqb (a b : pystr) : bool :=
  match a, b with
  | [], [] => true
  | x :: a', y :: b' => (x =? y) && pystr_eqb a' b'
  | _, _ => false
  end.

Fixpoint starts_with (p s : pystr) : bool :=
  match p, s with
  | [], _ => true
  | x :: p', y :: s' => (x =? y) && starts_with p' s'
  | _ :: _, [] => false
  end.

(** [sep.join(parts)] *)
Fixpoint join (sep : pystr) (parts : list pystr) : pystr :=
  match parts with
  | [] => []
  | [p] => p
  | p :: rest => p ++ sep ++ join sep rest
  end.

(** [str.isspace] on one code point. *)
Definition py_isspace (c : N) : bool :=
  ((9 <=? c) && (c <=? 13)) || ((28 <=? c) && (c <=? 32))
  || (c =? 133) || (c =? 160) || (c =? 5760)
  || ((8192 <=? c) && (c <=? 8202))
  || (c =? 8232) || (c =? 8233) || (c =? 8239) || (c =? 8287) || (c =? 12288).

Fixpoint lstrip (s : pystr) : pystr :=
  match s with
  | c :: s' => if py_isspace c then lstrip s' else s
  | [] => []
  end.

(** [s.strip()] *)
Definition strip (s : pystr) : pystr := rev (lstrip (rev (lstrip s))).

(** ** The runtime parameters

    What the scripts take from the interpreter and cannot be written down
    here: binary floating point, the Unicode tables, and the setting that
    bounds the digits of an integer read from text. *)

Class PyRuntime := {
  pyfloat : Type;
  (** [float(text)] on the text of a JSON number *)
  float_of_literal : pystr -> pyfloat;
  (** the three constants of [json.decoder] *)
  float_nan : pyfloat;
  float_inf : pyfloat;
  float_neginf : pyfloat;
  (** [floatstr] of [json.encoder]: [repr], or NaN, Infinity, -Infinity *)
  float_json : pyfloat -> pystr;
  (** [float.__repr__] *)
  float_repr : pyfloat -> pystr;
  (** [bool(x)] *)
  float_bool : pyfloat -> bool;
  (** the decimal value of a non-ASCII code point of category Nd *)
  unicode_decimal : N -> option N;
  (** [str.isprintable] on a non-ASCII code point *)
  unicode_printable : N -> bool;
  (** [sys.get_int_max_str_digits()]: 4300 unless the interpreter is told
      otherwise, 0 for no limit *)
  int_max_str_digits : nat
}.

(** A small runtime to evaluate the scripts in: ASCII tables, a float
    type with the single value [0.0], and the digit limit the interpreter
    starts with. *)
Definition ascii_runtime : PyRuntime := {|
  pyfloat := unit;
  float_of_literal := fun _ => tt;
  float_nan := tt;
  float_inf := tt;
  float_neginf := tt;
  float_json := fun _ => py "0.0";
  float_repr := fun _ => py "0.0";
  float_bool := fun _ => false;
  unicode_decimal := fun _ => None;
  unicode_printable := fun _ => false;
  int_max_str_digits := 4300
|}.

(** ** Decimal and hexadecimal text *)

Definition is_ascii_digit (c : N) : bool := (48 <=? c) && (c <=? 57).

Fixpoint digits_of (fuel : nat) (n : N) (acc : pystr) : pystr :=
  match fuel with
  | O => acc
  | S fuel' =>
      let acc' := (48 + n mod 10) :: acc in
      if n / 10 =? 0 then acc' else digits_of fuel' (n / 10) acc'
  end.

(** [str(n)] for a natural number. *)
Definition N_text (n : N) : pystr := digits_of (S (N.to_nat (N.log2 n))) n [].

(** [int.__repr__] *)
Definition Z_text (z : Z) : pystr :=
  match z with
  | Zneg p => 45 :: N_text (Npos p)
  | _ => N_text (Z.to_N z)
  end.

Definition hex_digit (d : N) : N := if d <? 10 then 48 + d else 87 + d.

(** [format(n, "04x")] for [n < 65536] *)
Definition hex4 (n : N) : pystr :=
  [hex_digit (n / 4096 mod 16); hex_digit (n / 256 mod 16);
   hex_digit (n / 16 mod 16); hex_digit (n mod 16)].

Definition hex_value (c : N) : option N :=
  if (48 <=? c) && (c <=? 57) then Some (c - 48)
  else if (97 <=? c) && (c <=? 102) then Some (c - 87)
  else if (65 <=? c) && (c <=? 70) then Some (c - 55)
  else None.

Definition decode_hex4 (a b c d : N) : option N :=
  match hex_value a, hex_value b, hex_value c, hex_value d with
  | Some x, Some y, Some z, Some w => Some (((x * 16 + y) * 16 + z) * 16 + w)
  | _, _, _, _ => None
  end.

(** [format(n, "x")] padded to [width] digits *)
Fixpoint hex_padded (width : nat) (n : N) : pystr :=
  match width with
  | O => []
  | S w => hex_padded w (n / 16) ++ [hex_digit (n mod 16)]
  end.

(** What a scan yields: a value and the rest of the text, or the
    decoder's error; [OutOfFuel] belongs to the embedding only. *)
Inductive scan (A : Type) : Type :=
| Scanned (a : A) (rest : pystr)
| DecodeError
| OutOfFuel.
Arguments Scanned {A} a rest.
Arguments DecodeError {A}.
Arguments OutOfFuel {A}.

(** ** The process: files, streams, exceptions *)

(** The exceptions of the scripts. [TypeError] also stands for what a
    slice of a dict raises, [OSError] for any failure of a write, the
    encoding of the text included; [ValueError] is what [int] raises on
    too many digits. *)
Inductive exn : Type :=
| JSONDecodeError
| AttributeError
| TypeError
| ValueError
| OSError.

(** What reaches standard error; the wording of the message is left out. *)
Inductive diag : Type :=
| InvalidJSONInput            (* "Error: Invalid JSON input: ..." *)
| ErrorWritingToLog (e : exn) (* "Error writing to log: ..." *)
| Traceback (e : exn)         (* an exception nobody caught *)
| ExceptionIgnored.           (* "Exception ignored in: ... name='<stdout>' ..." *)

(** What becomes of a text that standard output does not take. *)
Inductive refusal : Type :=
| AtPrint   (* [print] raises: the text cannot be encoded, or a stream
               without buffer, or with a full one, fails to write it *)
| AtExit    (* [print] leaves the text in the buffer of the stream, and
               the flush at the exit of the interpreter fails *)
| Unheard.  (* there is no standard output ([sys.stdout] is [None]):
               [print] does nothing *)

(** What an invocation is given. The two [accepts] fields say whether the
    log file, opened for appending, and standard output take a text: for
    standard output, whether the text gets through to the reader, be it
    at the call of [print] or at the flush on exit. [stdout_refusal] says
    what happens to a text that does not. *)
Record world : Type := {
  stdin : pystr;
  environ : pystr -> option pystr;
  now_isoformat : pystr;
  now_strftime : pystr;
  log_accepts : pystr -> bool;
  stdout_accepts : pystr -> bool;
  stdout_refusal : pystr -> refusal
}.

(** What an invocation changes: the script's log file and the streams. *)
Record proc : Type := {
  log_file : pystr;
  stdout : pystr;
  stderr : list diag
}.

(** How a call ends: with a value, with an exception, or through
    [sys.exit]. [Unflushed r] is the ending [r] of a call that has left in
    the buffer of standard output a text the stream cannot write out. *)
Inductive result (A : Type) : Type :=
| Return (a : A)
| Raise (e : exn)
| SysExit (code : Z)
| Unflushed (r : result A).
Arguments Return {A} a.
Arguments Raise {A} e.
Arguments SysExit {A} code.
Arguments Unflushed {A} r.

Definition M (A : Type) : Type := proc -> proc * result A.

Definition ret {A} (a : A) : M A := fun p => (p, Return a).

(** What follows a call that ended as [r]: the rest [k] of the script
    after a value, nothing after an exception or an exit. *)
Fixpoint and_then {A B} (r : result A) (k : A -> M B) (p : proc) : proc * result B :=
  match r with
  | Return a => k a p
  | Raise e => (p, Raise e)
  | SysExit c => (p, SysExit c)
  | Unflushed r' => let (p', r2) := and_then r' k p in (p', Unflushed r2)
  end.

Definition bind {A B} (m : M A) (k : A -> M B) : M B :=
  fun p => let (p', r) := m p in and_then r k p'.

Definition raise {A} (e : exn) : M A := fun p => (p, Raise e).

(** [sys.exit(code)] *)
Definition sys_exit {A} (code : Z) : M A := fun p => (p, SysExit code).

(** [try: body / except <E> as e: handler], [catches] telling the
    exceptions of [<E>]. *)
Fixpoint handle {A} (r : result A) (catches : exn -> bool) (handler : exn -> M A)
    (p : proc) : proc * result A :=
  match r with
  | Raise e => if catches e then handler e p else (p, Raise e)
  | Unflushed r' => let (p', r2) := handle r' catches handler p in (p', Unflushed r2)
  | _ => (p, r)
  end.

Definition try_except {A} (body : M A) (catches : exn -> bool) (handler : exn -> M A)
  : M A :=
  fun p => let (p', r) := body p in handle r catches handler p'.

Definition is_JSONDecodeError (e : exn) : bool :=
  match e with JSONDecodeError => true | _ => false end.

Definition is_Exception (e : exn) : bool := true.

Declare Scope py_scope.
Delimit Scope py_scope with py.
Notation "x <- m ;; k" := (bind m (fun x => k))
  (at level 61, m at next level, right associativity) : py_scope.
Notation "m ;;; k" := (bind m (fun _ => k))
  (at level 61, right associativity) : py_scope.

Section Hooks.
Context {R : PyRuntime}.

(** ** Values *)

#[warnings="-register-all"] Inductive value : Type :=
| VNone
| VBool (b : bool)
| VInt (z : Z)
| VFloat (f : pyfloat)
| VStr (s : pystr)
| VList (l : list value)
| VDict (d : list (pystr * value)).

Definition dict := list (pystr * value).

(** [d.get(k)] on the association list: [None] when the key is absent. *)
Fixpoint dict_get (d : dict) (k : pystr) : option value :=
  match d with
  | [] => None
  | (k', v) :: d' => if pystr_eqb k' k then Some v else dict_get d' k
  end.

(** [d[k] = v]: a present key keeps its place, a new key goes last. *)
Fixpoint dict_set (d : dict) (k : pystr) (v : value) : dict :=
  match d with
  | [] => [(k, v)]
  | (k', v') :: d' =>
      if pystr_eqb k' k then (k', v) :: d' else (k', v') :: dict_set d' k v
  end.

(** [dict(pairs)] *)
Definition dict_of_pairs (pairs : list (pystr * value)) : dict :=
  fold_left (fun d kv => dict_set d (fst kv) (snd kv)) pairs [].

(** [bool(v)] *)
Definition truthy (v : value) : bool :=
  match v with
  | VNone => false
  | VBool b => b
  | VInt z => negb (z =? 0)%Z
  | VFloat f => float_bool f
  | VStr s => match s with [] => false | _ => true end
  | VList l => match l with [] => false | _ => true end
  | VDict d => match d with [] => false | _ => true end
  end.

(** [v == text] for a string literal [text] *)
Definition is_str (v : value) (text : pystr) : bool :=
  match v with
  | VStr s => pystr_eqb s text
  | _ => false
  end.

(** ** [repr] and [str] *)

Definition printable (c : N) : bool :=
  if c <? 127 then 32 <=? c
  else if c =? 127 then false
  else unicode_printable c.

Definition repr_char (quote c : N) : pystr :=
  if (c =? quote) || (c =? 92) then [92; c]
  else if c =? 9 then py "\t"
  else if c =? 10 then py "\n"
  else if c =? 13 then py "\r"
  else if printable c then [c]
  else if c <=? 255 then py "\x" ++ hex_padded 2 c
  else if c <=? 65535 then py "\u" ++ hex_padded 4 c
  else py "\U" ++ hex_padded 8 c.

Definition mem (c : N) (s : pystr) : bool := existsb (N.eqb c) s.

(** [repr(s)] for a string: single quotes, unless the text has an
    apostrophe and no double quote. *)
Definition str_repr (s : pystr) : pystr :=
  let quote := if mem 39 s && negb (mem 34 s) then 34 else 39 in
  quote :: flat_map (repr_char quote) s ++ [quote].

Fixpoint py_repr (v : value) : pystr :=
  match v with
  | VNone => py "None"
  | VBool true => py "True"
  | VBool false => py "False"
  | VInt z => Z_text z
  | VFloat f => float_repr f
  | VStr s => str_repr s
  | VList l => py "[" ++ join (py ", ") (map py_repr l) ++ py "]"
  | VDict d =>
      py "{" ++
      join (py ", ") (map (fun kv => str_repr (fst kv) ++ py ": " ++ py_repr (snd kv)) d)
      ++ py "}"
  end.

(** [str(v)], what an f-string field shows. *)
Definition py_str (v : value) : pystr :=
  match v with
  | VStr s => s
  | _ => py_repr v
  end.

(** ** [json.dumps] *)

(** One character of [encode_basestring_ascii]. *)
Definition escape_ascii (c : N) : pystr :=
  if c =? 34 then [92; 34]
  else if c =? 92 then [92; 92]
  else if c =? 10 then [92; 110]
  else if c =? 13 then [92; 114]
  else if c =? 9 then [92; 116]
  else if c =? 8 then [92; 98]
  else if c =? 12 then [92; 102]
  else if (32 <=? c) && (c <=? 126) then [c]
  else if c <? 65536 then 92 :: 117 :: hex4 c
  else
    let n := c - 65536 in
    let s1 := N.lor 55296 (N.land (N.shiftr n 10) 1023) in
    let s2 := N.lor 56320 (N.land n 1023) in
    92 :: 117 :: hex4 s1 ++ 92 :: 117 :: hex4 s2.

Definition encode_basestring_ascii (s : pystr) : pystr :=
  34 :: flat_map escape_ascii s ++ [34].

(** ["\n" + " " * (indent * level)], or nothing without an indent. *)
Definition newline_indent (indent : option nat) (level : nat) : pystr :=
  match indent with
  | None => []
  | Some n => 10 :: repeat 32 (n * level)
  end.

Definition item_separator (indent : option nat) : pystr :=
  match indent with
  | None => py ", "
  | Some _ => py ","
  end.

Definition key_separator : pystr := py ": ".

(** [_iterencode], at nesting [level]. *)
Fixpoint iterencode (indent : option nat) (level : nat) (v : value) : pystr :=
  match v with
  | VNone => py "null"
  | VBool true => py "true"
  | VBool false => py "false"
  | VInt z => Z_text z
  | VFloat f => float_json f
  | VStr s => encode_basestring_ascii s
  | VList [] => py "[]"
  | VList l =>
      [91] ++ newline_indent indent (S level)
      ++ join (item_separator indent ++ newline_indent indent (S level))
              (map (iterencode indent (S level)) l)
      ++ newline_indent indent level ++ [93]
  | VDict [] => py "{}"
  | VDict d =>
      [123] ++ newline_indent indent (S level)
      ++ join (item_separator indent ++ newline_indent indent (S level))
              (map (fun kv => encode_basestring_ascii (fst kv) ++ key_separator
                              ++ iterencode indent (S level) (snd kv)) d)
      ++ newline_indent indent level ++ [125]
  end.

(** [json.dumps(v)] and [json.dumps(v, indent=n)] *)
Definition json_dumps (v : value) : pystr := iterencode None 0 v.
Definition json_dumps_indent (n : nat) (v : value) : pystr := iterencode (Some n) 0 v.


(** ** [json.loads] *)

Definition json_ws (c : N) : bool :=
  (c =? 32) || (c =? 9) || (c =? 10) || (c =? 13).

(** [WHITESPACE.match(s, idx).end()] *)
Fixpoint skip_ws (s : pystr) : pystr :=
  match s with
  | c :: s' => if json_ws c then skip_ws s' else s
  | [] => []
  end.

Definition is_high_surrogate (c : N) : bool := (55296 <=? c) && (c <=? 56319).
Definition is_low_surrogate (c : N) : bool := (56320 <=? c) && (c <=? 57343).

(** The [BACKSLASH] table of the decoder. *)
Definition backslash (esc : N) : option N :=
  if esc =? 34 then Some 34
  else if esc =? 92 then Some 92
  else if esc =? 47 then Some 47
  else if esc =? 98 then Some 8
  else if esc =? 102 then Some 12
  else if esc =? 110 then Some 10
  else if esc =? 114 then Some 13
  else if esc =? 116 then Some 9
  else None.

Definition join_surrogates (hi lo : N) : N :=
  65536 + N.lor (N.shiftl (hi - 55296) 10) (lo - 56320).

Definition push_char (c : N) (r : option (pystr * pystr)) : option (pystr * pystr) :=
  match r with
  | Some (str, rest) => Some (c :: str, rest)
  | None => None
  end.

(** [scanstring] in strict mode, from just after the opening quote: the
    decoded text and what follows the closing quote. *)
Fixpoint scanstring (s : pystr) : option (pystr * pystr) :=
  match s with
  | [] => None
  | c :: s1 =>
      if c =? 34 then Some ([], s1)
      else if c =? 92 then
        match s1 with
        | [] => None
        | esc :: s2 =>
            if esc =? 117 then
              match s2 with
              | h1 :: h2 :: h3 :: h4 :: s3 =>
                  match decode_hex4 h1 h2 h3 h4 with
                  | None => None
                  | Some uni =>
                      match s3 with
                      | b :: u :: k1 :: k2 :: k3 :: k4 :: s4 =>
                          if is_high_surrogate uni && (b =? 92) && (u =? 117) then
                            match decode_hex4 k1 k2 k3 k4 with
                            | None => None
                            | Some uni2 =>
                                if is_low_surrogate uni2
                                then push_char (join_surrogates uni uni2) (scanstring s4)
                                else push_char uni (scanstring s3)
                            end
                          else push_char uni (scanstring s3)
                      | _ => push_char uni (scanstring s3)
                      end
                  end
              | _ => None
              end
            else
              match backslash esc with
              | Some ch => push_char ch (scanstring s2)
              | None => None
              end
        end
      else if c <? 32 then None
      else push_char c (scanstring s1)
  end.

(** The longest run of ASCII digits at the head of the text. *)
Fixpoint span_digits (s : pystr) : pystr * pystr :=
  match s with
  | c :: s' =>
      if is_ascii_digit c
      then let (ds, rest) := span_digits s' in (c :: ds, rest)
      else ([], s)
  | [] => ([], [])
  end.

(** The three groups of [NUMBER_RE]: the integer (an optional minus, then
    a zero or a nonzero digit followed by digits), the optional fraction
    (a dot and digits) and the optional exponent (e or E, an optional
    sign, digits). *)
Definition match_integer (s : pystr) : option (pystr * pystr) :=
  let '(sign, s1) :=
    match s with
    | c :: r => if c =? 45 then ([c], r) else ([], s)
    | [] => ([], s)
    end in
  match s1 with
  | c :: s2 =>
      if c =? 48 then Some (sign ++ [c], s2)
      else if is_ascii_digit c
      then let (ds, rest) := span_digits s2 in Some (sign ++ c :: ds, rest)
      else None
  | [] => None
  end.

Definition match_frac (s : pystr) : pystr * pystr :=
  match s with
  | c :: s1 =>
      if c =? 46 then
        match span_digits s1 with
        | ([], _) => ([], s)
        | (ds, rest) => (c :: ds, rest)
        end
      else ([], s)
  | [] => ([], [])
  end.

Definition match_exp (s : pystr) : pystr * pystr :=
  match s with
  | c :: s1 =>
      if (c =? 101) || (c =? 69) then
        let '(sign, s2) :=
          match s1 with
          | x :: r => if (x =? 45) || (x =? 43) then ([x], r) else ([], s1)
          | [] => ([], s1)
          end in
        match span_digits s2 with
        | ([], _) => ([], s)
        | (ds, rest) => (c :: sign ++ ds, rest)
        end
      else ([], s)
  | [] => ([], [])
  end.

Definition N_of_digits (ds : pystr) : N :=
  fold_left (fun acc c => acc * 10 + (c - 48)) ds 0.

(** [int(text)] on the integer group of a number. *)
Definition int_of_text (t : pystr) : Z :=
  match t with
  | c :: ds => if c =? 45 then (- Z.of_N (N_of_digits ds))%Z else Z.of_N (N_of_digits t)
  | [] => 0%Z
  end.

Definition match_number (s : pystr) : option (value * pystr) :=
  match match_integer s with
  | None => None
  | Some (integer, s1) =>
      let (frac, s2) := match_frac s1 in
      let (exp, s3) := match_exp s2 in
      match frac, exp with
      | [], [] => Some (VInt (int_of_text integer), s3)
      | _, _ => Some (VFloat (float_of_literal (integer ++ frac ++ exp)), s3)
      end
  end.

(** [scan_once] with [JSONArray] and [JSONObject]. [array_items] starts at
    an element, [object_items] just after the opening quote of a key. *)
Fixpoint scan_once (fuel : nat) (s : pystr) {struct fuel} : scan value :=
  match fuel with
  | O => OutOfFuel
  | S fuel' =>
      match s with
      | [] => DecodeError
      | c :: s1 =>
          if c =? 34 then
            match scanstring s1 with
            | Some (str, rest) => Scanned (VStr str) rest
            | None => DecodeError
            end
          else if c =? 123 then
            match skip_ws s1 with
            | x :: s2 =>
                if x =? 125 then Scanned (VDict []) s2
                else if x =? 34 then object_items fuel' s2 []
                else DecodeError
            | [] => DecodeError
            end
          else if c =? 91 then
            match skip_ws s1 with
            | x :: s2 =>
                if x =? 93 then Scanned (VList []) s2
                else array_items fuel' (x :: s2) []
            | [] => DecodeError
            end
          else if starts_with (py "null") s then Scanned VNone (skipn 4 s)
          else if starts_with (py "true") s then Scanned (VBool true) (skipn 4 s)
          else if starts_with (py "false") s then Scanned (VBool false) (skipn 5 s)
          else
            match match_number s with
            | Some (v, rest) => Scanned v rest
            | None =>
                if starts_with (py "NaN") s then Scanned (VFloat float_nan) (skipn 3 s)
                else if starts_with (py "Infinity") s
                then Scanned (VFloat float_inf) (skipn 8 s)
                else if starts_with (py "-Infinity") s
                then Scanned (VFloat float_neginf) (skipn 9 s)
                else DecodeError
            end
      end
  end

with array_items (fuel : nat) (s : pystr) (acc : list value) {struct fuel} : scan value :=
  match fuel with
  | O => OutOfFuel
  | S fuel' =>
      match scan_once fuel' s with
      | Scanned v r =>
          match skip_ws r with
          | x :: r1 =>
              if x =? 93 then Scanned (VList (rev (v :: acc))) r1
              else if x =? 44 then array_items fuel' (skip_ws r1) (v :: acc)
              else DecodeError
          | [] => DecodeError
          end
      | DecodeError => DecodeError
      | OutOfFuel => OutOfFuel
      end
  end

with object_items (fuel : nat) (s : pystr) (acc : list (pystr * value)) {struct fuel}
  : scan value :=
  match fuel with
  | O => OutOfFuel
  | S fuel' =>
      match scanstring s with
      | None => DecodeError
      | Some (key, r) =>
          match skip_ws r with
          | x :: r1 =>
              if x =? 58 then
                match scan_once fuel' (skip_ws r1) with
                | Scanned v r2 =>
                    match skip_ws r2 with
                    | y :: r3 =>
                        if y =? 125
                        then Scanned (VDict (dict_of_pairs (rev ((key, v) :: acc)))) r3
                        else if y =? 44 then
                          match skip_ws r3 with
                          | q :: r4 =>
                              if q =? 34 then object_items fuel' r4 ((key, v) :: acc)
                              else DecodeError
                          | [] => DecodeError
                          end
                        else DecodeError
                    | [] => DecodeError
                    end
                | DecodeError => DecodeError
                | OutOfFuel => OutOfFuel
                end
              else DecodeError
          | [] => DecodeError
          end
      end
  end.

(** [json.loads(s)]: [None] stands for [JSONDecodeError]. The fuel is never
    used up (see [scan_fuel]). This is the decoder on the text alone: the
    two limits of the interpreter it runs in, the recursion limit (a
    [RecursionError] on brackets nested some thousand deep) and
    [sys.int_max_str_digits] (a [ValueError] on an integer literal of
    more digits), are not part of it. Where a property below assumes
    [json_loads s = Some v], it speaks of a text that [json.loads]
    decodes to [v]. *)
Definition json_loads (s : pystr) : option value :=
  match scan_once (S (2 * List.length s)) (skip_ws s) with
  | Scanned v rest =>
      match skip_ws rest with
      | [] => Some v
      | _ :: _ => None
      end
  | _ => None
  end.

(** ** [re.match] and [int] *)

(** [\d] of a [str] pattern, and the digit [int] reads in it. *)
Definition is_digit (c : N) : bool :=
  if c <? 128 then is_ascii_digit c
  else match unicode_decimal c with Some _ => true | None => false end.

Definition digit_value (c : N) : N :=
  if c <? 128 then c - 48
  else match unicode_decimal c with Some d => d | None => 0 end.

Fixpoint span_decimal (s : pystr) : pystr * pystr :=
  match s with
  | c :: s' =>
      if is_digit c
      then let (ds, rest) := span_decimal s' in (c :: ds, rest)
      else ([], s)
  | [] => ([], [])
  end.

(** [re.match(r"Exit code (\d+)", msg)]: group 1 of the match, if any. *)
Definition re_match_exit_code (msg : pystr) : option pystr :=
  if starts_with (py "Exit code ") msg then
    match fst (span_decimal (skipn 10 msg)) with
    | [] => None
    | ds => Some ds
    end
  else None.

(** The number a run of decimal digits stands for. *)
Definition decimal_value (ds : pystr) : Z :=
  Z.of_N (fold_left (fun acc c => acc * 10 + digit_value c) ds 0).

(** [int] gives up on a text of more digits than [sys.int_max_str_digits]
    allows; it looks at the limit once there are more than 640 digits
    ([sys.int_info.str_digits_check_threshold]). Every digit counts, a
    leading zero too. *)
Definition too_many_digits (ds : pystr) : bool :=
  let n := List.length ds in
  (640 <? n)%nat && (0 <? int_max_str_digits)%nat && (int_max_str_digits <? n)%nat.

(** [int(group)] on a run of decimal digits; [None] stands for
    [ValueError]. *)
Definition py_int (ds : pystr) : option Z :=
  if too_many_digits ds then None else Some (decimal_value ds).

End Hooks.

Section Primitives.
Context {R : PyRuntime}.
Local Open Scope py_scope.

(** [print(text, file=sys.stderr)] *)
Definition eprint (d : diag) : M unit :=
  fun p => ({| log_file := log_file p; stdout := stdout p; stderr := stderr p ++ [d] |},
            Return tt).

(** [print(text)]: the text and a line feed reach standard output; or
    the call raises; or it returns with the text in a buffer that will
    not be written out; or there is no stream to print to. *)
Definition print (w : world) (text : pystr) : M unit :=
  fun p =>
    if stdout_accepts w text
    then ({| log_file := log_file p; stdout := stdout p ++ text ++ [10];
             stderr := stderr p |}, Return tt)
    else match stdout_refusal w text with
         | AtPrint => (p, Raise OSError)
         | AtExit => (p, Unflushed (Return tt))
         | Unheard => (p, Return tt)
         end.

(** [with open(LOG_FILE, "a") as f: f.write(text)] *)
Definition append_log (w : world) (text : pystr) : M unit :=
  fun p =>
    if log_accepts w text
    then ({| log_file := log_file p ++ text; stdout := stdout p; stderr := stderr p |},
          Return tt)
    else (p, Raise OSError).

(** [json.loads(text)] as a statement *)
Definition loads (text : pystr) : M value :=
  match json_loads text with
  | Some v => ret v
  | None => raise JSONDecodeError
  end.

(** [obj.get(key, default)]; only a dict has the method. *)
Definition get_default (obj : value) (key : pystr) (default : value) : M value :=
  match obj with
  | VDict d =>
      match dict_get d key with
      | Some v => ret v
      | None => ret default
      end
  | _ => raise AttributeError
  end.

(** [obj.get(key)] *)
Definition get (obj : value) (key : pystr) : M value := get_default obj key VNone.

(** [obj[:n]] *)
Definition slice_to (obj : value) (n : nat) : M value :=
  match obj with
  | VStr s => ret (VStr (firstn n s))
  | VList l => ret (VList (firstn n l))
  | _ => raise TypeError
  end.

(** [re.match(r"Exit code (\d+)", obj)] and [int(match.group(1))] *)
Definition exit_code_of (obj : value) : M value :=
  match obj with
  | VStr msg =>
      match re_match_exit_code msg with
      | Some ds =>
          match py_int ds with
          | Some z => ret (VInt z)
          | None => raise ValueError
          end
      | None => ret VNone
      end
  | _ => raise TypeError
  end.

(** The interpreter around [main()]: status 0 at the end of the script,
    the argument of [sys.exit], or a traceback and status 1. When the
    flush of standard output fails as the interpreter exits, it reports
    the exception it ignores and the status is 120 whatever the script
    asked for. *)
Record outcome : Type := {
  exit_status : Z;
  final : proc
}.

Fixpoint exit_of (r : result unit) (p : proc) : outcome :=
  match r with
  | Return _ => {| exit_status := 0; final := p |}
  | SysExit c => {| exit_status := c; final := p |}
  | Raise e =>
      {| exit_status := 1;
         final := {| log_file := log_file p; stdout := stdout p;
                     stderr := stderr p ++ [Traceback e] |} |}
  | Unflushed r' =>
      let p' := final (exit_of r' p) in
      {| exit_status := 120;
         final := {| log_file := log_file p'; stdout := stdout p';
                     stderr := stderr p' ++ [ExceptionIgnored] |} |}
  end.

Definition run (script : M unit) (p : proc) : outcome :=
  let (p', r) := script p in exit_of r p'.

End Primitives.

(** ** Paths

    [os.path.expanduser] and [os.path.join], which give the scripts the
    paths of their logs. *)

(** What [expanduser] asks the password database: the home directory of
    the current user and that of a user by name, when it knows them. *)
Record passwd : Type := {
  getpwuid_dir : option pystr;
  getpwnam_dir : pystr -> option pystr
}.

Fixpoint lstrip_char (c : N) (s : pystr) : pystr :=
  match s with
  | x :: s' => if x =? c then lstrip_char c s' else s
  | [] => []
  end.

(** [s.rstrip(c)] for a single character [c] *)
Definition rstrip_char (c : N) (s : pystr) : pystr := rev (lstrip_char c (rev s)).

(** [s.find(c, start)], or the length of [s] when there is none. *)
Fixpoint find_or_len (c : N) (start : nat) (s : pystr) : nat :=
  match s with
  | [] => O
  | x :: s' =>
      match start with
      | O => if x =? c then O else S (find_or_len c O s')
      | S k => S (find_or_len c k s')
      end
  end.

(** [s.endswith("/")] *)
Definition ends_with_sep (s : pystr) : bool :=
  match rev s with
  | c :: _ => c =? 47
  | [] => false
  end.

(** [posixpath.expanduser(path)]: a path that begins with a tilde has the
    part before its first slash replaced by a home directory without its
    final slashes: HOME, or the current user's directory, for the bare
    tilde, the directory of the user named after it otherwise. A home
    directory that is not known leaves the path as it is. *)
Definition expanduser (env : pystr -> option pystr) (pw : passwd) (path : pystr) : pystr :=
  if negb (starts_with (py "~") path) then path else
  let i := find_or_len 47 1 path in
  let userhome :=
    if Nat.eqb i 1 then
      match env (py "HOME") with
      | Some home => Some home
      | None => getpwuid_dir pw
      end
    else getpwnam_dir pw (firstn (i - 1) (skipn 1 path)) in
  match userhome with
  | None => path
  | Some home =>
      match rstrip_char 47 home ++ skipn i path with
      | [] => py "/"
      | expanded => expanded
      end
  end.

(** [posixpath.join(a, b)] *)
Definition path_join (a b : pystr) : pystr :=
  if starts_with (py "/") b then b
  else if match a with [] => true | _ => false end || ends_with_sep a then a ++ b
  else a ++ py "/" ++ b.

(** ** log-all-bash.py *)

Module LogAllBash.

(** [LOG_FILE = os.path.expanduser("~/.claude/bash-all.log")] *)
Definition LOG_FILE (env : pystr -> option pystr) (pw : passwd) : pystr :=
  expanduser env pw (py "~/.claude/bash-all.log").

Section Script.
Context {R : PyRuntime}.
Local Open Scope py_scope.

Definition main (w : world) : M unit :=
  hook_input <-
    try_except (loads (stdin w)) is_JSONDecodeError
      (fun _ => eprint InvalidJSONInput ;;; sys_exit 1) ;;
  tool_name <- get hook_input (py "tool_name") ;;
  if negb (is_str tool_name (py "Bash")) then sys_exit 0 else
  let timestamp := now_isoformat w in
  let log_entry :=
    VDict [(py "timestamp", VStr timestamp); (py "raw_hook_payload", hook_input)] in
  try_except
    (append_log w (json_dumps_indent 2 log_entry ++ 10 :: py "---" ++ [10]) ;;;
     tool_input <- get_default hook_input (py "tool_input") (VDict []) ;;
     command <- get_default tool_input (py "command") (VStr (py "N/A")) ;;
     cmd <- slice_to command 40 ;;
     print w (py "[LOGGED ALL] " ++ py_str cmd ++ py "..."))
    is_Exception
    (fun e => eprint (ErrorWritingToLog e) ;;; sys_exit 1) ;;;
  sys_exit 0.

End Script.
End LogAllBash.

(** ** log-failed-bash.py *)

Module LogFailedBash.

(** [LOG_FILE = os.path.expanduser("~/.claude/bash-failures.log")] *)
Definition LOG_FILE (env : pystr -> option pystr) (pw : passwd) : pystr :=
  expanduser env pw (py "~/.claude/bash-failures.log").

Section Script.
Context {R : PyRuntime}.
Local Open Scope py_scope.

Definition main (w : world) : M unit :=
  hook_input <-
    try_except (loads (stdin w)) is_JSONDecodeError
      (fun _ => eprint InvalidJSONInput ;;; sys_exit 1) ;;
  tool_name <- get hook_input (py "tool_name") ;;
  if negb (is_str tool_name (py "Bash")) then sys_exit 0 else
  error_message <- get_default hook_input (py "error") (VStr []) ;;
  exit_code <- (if truthy error_message then exit_code_of error_message else ret VNone) ;;
  tool_input <- get_default hook_input (py "tool_input") (VDict []) ;;
  let timestamp := now_isoformat w in
  command <- get tool_input (py "command") ;;
  description <- get tool_input (py "description") ;;
  is_interrupt <- get_default hook_input (py "is_interrupt") (VBool false) ;;
  session_id <- get hook_input (py "session_id") ;;
  cwd <- get hook_input (py "cwd") ;;
  tool_use_id <- get hook_input (py "tool_use_id") ;;
  let log_entry :=
    VDict [(py "timestamp", VStr timestamp);
           (py "exit_code", exit_code);
           (py "command", command);
           (py "description", description);
           (py "error_message", error_message);
           (py "is_interrupt", is_interrupt);
           (py "session_id", session_id);
           (py "cwd", cwd);
           (py "tool_use_id", tool_use_id)] in
  try_except
    (append_log w (json_dumps_indent 2 log_entry ++ 10 :: py "---" ++ [10]) ;;;
     command' <- get_default tool_input (py "command") (VStr (py "N/A")) ;;
     cmd <- slice_to command' 40 ;;
     print w (py "[LOGGED FAILURE] exit=" ++ py_str exit_code ++ py " cmd="
              ++ py_str cmd ++ py "..."))
    is_Exception
    (fun e => eprint (ErrorWritingToLog e) ;;; sys_exit 1) ;;;
  sys_exit 0.

End Script.
End LogFailedBash.

(** ** log-build-loop.py *)

Module LogBuildLoop.

(** [LOG_FILE = os.path.join(os.getcwd(), "build-loop.log")] *)
Definition LOG_FILE (cwd : pystr) : pystr := path_join cwd (py "build-loop.log").

Section Script.
Context {R : PyRuntime}.
Local Open Scope py_scope.

(** [os.environ.get(name)] *)
Definition environ_get (w : world) (name : pystr) : value :=
  match environ w name with
  | Some text => VStr text
  | None => VNone
  end.

(** [os.environ.get(name, default)] *)
Definition environ_get_default (w : world) (name default : pystr) : pystr :=
  match environ w name with
  | Some text => text
  | None => default
  end.

Definition load_hook_input (w : world) : M value :=
  let raw_input := stdin w in
  match strip raw_input with
  | _ :: _ =>
      try_except (loads raw_input) is_JSONDecodeError
        (fun _ => eprint InvalidJSONInput ;;; sys_exit 1)
  | [] =>
      (* Pi hook bridge: use env vars *)
      let tool_name := environ_get w (py "ASP_TOOL_NAME") in
      tool_args <- loads (environ_get_default w (py "ASP_TOOL_ARGS") (py "{}")) ;;
      tool_result <- loads (environ_get_default w (py "ASP_TOOL_RESULT") (py "{}")) ;;
      ret (VDict [(py "tool_name", tool_name);
                  (py "tool_args", tool_args);
                  (py "tool_result", tool_result);
                  (py "source", VStr (py "pi"))])
  end.

(** ["[" timestamp "] " TAG ": " text "\n"] *)
Definition line (timestamp tag text : pystr) : pystr :=
  py "[" ++ timestamp ++ py "] " ++ tag ++ py ": " ++ text ++ [10].

Definition main (w : world) : M unit :=
  hook_input <- load_hook_input w ;;
  let timestamp := now_strftime w in
  hook_event <- get_default hook_input (py "hook_event_name") (VStr []) ;;
  tool_name <- get hook_input (py "tool_name") ;;
  log_line <-
    (if is_str hook_event (py "PreToolUse") then
       tool_input <- get_default hook_input (py "tool_input") (VDict []) ;;
       ret (line timestamp (py "PRE_TOOL")
                 (py_str tool_name ++ py " " ++ json_dumps tool_input))
     else if is_str hook_event (py "PostToolUse") then
       ret (line timestamp (py "POST_TOOL") (json_dumps hook_input))
     else if is_str hook_event (py "SubagentStop") then
       ret (line timestamp (py "AGENT_STOP") (json_dumps hook_input))
     else if is_str hook_event (py "Stop") then
       ret (line timestamp (py "END_TURN") (json_dumps hook_input))
     else if is_str hook_event (py "UserPromptSubmit") then
       prompt <- get_default hook_input (py "prompt") (VStr []) ;;
       summary <- (if truthy prompt then slice_to prompt 100 else ret (VStr (py "N/A"))) ;;
       ret (line timestamp (py "PROMPT") (py_str summary))
     else if is_str hook_event (py "SessionStart") then
       ret (line timestamp (py "SESSION_START") (json_dumps hook_input))
     else if is_str hook_event (py "Notification") then
       ret (line timestamp (py "NOTIFICATION") (json_dumps hook_input))
     else
       (* Unknown event - log raw payload for debugging *)
       ret (line timestamp (py "UNKNOWN") (json_dumps hook_input))) ;;
  try_except (append_log w log_line) is_Exception
    (fun e => eprint (ErrorWritingToLog e) ;;; sys_exit 1) ;;;
  sys_exit 0.

End Script.
End LogBuildLoop.

(** * What the scripts are expected to write

    The records and lines the properties below speak about. *)

Section Records.
Context {R : PyRuntime}.

(** The event of the external interface: a mapping whose recognised keys,
    when present, hold values of the types the interface gives them. *)
Definition opt_field (d : dict) (k : pystr) (ok : value -> bool) : bool :=
  match dict_get d k with
  | Some v => ok v
  | None => true
  end.

Definition is_string (v : value) : bool :=
  match v with VStr _ => true | _ => false end.

Definition is_boolean (v : value) : bool :=
  match v with VBool _ => true | _ => false end.

Definition tool_input_ok (v : value) : bool :=
  match v with
  | VDict t => opt_field t (py "command") is_string
               && opt_field t (py "description") is_string
  | _ => false
  end.

Definition well_formed (d : dict) : bool :=
  opt_field d (py "tool_name") is_string
  && opt_field d (py "tool_input") tool_input_ok
  && opt_field d (py "hook_event_name") is_string
  && opt_field d (py "error") is_string
  && opt_field d (py "is_interrupt") is_boolean
  && opt_field d (py "session_id") is_string
  && opt_field d (py "cwd") is_string
  && opt_field d (py "tool_use_id") is_string
  && opt_field d (py "prompt") is_string.

(** The part of it the confirmation line depends on: [tool_input] is
    absent or a mapping, and its [command] absent or a text. *)
Definition command_ok (d : dict) : bool :=
  match dict_get d (py "tool_input") with
  | None => true
  | Some (VDict t) => opt_field t (py "command") is_string
  | Some _ => false
  end.

(** The tool-name filter of the two Bash loggers. *)
Definition names_bash (d : dict) : bool :=
  match dict_get d (py "tool_name") with
  | Some v => is_str v (py "Bash")
  | None => false
  end.

Definition or_default (o : option value) (default : value) : value :=
  match o with
  | Some v => v
  | None => default
  end.

(** The separator line that closes a block of a Bash log. *)
Definition block_end : pystr := 10 :: py "---" ++ [10].

(** The block log-all-bash appends for the event [d]. *)
Definition all_record (w : world) (d : dict) : value :=
  VDict [(py "timestamp", VStr (now_isoformat w)); (py "raw_hook_payload", VDict d)].

(** The text of the [command] a confirmation line shows, for an event
    whose [tool_input] is absent or a mapping with a textual command. *)
Definition tool_input_of (d : dict) : dict :=
  match dict_get d (py "tool_input") with
  | Some (VDict t) => t
  | _ => []
  end.

Definition command_text (d : dict) : pystr :=
  match dict_get (tool_input_of d) (py "command") with
  | Some (VStr c) => c
  | _ => py "N/A"
  end.

Definition with_log (p : proc) (text : pystr) : proc :=
  {| log_file := log_file p ++ text; stdout := stdout p; stderr := stderr p |}.

Definition with_stdout (p : proc) (text : pystr) : proc :=
  {| log_file := log_file p; stdout := stdout p ++ text ++ [10]; stderr := stderr p |}.

Definition with_stderr (p : proc) (d : diag) : proc :=
  {| log_file := log_file p; stdout := stdout p; stderr := stderr p ++ [d] |}.

(** What a Bash logger comes to from [p], its block written, when it
    prints the confirmation [line]. *)
Definition confirmed (w : world) (p : proc) (line : pystr) : outcome :=
  if stdout_accepts w line
  then {| exit_status := 0; final := with_stdout p line |}
  else
    match stdout_refusal w line with
    | AtPrint => {| exit_status := 1; final := with_stderr p (ErrorWritingToLog OSError) |}
    | AtExit => {| exit_status := 120; final := with_stderr p ExceptionIgnored |}
    | Unheard => {| exit_status := 0; final := p |}
    end.

(** The fields log-failed-bash derives from the event [d]. *)
Definition error_text (d : dict) : pystr :=
  match dict_get d (py "error") with
  | Some (VStr m) => m
  | _ => []
  end.

Definition exit_code_field (msg : pystr) : value :=
  match re_match_exit_code msg with
  | Some ds => VInt (decimal_value ds)
  | None => VNone
  end.

(** [int] takes the digits of the exit code, when the text has one. *)
Definition code_converts (msg : pystr) : bool :=
  match re_match_exit_code msg with
  | Some ds => negb (too_many_digits ds)
  | None => true
  end.

Definition failure_record (w : world) (d : dict) : value :=
  VDict [(py "timestamp", VStr (now_isoformat w));
         (py "exit_code", exit_code_field (error_text d));
         (py "command", or_default (dict_get (tool_input_of d) (py "command")) VNone);
         (py "description",
          or_default (dict_get (tool_input_of d) (py "description")) VNone);
         (py "error_message", VStr (error_text d));
         (py "is_interrupt", or_default (dict_get d (py "is_interrupt")) (VBool false));
         (py "session_id", or_default (dict_get d (py "session_id")) VNone);
         (py "cwd", or_default (dict_get d (py "cwd")) VNone);
         (py "tool_use_id", or_default (dict_get d (py "tool_use_id")) VNone)].

Definition event_name (d : dict) : value :=
  or_default (dict_get d (py "hook_event_name")) (VStr []).

Definition prompt_text (d : dict) : pystr :=
  match dict_get d (py "prompt") with
  | Some (VStr s) => s
  | _ => []
  end.

Definition prompt_summary (d : dict) : pystr :=
  match prompt_text d with
  | [] => py "N/A"
  | s => firstn 100 s
  end.

(** The line written for the event [d], whose [prompt] is absent or a
    text. *)
Definition build_loop_line (w : world) (d : dict) : pystr :=
  let ts := now_strftime w in
  let ev := event_name d in
  if is_str ev (py "PreToolUse") then
    LogBuildLoop.line ts (py "PRE_TOOL")
      (py_str (or_default (dict_get d (py "tool_name")) VNone) ++ py " "
       ++ json_dumps (or_default (dict_get d (py "tool_input")) (VDict [])))
  else if is_str ev (py "PostToolUse") then
    LogBuildLoop.line ts (py "POST_TOOL") (json_dumps (VDict d))
  else if is_str ev (py "SubagentStop") then
    LogBuildLoop.line ts (py "AGENT_STOP") (json_dumps (VDict d))
  else if is_str ev (py "Stop") then
    LogBuildLoop.line ts (py "END_TURN") (json_dumps (VDict d))
  else if is_str ev (py "UserPromptSubmit") then
    LogBuildLoop.line ts (py "PROMPT") (prompt_summary d)
  else if is_str ev (py "SessionStart") then
    LogBuildLoop.line ts (py "SESSION_START") (json_dumps (VDict d))
  else if is_str ev (py "Notification") then
    LogBuildLoop.line ts (py "NOTIFICATION") (json_dumps (VDict d))
  else
    LogBuildLoop.line ts (py "UNKNOWN") (json_dumps (VDict d)).

(** The event of the bridge. *)
Definition pi_event (w : world) (tool_args tool_result : value) : dict :=
  [(py "tool_name", LogBuildLoop.environ_get w (py "ASP_TOOL_NAME"));
   (py "tool_args", tool_args);
   (py "tool_result", tool_result);
   (py "source", VStr (py "pi"))].

(** Looking a value up along a path of keys. *)
Fixpoint get_path (v : value) (path : list pystr) : option value :=
  match path with
  | [] => Some v
  | k :: path' =>
      match v with
      | VDict d =>
          match dict_get d k with
          | Some v' => get_path v' path'
          | None => None
          end
      | _ => None
      end
  end.

(** No digit follows: the digits before [rest] are a whole run. *)
Definition run_ends (rest : pystr) : Prop :=
  match rest with
  | c :: _ => is_digit c = false
  | [] => True
  end.

(** The text begins with [Exit code] and at least one digit. *)
Definition begins_with_exit_code (msg : pystr) : Prop :=
  exists ds rest, ds <> [] /\ forallb is_digit ds = true
                  /\ msg = py "Exit code " ++ ds ++ rest.

(** The lifecycle events log-build-loop has a tag for. *)
Definition recognised : list pystr :=
  [py "PreToolUse"; py "PostToolUse"; py "SubagentStop"; py "Stop";
   py "UserPromptSubmit"; py "SessionStart"; py "Notification"].

Definition tags : list pystr :=
  [py "PRE_TOOL"; py "POST_TOOL"; py "AGENT_STOP"; py "END_TURN";
   py "PROMPT"; py "SESSION_START"; py "NOTIFICATION"; py "UNKNOWN"].

(** The event names one of them. *)
Definition is_recognised (d : dict) : bool :=
  existsb (is_str (event_name d)) recognised.

End Records.

(** ** Values that come from JSON text

    What [json.loads] yields from a text without surrogate code points,
    and what the encoder and the decoder agree on. *)

Definition is_code_point (c : N) : bool := c <? 1114112.

Definition is_surrogate (c : N) : bool := (55296 <=? c) && (c <=? 57343).

(** A text as a decoded input stream holds it: code points, none of them
    a surrogate. *)
Definition unicode_text (s : pystr) : bool :=
  forallb (fun c => is_code_point c && negb (is_surrogate c)) s.

(** No high surrogate is followed by a low one. *)
Fixpoint no_surrogate_pair (s : pystr) : bool :=
  match s with
  | [] => true
  | c :: t =>
      match t with
      | c2 :: _ => negb (is_high_surrogate c && is_low_surrogate c2)
      | [] => true
      end && no_surrogate_pair t
  end.

Definition wf_str (s : pystr) : bool :=
  forallb is_code_point s && no_surrogate_pair s.

(** The text of a number with a fraction or an exponent, and nothing
    after it. *)
Definition is_float_literal (t : pystr) : bool :=
  match match_integer t with
  | Some (_, r1) =>
      let (frac, r2) := match_frac r1 in
      let (exp, r3) := match_exp r2 in
      match r3, frac, exp with
      | [], [], [] => false
      | [], _, _ => true
      | _ :: _, _, _ => false
      end
  | None => false
  end.

(** What the interpreter guarantees of floats: the text the encoder
    writes for a float is a number with a fraction or an exponent that
    [float] reads back as the same float, or one of the three names the
    decoder maps to its constants. *)
Class FloatLaws (R : PyRuntime) : Prop := {
  float_json_decodes :
    forall f : pyfloat,
      (is_float_literal (float_json f) = true /\ float_of_literal (float_json f) = f)
      \/ (float_json f = py "NaN" /\ f = float_nan)
      \/ (float_json f = py "Infinity" /\ f = float_inf)
      \/ (float_json f = py "-Infinity" /\ f = float_neginf)
}.

Section WellFormed.
Context {R : PyRuntime}.

Definition keys (d : dict) : list pystr := map fst d.

Fixpoint distinct (l : list pystr) : bool :=
  match l with
  | [] => true
  | k :: l' => negb (existsb (pystr_eqb k) l') && distinct l'
  end.

(** Texts are well formed and the keys of every mapping are distinct. *)
Fixpoint wf_value (v : value) : bool :=
  match v with
  | VStr s => wf_str s
  | VList l => forallb wf_value l
  | VDict d =>
      distinct (keys d)
      && forallb (fun kv => wf_str (fst kv) && wf_value (snd kv)) d
  | _ => true
  end.

(** The scans a value of this size needs. *)
Fixpoint size (v : value) : nat :=
  match v with
  | VList l => S (fold_right (fun x n => S (size x + n)) O l)
  | VDict d => S (fold_right (fun kv n => S (size (snd kv) + n)) O d)
  | _ => 1
  end.

End WellFormed.

(** What may follow an escaped high surrogate: not the escape of a low
    one. *)
Definition no_low_escape (tail : pystr) : Prop :=
  match tail with
  | b :: u :: k1 :: k2 :: k3 :: k4 :: _ =>
      (b =? 92) && (u =? 117) = true ->
      exists u2, decode_hex4 k1 k2 k3 k4 = Some u2 /\ is_low_surrogate u2 = false
  | _ => True
  end.

(** The text after the first of the items of an array or an object: each
    further item behind a separator, then the closing text. *)
Fixpoint items_text (texts : list pystr) (sep close : pystr) : pystr :=
  match texts with
  | [] => close
  | t :: ts => sep ++ t ++ items_text ts sep close
  end.

(** The numbers that [digits_of] writes in full with [f] units of fuel
    lie below this bound. *)
Definition fuel_bound (f : nat) : N := 2 ^ N.of_nat f.

(** The head of a text that cannot continue a number. *)
Definition number_char (c : N) : bool :=
  is_ascii_digit c || (c =? 43) || (c =? 45) || (c =? 46) || (c =? 69) || (c =? 101).

Definition delimited (rest : pystr) : Prop :=
  match rest with
  | [] => True
  | c :: _ => number_char c = false
  end.

(** ** What the proofs about the decoder speak of *)

Section Codec.
Context {R : PyRuntime}.

(** No digit follows. *)
Definition no_digit_ahead (rest : pystr) : Prop :=
  match rest with
  | [] => True
  | c :: _ => is_ascii_digit c = false
  end.

(** The text does not begin with JSON whitespace. *)
Definition starts_solid (u : pystr) : Prop :=
  match u with
  | [] => True
  | c :: _ => json_ws c = false
  end.

(** The decoder, given enough fuel, reads the value back from its
    encoding at any indent and level, and stops where the encoding ends. *)
Definition round_trips (v : value) : Prop :=
  forall indent level fuel rest,
    (size v <= fuel)%nat -> delimited rest ->
    scan_once fuel (iterencode indent level v ++ rest) = Scanned v rest.

(** The first character of an encoded value: not whitespace, not a
    closing bracket. *)
Definition starts_value (u : pystr) : Prop :=
  match u with
  | [] => False
  | c :: _ => json_ws c = false /\ (c =? 93) = false
  end.

(** What closes the items of an array or of an object. *)
Definition closing (indent : option nat) (level : nat) (bracket : N) (rest : pystr)
  : pystr := newline_indent indent level ++ bracket :: rest.

(** A pair of an object, from after the opening quote of its key. *)
Definition pair_body (indent : option nat) (level : nat) (kv : pystr * value) : pystr :=
  flat_map escape_ascii (fst kv) ++ 34 :: key_separator
  ++ iterencode indent level (snd kv).

(** The same with its opening quote: the text of the pair. *)
Definition pair_text (indent : option nat) (level : nat) (kv : pystr * value) : pystr :=
  encode_basestring_ascii (fst kv) ++ key_separator ++ iterencode indent level (snd kv).

(** What follows an escaped high surrogate that was not joined. *)
Definition not_joined (s3 : pystr) : Prop :=
  forall k1 k2 k3 k4 s4 lo,
    s3 = 92 :: 117 :: k1 :: k2 :: k3 :: k4 :: s4 ->
    decode_hex4 k1 k2 k3 k4 = Some lo -> is_low_surrogate lo = false.

(** The five ways [scanstring] yields a text. *)
Inductive scanned_string : pystr -> pystr -> pystr -> Prop :=
| scanned_end r : scanned_string (34 :: r) [] r
| scanned_raw c s1 str1 r :
    c <> 34 -> c <> 92 -> 32 <= c ->
    scanstring s1 = Some (str1, r) ->
    scanned_string (c :: s1) (c :: str1) r
| scanned_escape esc ch s2 str1 r :
    esc <> 117 -> backslash esc = Some ch ->
    scanstring s2 = Some (str1, r) ->
    scanned_string (92 :: esc :: s2) (ch :: str1) r
| scanned_unicode h1 h2 h3 h4 s3 uni str1 r :
    decode_hex4 h1 h2 h3 h4 = Some uni ->
    (is_high_surrogate uni = true -> not_joined s3) ->
    scanstring s3 = Some (str1, r) ->
    scanned_string (92 :: 117 :: h1 :: h2 :: h3 :: h4 :: s3) (uni :: str1) r
| scanned_pair h1 h2 h3 h4 k1 k2 k3 k4 s4 hi lo str1 r :
    decode_hex4 h1 h2 h3 h4 = Some hi ->
    decode_hex4 k1 k2 k3 k4 = Some lo ->
    is_high_surrogate hi = true -> is_low_surrogate lo = true ->
    scanstring s4 = Some (str1, r) ->
    scanned_string
      (92 :: 117 :: h1 :: h2 :: h3 :: h4 :: 92 :: 117 :: k1 :: k2 :: k3 :: k4 :: s4)
      (join_surrogates hi lo :: str1) r.

(** [r] is what is left of [s] after at least one character. *)
Definition proper_suffix (r s : pystr) : Prop :=
  exists pre, pre <> [] /\ s = pre ++ r.

(** What the decoder yields without a string or a bracket. *)
Definition is_scalar (v : value) : Prop :=
  match v with
  | VNone | VBool _ | VInt _ | VFloat _ => True
  | _ => False
  end.

(** A pair of a well-formed mapping. *)
Definition pair_ok (kv : pystr * value) : bool :=
  wf_str (fst kv) && wf_value (snd kv).

End Codec.

(** An invocation to evaluate the scripts at: no variable set, a clock,
    sinks that take every text, and empty files. *)
Definition sample_world (input : pystr) : world :=
  {| stdin := input;
     environ := fun _ => None;
     now_isoformat := py "2026-01-01T00:00:00";
     now_strftime := py "2026-01-01 00:00:00";
     log_accepts := fun _ => true;
     stdout_accepts := fun _ => true;
     stdout_refusal := fun _ => AtPrint |}.

Definition fresh : proc := {| log_file := []; stdout := []; stderr := [] |}.

Definition long_command : pystr :=
  py "ls -la /tmp/some/very/long/path/exceeding/forty/chars".

Definition long_command_input : pystr :=
  jq "{'tool_name':'Bash','tool_input':{'command':'ls -la /tmp/some/very/long/path/exceeding/forty/chars'}}".

Definition failure_input : pystr :=
  jq "{'tool_name':'Bash','error':'Exit code 127: command not found','tool_input':{'command':'foo'}}".



Definition post_tool_input : pystr :=
  jq "{'hook_event_name':'PostToolUse','tool_name':'Bash','tool_input':{'command':'ls -l'},'tool_response':{'stdout':'a\nb \u00e9','code':0,'flags':[true,null,-12]}}".

Definition post_tool_event : list (pystr * @value ascii_runtime) :=
  [(py "hook_event_name", VStr (py "PostToolUse"));
   (py "tool_name", VStr (py "Bash"));
   (py "tool_input", VDict [(py "command", VStr (py "ls -l"))]);
   (py "tool_response",
    VDict [(py "stdout", VStr [97; 10; 98; 32; 233]);
           (py "code", VInt 0);
           (py "flags", VList [VBool true; VNone; VInt (-12)])])].

Definition null_command_input : pystr :=
  jq "{'tool_name':'Bash','tool_input':{'command':null}}".



(** An error text with an exit code of 4301 digits, all [digit]. *)
Definition long_code (digit : N) : pystr := py "Exit code " ++ repeat digit 4301.

Definition long_code_input (digit : N) : pystr :=
  jq "{'tool_name':'Bash','error':'" ++ long_code digit ++ jq "'}".

(** * What the further properties speak of *)

Section Shapes.
Context {R : PyRuntime}.

(** The values a slice [v[:n]] is defined on. *)
Definition sliceable (v : value) : bool :=
  match v with VStr _ | VList _ => true | _ => false end.

Definition is_mapping (v : value) : bool :=
  match v with VDict _ => true | _ => false end.

(** [hook_input.get("tool_input", {}).get("command", "N/A")[:40]] raises
    nothing: [tool_input] is absent or a mapping, and its [command]
    absent, a text or a list. *)
Definition command_sliceable (d : dict) : bool :=
  match dict_get d (py "tool_input") with
  | None => true
  | Some (VDict t) => opt_field t (py "command") sliceable
  | Some _ => false
  end.

(** The [error] field does not stop log-failed-bash: it is absent, a
    value that counts as false, or a text whose exit code, if it has
    one, [int] converts. *)
Definition harmless (v : value) : bool :=
  match v with
  | VStr m => code_converts m
  | _ => negb (truthy v)
  end.

Definition error_harmless (d : dict) : bool := opt_field d (py "error") harmless.

(** What an invocation of one of the two Bash loggers comes to: the
    event is skipped; or one diagnostic is all that is written; or a
    block is appended, followed by a confirmation line, or by a
    diagnostic, or by nothing where there is no standard output, or by
    the report of the flush that failed at exit. *)
Inductive bash_outcome (w : world) (p : proc) (out : outcome) : Prop :=
| bash_skipped : out = {| exit_status := 0; final := p |} -> bash_outcome w p out
| bash_stopped dg :
    out = {| exit_status := 1; final := with_stderr p dg |} -> bash_outcome w p out
| bash_logged record line :
    out = {| exit_status := 0;
             final := with_stdout (with_log p (json_dumps_indent 2 record ++ block_end))
                                  line |} ->
    bash_outcome w p out
| bash_unconfirmed record e :
    out = {| exit_status := 1;
             final := with_stderr (with_log p (json_dumps_indent 2 record ++ block_end))
                                  (ErrorWritingToLog e) |} ->
    bash_outcome w p out
| bash_unheard record line :
    stdout_accepts w line = false -> stdout_refusal w line = Unheard ->
    out = {| exit_status := 0;
             final := with_log p (json_dumps_indent 2 record ++ block_end) |} ->
    bash_outcome w p out
| bash_unflushed record line :
    stdout_accepts w line = false -> stdout_refusal w line = AtExit ->
    out = {| exit_status := 120;
             final := with_stderr (with_log p (json_dumps_indent 2 record ++ block_end))
                                  ExceptionIgnored |} ->
    bash_outcome w p out.

End Shapes.



(** The invocation [w] with another standard input. *)
Definition with_stdin (w : world) (text : pystr) : world :=
  {| stdin := text;
     environ := environ w;
     now_isoformat := now_isoformat w;
     now_strftime := now_strftime w;
     log_accepts := log_accepts w;
     stdout_accepts := stdout_accepts w;
     stdout_refusal := stdout_refusal w |}.

(** The invocation [w] with other environment variables. *)
Definition with_environ (w : world) (env : pystr -> option pystr) : world :=
  {| stdin := stdin w;
     environ := env;
     now_isoformat := now_isoformat w;
     now_strftime := now_strftime w;
     log_accepts := log_accepts w;
     stdout_accepts := stdout_accepts w;
     stdout_refusal := stdout_refusal w |}.

(** The first character of a text is not a space. *)
Definition begins_solid (s : pystr) : Prop :=
  match s with
  | c :: _ => py_isspace c = false
  | [] => True
  end.

(** The last character of a text is not a space. *)
Definition ends_solid (s : pystr) : Prop :=
  match rev s with
  | c :: _ => py_isspace c = false
  | [] => True
  end.

(** The text is empty or begins with JSON whitespace. *)
Definition ws_led (t : pystr) : Prop :=
  match t with
  | [] => True
  | c :: _ => json_ws c = true
  end.

(** The printable characters of ASCII. *)
Definition ascii_printable (c : N) : bool := (32 <=? c) && (c <=? 126).

(** The same, or a line feed. *)
Definition ascii_or_newline (c : N) : bool := ascii_printable c || (c =? 10).

(** What a line of an indented JSON text begins with, the first line
    apart: a space or a closing bracket. *)
Definition line_opener (c : N) : bool := (c =? 32) || (c =? 93) || (c =? 125).

(** Every line feed of the text is followed by such a character. *)
Fixpoint indented (s : pystr) : bool :=
  match s with
  | [] => true
  | c :: t =>
      (if c =? 10
       then match t with x :: _ => line_opener x | [] => false end
       else true)
      && indented t
  end.

(** Invocations to evaluate the scripts at: a log file that cannot be
    written, ... *)
Definition closed_log_world (input : pystr) : world :=
  {| stdin := input;
     environ := fun _ => None;
     now_isoformat := py "2026-01-01T00:00:00";
     now_strftime := py "2026-01-01 00:00:00";
     log_accepts := fun _ => false;
     stdout_accepts := fun _ => true;
     stdout_refusal := fun _ => AtPrint |}.


Definition environ_of (vars : list (pystr * pystr)) (name : pystr) : option pystr :=
  match find (fun kv => pystr_eqb (fst kv) name) vars with
  | Some kv => Some (snd kv)
  | None => None
  end.

(** ... and variables of the bridge. *)
Definition bridge_world (vars : list (pystr * pystr)) : world :=
  with_environ (sample_world []) (environ_of vars).

Definition short_command_input : pystr :=
  jq "{'tool_name':'Bash','tool_input':{'command':'ls'}}".


(** * Properties *)

Arguments py : simpl never.

Lemma pystr_eqb_refl (a : pystr) : pystr_eqb a a = true.
Proof.
  induction a as [|x a IH]; simpl; [reflexivity|].
  now rewrite N.eqb_refl.
Qed.

Lemma pystr_eqb_eq (a b : pystr) : pystr_eqb a b = true <-> a = b.
Proof.
  split.
  - revert b; induction a as [|x a IH]; intros [|y b]; simpl; try discriminate; auto.
    intros H. apply andb_true_iff in H as [Hx Hr].
    apply N.eqb_eq in Hx. f_equal; auto.
  - intros ->. apply pystr_eqb_refl.
Qed.

(** Division and remainder by a constant, for [lia]. *)
Ltac Zify.zify_post_hook ::= Z.to_euclidean_division_equations.

(** ** Prefixes and digit runs *)

Lemma starts_with_app (p s : pystr) : starts_with p (p ++ s) = true.
Proof.
  induction p as [|x p IH]; simpl; [reflexivity|].
  now rewrite N.eqb_refl.
Qed.

Lemma starts_with_split (p s : pystr) :
  starts_with p s = true -> s = p ++ skipn (List.length p) s.
Proof.
  revert s; induction p as [|x p IH]; intros [|y s]; simpl; try discriminate; auto.
  intros H. apply andb_true_iff in H as [Hx Hr]. apply N.eqb_eq in Hx. subst y.
  f_equal. auto.
Qed.

Lemma skipn_app_exact (p s : pystr) : skipn (List.length p) (p ++ s) = s.
Proof. induction p; simpl; auto. Qed.

(** ** Decimal text *)

Lemma fuel_bound_S (f : nat) : fuel_bound (S f) = 2 * fuel_bound f.
Proof. unfold fuel_bound. rewrite Nat2N.inj_succ, N.pow_succ_r'. reflexivity. Qed.

Lemma fuel_bound_pos (f : nat) : 0 < fuel_bound f.
Proof. unfold fuel_bound. apply N.neq_0_lt_0, N.pow_nonzero. discriminate. Qed.

Lemma fuel_bound_log2 (n : N) : n < fuel_bound (S (N.to_nat (N.log2 n))).
Proof.
  unfold fuel_bound. rewrite Nat2N.inj_succ, N2Nat.id.
  destruct (N.eq_dec n 0) as [->|Hn]; [reflexivity|].
  apply N.log2_spec. lia.
Qed.

Lemma div10_bound (n : N) (f : nat) : n < fuel_bound (S f) -> n / 10 < fuel_bound f.
Proof.
  rewrite fuel_bound_S. intros H.
  apply N.Div0.div_lt_upper_bound. lia.
Qed.

Lemma digits_of_acc (fuel : nat) (n : N) (acc : pystr) :
  digits_of fuel n acc = digits_of fuel n [] ++ acc.
Proof.
  revert n acc; induction fuel as [|f IH]; intros n acc; simpl; [reflexivity|].
  destruct (n / 10 =? 0); [reflexivity|].
  rewrite IH, (IH _ [_]), <- app_assoc. reflexivity.
Qed.

Lemma digits_of_fuel (f1 f2 : nat) (n : N) (acc : pystr) :
  n < fuel_bound (S f1) -> n < fuel_bound (S f2) ->
  digits_of (S f1) n acc = digits_of (S f2) n acc.
Proof.
  revert f2 n acc; induction f1 as [|f1 IH]; intros f2 n acc H1 H2;
    cbn [digits_of]; destruct (n / 10 =? 0) eqn:E; try reflexivity.
  - exfalso. apply N.eqb_neq in E. apply E.
    apply N.div_small. change (fuel_bound 1) with 2 in H1. lia.
  - destruct f2 as [|f2].
    + exfalso. apply N.eqb_neq in E. apply E.
      apply N.div_small. change (fuel_bound 1) with 2 in H2. lia.
    + apply IH; apply div10_bound; assumption.
Qed.

(** The defining equation of the decimal text. *)
Lemma N_text_eq (n : N) :
  N_text n = if n / 10 =? 0 then [48 + n mod 10]
             else N_text (n / 10) ++ [48 + n mod 10].
Proof.
  unfold N_text at 1. cbn [digits_of].
  destruct (n / 10 =? 0) eqn:E; [reflexivity|].
  rewrite digits_of_acc. f_equal.
  pose proof (fuel_bound_log2 n) as Hb.
  destruct (N.to_nat (N.log2 n)) as [|f] eqn:Ef.
  - exfalso. apply N.eqb_neq in E. apply E.
    apply N.div_small. change (fuel_bound 1) with 2 in Hb. lia.
  - unfold N_text. apply digits_of_fuel.
    + apply div10_bound. assumption.
    + apply fuel_bound_log2.
Qed.

Lemma mod10_lt (n : N) : n mod 10 < 10.
Proof. apply N.mod_lt. discriminate. Qed.

Lemma N_induction_div10 (P : N -> Prop) :
  (forall n, (n / 10 <> 0 -> P (n / 10)) -> P n) -> forall n, P n.
Proof.
  intros step n. induction n as [n IH] using (well_founded_induction N.lt_wf_0).
  apply step. intros Hq. apply IH.
  apply N.div_lt; [|lia].
  destruct (N.eq_dec n 0) as [->|]; [|lia]. exfalso. apply Hq. reflexivity.
Qed.

Lemma N_text_digits (n : N) : forallb is_ascii_digit (N_text n) = true.
Proof.
  induction n as [n IH] using N_induction_div10.
  assert (Hd : is_ascii_digit (48 + n mod 10) = true).
  { unfold is_ascii_digit. pose proof (mod10_lt n).
    apply andb_true_iff; split; apply N.leb_le; lia. }
  rewrite N_text_eq. destruct (n / 10 =? 0) eqn:E.
  - cbn [forallb]. now rewrite Hd.
  - apply N.eqb_neq in E. rewrite forallb_app, IH by assumption. cbn [forallb]. now rewrite Hd.
Qed.

Lemma N_text_nonempty (n : N) : N_text n <> [].
Proof.
  rewrite N_text_eq. destruct (n / 10 =? 0); [discriminate|].
  intros H. apply app_eq_nil in H as [_ H]. discriminate.
Qed.

(** A decimal text begins with a zero only when it is the text of zero. *)
Lemma N_text_head (n : N) :
  exists c rest, N_text n = c :: rest /\ is_ascii_digit c = true
                 /\ (c = 48 -> n = 0 /\ rest = []).
Proof.
  induction n as [n IH] using N_induction_div10.
  rewrite N_text_eq. destruct (n / 10 =? 0) eqn:E.
  - apply N.eqb_eq in E. exists (48 + n mod 10), []. split; [reflexivity|].
    pose proof (mod10_lt n). split.
    + unfold is_ascii_digit. apply andb_true_iff; split; apply N.leb_le; lia.
    + intros H0. split; [|reflexivity].
      lia.
  - apply N.eqb_neq in E. destruct (IH E) as (c & rest & Ht & Hc & H0).
    rewrite Ht. exists c, (rest ++ [48 + n mod 10]). split; [reflexivity|].
    split; [assumption|]. intros Hz. destruct (H0 Hz) as [Hq _]. contradiction.
Qed.

Lemma N_of_digits_snoc (ds : pystr) (c : N) :
  N_of_digits (ds ++ [c]) = N_of_digits ds * 10 + (c - 48).
Proof. unfold N_of_digits. rewrite fold_left_app. reflexivity. Qed.

Lemma N_of_digits_text (n : N) : N_of_digits (N_text n) = n.
Proof.
  induction n as [n IH] using N_induction_div10.
  rewrite N_text_eq.
  destruct (n / 10 =? 0) eqn:E.
  - apply N.eqb_eq in E. unfold N_of_digits. cbn [fold_left]. lia.
  - apply N.eqb_neq in E. rewrite N_of_digits_snoc, IH by assumption. lia.
Qed.

(** ** Hexadecimal text and surrogates *)

Lemma hex_value_digit (d : N) : d < 16 -> hex_value (hex_digit d) = Some d.
Proof.
  intros H.
  assert (E : In d [0;1;2;3;4;5;6;7;8;9;10;11;12;13;14;15]) by (cbn [In]; lia).
  cbn [In] in E.
  repeat (destruct E as [<-|E]; [reflexivity|]). contradiction.
Qed.

Lemma decode_hex4_digits (c : N) :
  c < 65536 ->
  decode_hex4 (hex_digit (c / 4096 mod 16)) (hex_digit (c / 256 mod 16))
              (hex_digit (c / 16 mod 16)) (hex_digit (c mod 16)) = Some c.
Proof.
  intros H. unfold decode_hex4.
  rewrite !hex_value_digit by lia. f_equal. lia.
Qed.

Lemma land_shiftl_low (h l : N) : l < 1024 -> N.land (N.shiftl h 10) l = 0.
Proof.
  intros H. apply N.bits_inj. intros i. rewrite N.land_spec, N.bits_0.
  destruct (N.ltb_spec i 10) as [Hi|Hi].
  - rewrite N.shiftl_spec_low by assumption. reflexivity.
  - destruct (N.eq_dec l 0) as [->|Hl]; [now rewrite N.bits_0, andb_false_r|].
    rewrite (N.bits_above_log2 l i), andb_false_r; [reflexivity|].
    apply N.lt_le_trans with 10; [|assumption].
    apply N.log2_lt_pow2; [lia|exact H].
Qed.

Lemma lor_shiftl_low (h l : N) : l < 1024 -> N.lor (N.shiftl h 10) l = h * 1024 + l.
Proof.
  intros H. rewrite <- N.lxor_lor, <- N.add_nocarry_lxor by (apply land_shiftl_low; exact H).
  rewrite N.shiftl_mul_pow2. reflexivity.
Qed.

Lemma high_half (n : N) :
  n < 1048576 -> N.lor 55296 (N.land (N.shiftr n 10) 1023) = 55296 + n / 1024.
Proof.
  intros H. change 1023 with (N.ones 10). rewrite N.land_ones, N.shiftr_div_pow2.
  change (2 ^ 10) with 1024. change 55296 with (N.shiftl 54 10).
  rewrite lor_shiftl_low by (apply N.mod_lt; discriminate).
  rewrite N.mod_small by lia. rewrite N.shiftl_mul_pow2. reflexivity.
Qed.

Lemma low_half (n : N) : N.lor 56320 (N.land n 1023) = 56320 + n mod 1024.
Proof.
  change 1023 with (N.ones 10). rewrite N.land_ones.
  change (2 ^ 10) with 1024. change 56320 with (N.shiftl 55 10).
  rewrite lor_shiftl_low by (apply N.mod_lt; discriminate).
  rewrite N.shiftl_mul_pow2. reflexivity.
Qed.

Lemma join_halves (n : N) :
  n < 1048576 -> join_surrogates (55296 + n / 1024) (56320 + n mod 1024) = 65536 + n.
Proof.
  intros H. unfold join_surrogates.
  replace (55296 + n / 1024 - 55296) with (n / 1024) by lia.
  replace (56320 + n mod 1024 - 56320) with (n mod 1024) by lia.
  rewrite lor_shiftl_low by (apply N.mod_lt; discriminate). lia.
Qed.

(** ** Strings through the encoder and the decoder *)

Lemma scan_u_step (h1 h2 h3 h4 uni : N) (tail : pystr) :
  decode_hex4 h1 h2 h3 h4 = Some uni ->
  (is_high_surrogate uni = true -> no_low_escape tail) ->
  scanstring (92 :: 117 :: h1 :: h2 :: h3 :: h4 :: tail) = push_char uni (scanstring tail).
Proof.
  intros Hd Hnext. cbn [scanstring]. change (92 =? 34) with false.
  change (92 =? 92) with true. change (117 =? 117) with true. cbv iota.
  rewrite Hd.
  destruct tail as [|b [|u [|k1 [|k2 [|k3 [|k4 s4]]]]]]; try reflexivity.
  destruct (is_high_surrogate uni) eqn:Hh; [|reflexivity].
  destruct ((b =? 92) && (u =? 117)) eqn:Hbu.
  - destruct (Hnext eq_refl Hbu) as (u2 & -> & ->).
    cbn [andb]. apply andb_true_iff in Hbu as [-> ->]. reflexivity.
  - cbn [andb]. destruct (b =? 92); [|reflexivity]. cbn in Hbu. rewrite Hbu. reflexivity.
Qed.

Lemma scan_pair_step (h1 h2 h3 h4 k1 k2 k3 k4 hi lo : N) (tail : pystr) :
  decode_hex4 h1 h2 h3 h4 = Some hi ->
  decode_hex4 k1 k2 k3 k4 = Some lo ->
  is_high_surrogate hi = true ->
  is_low_surrogate lo = true ->
  scanstring (92 :: 117 :: h1 :: h2 :: h3 :: h4 :: 92 :: 117 :: k1 :: k2 :: k3 :: k4 :: tail)
  = push_char (join_surrogates hi lo) (scanstring tail).
Proof.
  intros Hh Hk Hhi Hlo. cbn [scanstring]. change (92 =? 34) with false.
  change (92 =? 92) with true. change (117 =? 117) with true. cbv iota.
  rewrite Hh, Hhi. cbn [andb]. rewrite Hk, Hlo. reflexivity.
Qed.

Lemma escape_ascii_cases (c : N) :
  c < 1114112 ->
  (exists e, escape_ascii c = [92; e] /\ e <> 117 /\ backslash e = Some c)
  \/ (escape_ascii c = [c] /\ 32 <= c /\ c <> 34 /\ c <> 92)
  \/ (escape_ascii c = 92 :: 117 :: hex4 c /\ c < 65536)
  \/ (escape_ascii c
      = 92 :: 117 :: hex4 (55296 + (c - 65536) / 1024)
        ++ 92 :: 117 :: hex4 (56320 + (c - 65536) mod 1024)
      /\ 65536 <= c).
Proof.
  intros Hc. unfold escape_ascii.
  destruct (c =? 34) eqn:E1; [apply N.eqb_eq in E1; subst; left; eexists; repeat split; discriminate|].
  destruct (c =? 92) eqn:E2; [apply N.eqb_eq in E2; subst; left; eexists; repeat split; discriminate|].
  destruct (c =? 10) eqn:E3; [apply N.eqb_eq in E3; subst; left; eexists; repeat split; discriminate|].
  destruct (c =? 13) eqn:E4; [apply N.eqb_eq in E4; subst; left; eexists; repeat split; discriminate|].
  destruct (c =? 9) eqn:E5; [apply N.eqb_eq in E5; subst; left; eexists; repeat split; discriminate|].
  destruct (c =? 8) eqn:E6; [apply N.eqb_eq in E6; subst; left; eexists; repeat split; discriminate|].
  destruct (c =? 12) eqn:E7; [apply N.eqb_eq in E7; subst; left; eexists; repeat split; discriminate|].
  apply N.eqb_neq in E1, E2.
  destruct ((32 <=? c) && (c <=? 126)) eqn:E8.
  - apply andb_true_iff in E8 as [H1 H2]. apply N.leb_le in H1.
    right; left. repeat split; assumption.
  - destruct (c <? 65536) eqn:E9.
    + apply N.ltb_lt in E9. right; right; left. split; [reflexivity|assumption].
    + apply N.ltb_ge in E9. right; right; right. split; [|assumption].
      cbv zeta. rewrite low_half, high_half by lia. reflexivity.
Qed.

Lemma no_low_escape_quote (rest : pystr) : no_low_escape (34 :: rest).
Proof.
  unfold no_low_escape. destruct rest as [|u [|k1 [|k2 [|k3 [|k4 t]]]]]; try exact I.
  discriminate.
Qed.

Lemma hex4_is (n : N) :
  hex4 n = [hex_digit (n / 4096 mod 16); hex_digit (n / 256 mod 16);
            hex_digit (n / 16 mod 16); hex_digit (n mod 16)].
Proof. reflexivity. Qed.

Lemma no_low_escape_next (c : N) (t : pystr) :
  c < 1114112 -> is_low_surrogate c = false -> no_low_escape (escape_ascii c ++ t).
Proof.
  intros Hc Hlow.
  destruct (escape_ascii_cases c Hc) as [(e & -> & He & _)|[(-> & _ & _ & H92)|[(-> & Hlt)|(-> & Hge)]]].
  - unfold no_low_escape. cbn [app].
    destruct t as [|k1 [|k2 [|k3 [|k4 t]]]]; try exact I.
    apply N.eqb_neq in He. rewrite He, andb_false_r. discriminate.
  - unfold no_low_escape. cbn [app].
    destruct t as [|u [|k1 [|k2 [|k3 [|k4 t]]]]]; try exact I.
    apply N.eqb_neq in H92. rewrite H92. discriminate.
  - rewrite hex4_is. unfold no_low_escape. cbn [app]. intros _.
    exists c. split; [apply decode_hex4_digits; assumption|assumption].
  - rewrite hex4_is. unfold no_low_escape. cbn [app]. intros _.
    exists (55296 + (c - 65536) / 1024).
    split; [apply decode_hex4_digits; lia|].
    unfold is_low_surrogate. apply andb_false_iff. left. apply N.leb_gt. lia.
Qed.

Lemma scanstring_escape (c : N) (tail : pystr) :
  c < 1114112 ->
  (is_high_surrogate c = true -> no_low_escape tail) ->
  scanstring (escape_ascii c ++ tail) = push_char c (scanstring tail).
Proof.
  intros Hc Hnext.
  destruct (escape_ascii_cases c Hc) as [(e & -> & He & Hb)|[(-> & H32 & H34 & H92)|[(-> & Hlt)|(-> & Hge)]]].
  - cbn [app scanstring]. change (92 =? 34) with false. change (92 =? 92) with true.
    cbv iota. apply N.eqb_neq in He. rewrite He, Hb. reflexivity.
  - cbn [app scanstring]. apply N.eqb_neq in H34, H92. rewrite H34, H92.
    apply N.ltb_ge in H32. rewrite H32. reflexivity.
  - rewrite hex4_is. cbn [app]. apply scan_u_step; [apply decode_hex4_digits|]; assumption.
  - rewrite !hex4_is. cbn [app].
    rewrite (scan_pair_step _ _ _ _ _ _ _ _ (55296 + (c - 65536) / 1024)
                            (56320 + (c - 65536) mod 1024)).
    + rewrite join_halves by lia. f_equal. lia.
    + apply decode_hex4_digits. lia.
    + apply decode_hex4_digits. lia.
    + unfold is_high_surrogate. apply andb_true_iff; split; apply N.leb_le; lia.
    + unfold is_low_surrogate. apply andb_true_iff; split; apply N.leb_le; lia.
Qed.

Lemma wf_str_cons (c : N) (s : pystr) :
  wf_str (c :: s) = true ->
  c < 1114112 /\ wf_str s = true
  /\ (is_high_surrogate c = true ->
      match s with c2 :: _ => is_low_surrogate c2 = false | [] => True end).
Proof.
  unfold wf_str. cbn [forallb no_surrogate_pair]. rewrite !andb_true_iff.
  intros [[Hc Hs] [Hp Hn]]. apply N.ltb_lt in Hc.
  split; [assumption|]. split; [now rewrite Hs, Hn|].
  intros Hh. destruct s as [|c2 s]; [exact I|].
  rewrite Hh in Hp. cbn in Hp. now destruct (is_low_surrogate c2).
Qed.

(** The decoder reads back what the encoder wrote between the quotes. *)
Lemma scanstring_encoded (s rest : pystr) :
  wf_str s = true ->
  scanstring (flat_map escape_ascii s ++ 34 :: rest) = Some (s, rest).
Proof.
  induction s as [|c s IH]; intros Hwf.
  - reflexivity.
  - destruct (wf_str_cons c s Hwf) as (Hc & Hs & Hnext).
    cbn [flat_map]. rewrite <- app_assoc, scanstring_escape, (IH Hs); try assumption.
    + reflexivity.
    + intros Hh. specialize (Hnext Hh). destruct s as [|c2 s].
      * apply no_low_escape_quote.
      * cbn [flat_map]. rewrite <- app_assoc. apply no_low_escape_next; [|assumption].
        apply wf_str_cons in Hs. tauto.
Qed.

(** ** Numbers through the encoder and the decoder *)

Lemma delimited_no_digit (rest : pystr) : delimited rest -> no_digit_ahead rest.
Proof.
  destruct rest as [|c rest]; simpl; [auto|]. unfold number_char.
  rewrite !orb_false_iff. tauto.
Qed.

Lemma span_digits_app (a rest : pystr) :
  no_digit_ahead rest ->
  span_digits (a ++ rest) = (fst (span_digits a), snd (span_digits a) ++ rest).
Proof.
  intros Hrest. induction a as [|c a IH]; cbn [app span_digits].
  - destruct rest as [|x rest]; [reflexivity|]. simpl in Hrest.
    cbn [span_digits]. rewrite Hrest. reflexivity.
  - destruct (is_ascii_digit c); [|reflexivity].
    rewrite IH. destruct (span_digits a). reflexivity.
Qed.

Lemma span_digits_split (s : pystr) :
  s = fst (span_digits s) ++ snd (span_digits s).
Proof.
  induction s as [|c s IH]; cbn [span_digits]; [reflexivity|].
  destruct (is_ascii_digit c); [|reflexivity].
  destruct (span_digits s) as [ds r]. cbn [fst snd] in *. rewrite IH at 1. reflexivity.
Qed.

Lemma span_digits_all (ds : pystr) :
  forallb is_ascii_digit ds = true -> span_digits ds = (ds, []).
Proof.
  induction ds as [|c ds IH]; cbn [forallb span_digits]; [reflexivity|].
  intros H. apply andb_true_iff in H as [-> H]. rewrite (IH H). reflexivity.
Qed.

Lemma match_integer_app (t rest i r1 : pystr) :
  no_digit_ahead rest ->
  match_integer t = Some (i, r1) ->
  match_integer (t ++ rest) = Some (i, r1 ++ rest).
Proof.
  intros Hrest. unfold match_integer.
  destruct t as [|c t]; [discriminate|]. cbn [app].
  destruct (c =? 45).
  - destruct t as [|c' t]; [discriminate|]. cbn [app].
    destruct (c' =? 48); [intros [= <- <-]; reflexivity|].
    destruct (is_ascii_digit c'); [|discriminate].
    rewrite (span_digits_app t rest Hrest). destruct (span_digits t) as [ds r].
    intros [= <- <-]. reflexivity.
  - destruct (c =? 48); [intros [= <- <-]; reflexivity|].
    destruct (is_ascii_digit c); [|discriminate].
    rewrite (span_digits_app t rest Hrest). destruct (span_digits t) as [ds r].
    intros [= <- <-]. reflexivity.
Qed.

Lemma match_integer_split (t i r1 : pystr) :
  match_integer t = Some (i, r1) -> t = i ++ r1.
Proof.
  unfold match_integer. destruct t as [|c t]; [discriminate|].
  destruct (c =? 45).
  - destruct t as [|c' t]; [discriminate|].
    destruct (c' =? 48); [intros [= <- <-]; reflexivity|].
    destruct (is_ascii_digit c'); [|discriminate].
    pose proof (span_digits_split t) as Hs. destruct (span_digits t) as [ds r].
    intros [= <- <-]. cbn [fst snd app] in *. now rewrite Hs at 1.
  - destruct (c =? 48); [intros [= <- <-]; reflexivity|].
    destruct (is_ascii_digit c); [|discriminate].
    pose proof (span_digits_split t) as Hs. destruct (span_digits t) as [ds r].
    intros [= <- <-]. cbn [fst snd app] in *. now rewrite Hs at 1.
Qed.

Lemma match_frac_app (r rest : pystr) :
  delimited rest ->
  match_frac (r ++ rest) = (fst (match_frac r), snd (match_frac r) ++ rest).
Proof.
  intros Hrest. pose proof (delimited_no_digit rest Hrest) as Hd.
  unfold match_frac. destruct r as [|c r]; cbn [app].
  - destruct rest as [|x rest]; [reflexivity|]. simpl in Hrest.
    unfold number_char in Hrest. rewrite !orb_false_iff in Hrest.
    destruct Hrest as [[[_ H46] _] _]. rewrite H46. reflexivity.
  - destruct (c =? 46); [|reflexivity].
    rewrite (span_digits_app r rest Hd). destruct (span_digits r) as [ds r'].
    cbn [fst snd]. destruct ds; reflexivity.
Qed.

Lemma match_frac_split (r : pystr) : r = fst (match_frac r) ++ snd (match_frac r).
Proof.
  unfold match_frac. destruct r as [|c r]; [reflexivity|].
  destruct (c =? 46); [|reflexivity].
  pose proof (span_digits_split r) as Hs. destruct (span_digits r) as [ds r'].
  cbn [fst snd] in Hs. destruct ds; [reflexivity|]. cbn [fst snd app]. now rewrite Hs at 1.
Qed.

Lemma match_exp_app (r rest : pystr) :
  delimited rest ->
  match_exp (r ++ rest) = (fst (match_exp r), snd (match_exp r) ++ rest).
Proof.
  intros Hrest. pose proof (delimited_no_digit rest Hrest) as Hd.
  assert (Hhead : match rest with
                  | [] => True
                  | x :: _ => (x =? 101) || (x =? 69) = false
                              /\ (x =? 45) || (x =? 43) = false
                  end).
  { destruct rest as [|x rest]; [exact I|]. simpl in Hrest.
    unfold number_char in Hrest. rewrite !orb_false_iff in Hrest.
    rewrite !orb_false_iff. tauto. }
  unfold match_exp. destruct r as [|c r]; cbn [app].
  - destruct rest as [|x rest]; [reflexivity|]. destruct Hhead as [-> _]. reflexivity.
  - destruct ((c =? 101) || (c =? 69)); [|reflexivity].
    destruct r as [|x r]; cbn [app].
    + destruct rest as [|y rest]; [reflexivity|]. destruct Hhead as [_ ->].
      simpl in Hd. cbn [span_digits]. rewrite Hd. reflexivity.
    + destruct ((x =? 45) || (x =? 43)).
      * rewrite (span_digits_app r rest Hd). destruct (span_digits r) as [ds r'].
        cbn [fst snd]. destruct ds; reflexivity.
      * change (x :: r ++ rest) with ((x :: r) ++ rest).
        rewrite (span_digits_app (x :: r) rest Hd).
        destruct (span_digits (x :: r)) as [ds r']. cbn [fst snd]. destruct ds; reflexivity.
Qed.

Lemma match_exp_split (r : pystr) : r = fst (match_exp r) ++ snd (match_exp r).
Proof.
  unfold match_exp. destruct r as [|c r]; [reflexivity|].
  destruct ((c =? 101) || (c =? 69)); [|reflexivity].
  destruct r as [|x r].
  - reflexivity.
  - destruct ((x =? 45) || (x =? 43)).
    + pose proof (span_digits_split r) as Hs. destruct (span_digits r) as [ds r'].
      cbn [fst snd] in Hs. destruct ds; [reflexivity|].
      cbn [fst snd app]. now rewrite Hs at 1.
    + pose proof (span_digits_split (x :: r)) as Hs.
      destruct (span_digits (x :: r)) as [ds r']. cbn [fst snd] in Hs.
      destruct ds; [reflexivity|]. cbn [fst snd app]. rewrite Hs at 1. reflexivity.
Qed.

Lemma match_frac_delimited (rest : pystr) : delimited rest -> match_frac rest = ([], rest).
Proof. intros H. exact (match_frac_app [] rest H). Qed.

Lemma match_exp_delimited (rest : pystr) : delimited rest -> match_exp rest = ([], rest).
Proof. intros H. exact (match_exp_app [] rest H). Qed.

Lemma ascii_digit_not_minus (c : N) : is_ascii_digit c = true -> (c =? 45) = false.
Proof.
  unfold is_ascii_digit. intros H. apply andb_true_iff in H as [H _].
  apply N.leb_le in H. apply N.eqb_neq. lia.
Qed.

Lemma match_integer_N_text (n : N) (rest : pystr) :
  no_digit_ahead rest ->
  match_integer (N_text n ++ rest) = Some (N_text n, rest).
Proof.
  intros Hrest. destruct (N_text_head n) as (c & t & Ht & Hc & H0).
  pose proof (N_text_digits n) as Hds. rewrite Ht in *.
  cbn [forallb] in Hds. apply andb_true_iff in Hds as [_ Hds].
  unfold match_integer. cbn [app]. rewrite (ascii_digit_not_minus c Hc).
  destruct (c =? 48) eqn:E.
  - apply N.eqb_eq in E. destruct (H0 E) as [_ ->]. reflexivity.
  - rewrite Hc, (span_digits_app t rest Hrest), (span_digits_all t Hds). reflexivity.
Qed.

Lemma match_integer_Z_text (z : Z) (rest : pystr) :
  no_digit_ahead rest ->
  match_integer (Z_text z ++ rest) = Some (Z_text z, rest).
Proof.
  intros Hrest. destruct z as [|q|q]; try apply match_integer_N_text; try assumption.
  unfold Z_text.
  destruct (N_text_head (N.pos q)) as (c & t & Ht & Hc & H0).
  pose proof (N_text_digits (N.pos q)) as Hds. rewrite Ht in *.
  cbn [forallb] in Hds. apply andb_true_iff in Hds as [_ Hds].
  unfold match_integer. cbn [app]. change (45 =? 45) with true. cbv iota.
  destruct (c =? 48) eqn:E.
  - apply N.eqb_eq in E. destruct (H0 E) as [H _]. discriminate.
  - rewrite Hc, (span_digits_app t rest Hrest), (span_digits_all t Hds). reflexivity.
Qed.

Lemma int_of_Z_text (z : Z) : int_of_text (Z_text z) = z.
Proof.
  destruct z as [|q|q].
  - reflexivity.
  - unfold Z_text. cbn [Z.to_N].
    destruct (N_text_head (N.pos q)) as (c & t & Ht & Hc & _).
    unfold int_of_text. rewrite Ht, (ascii_digit_not_minus c Hc), <- Ht, N_of_digits_text.
    reflexivity.
  - unfold Z_text, int_of_text. change (45 =? 45) with true. cbv iota.
    rewrite N_of_digits_text. reflexivity.
Qed.

Lemma starts_with_cons (x c : N) (p s : pystr) :
  starts_with (x :: p) (c :: s) = (x =? c) && starts_with p s.
Proof. reflexivity. Qed.

Section Numbers.
Context {R : PyRuntime}.

Lemma match_number_int (z : Z) (rest : pystr) :
  delimited rest -> match_number (Z_text z ++ rest) = Some (VInt z, rest).
Proof.
  intros Hrest. unfold match_number.
  rewrite (match_integer_Z_text z rest (delimited_no_digit rest Hrest)).
  rewrite (match_frac_delimited rest Hrest), (match_exp_delimited rest Hrest).
  rewrite int_of_Z_text. reflexivity.
Qed.

Lemma match_number_float (t rest : pystr) :
  is_float_literal t = true -> delimited rest ->
  match_number (t ++ rest) = Some (VFloat (float_of_literal t), rest).
Proof.
  unfold is_float_literal, match_number. intros Hlit Hrest.
  destruct (match_integer t) as [[i r1]|] eqn:Ei; [|discriminate].
  rewrite (match_integer_app t rest i r1 (delimited_no_digit rest Hrest) Ei).
  rewrite (match_frac_app r1 rest Hrest).
  pose proof (match_frac_split r1) as Hf.
  destruct (match_frac r1) as [frac r2]. cbn [fst snd] in *.
  rewrite (match_exp_app r2 rest Hrest).
  pose proof (match_exp_split r2) as He.
  destruct (match_exp r2) as [exp r3]. cbn [fst snd] in *.
  destruct r3 as [|x r3]; [|discriminate].
  apply match_integer_split in Ei. rewrite app_nil_r in He. subst r2 r1 t.
  destruct frac, exp; try discriminate; reflexivity.
Qed.

(** A text the number pattern matches begins with a digit or a minus. *)
Lemma match_number_head (s : pystr) (v : value) (r : pystr) :
  match_number s = Some (v, r) ->
  exists c s', s = c :: s' /\ (is_ascii_digit c = true \/ c = 45).
Proof.
  unfold match_number, match_integer. destruct s as [|c s]; [discriminate|].
  intros H. exists c, s. split; [reflexivity|].
  destruct (c =? 45) eqn:E; [right; now apply N.eqb_eq|]. left.
  destruct (c =? 48) eqn:E0; [apply N.eqb_eq in E0; subst; reflexivity|].
  destruct (is_ascii_digit c); [reflexivity|discriminate].
Qed.

Lemma scan_once_number (fuel : nat) (s : pystr) (v : value) (r : pystr) :
  match_number s = Some (v, r) -> scan_once (S fuel) s = Scanned v r.
Proof.
  intros H. destruct (match_number_head s v r H) as (c & s' & -> & Hc).
  cbn [scan_once].
  assert (E : (c =? 34) = false /\ (c =? 123) = false /\ (c =? 91) = false
              /\ (110 =? c) = false /\ (116 =? c) = false /\ (102 =? c) = false).
  { rewrite !N.eqb_neq. destruct Hc as [Hc| ->]; [|repeat split; discriminate].
    unfold is_ascii_digit in Hc. apply andb_true_iff in Hc as [H1 H2].
    apply N.leb_le in H1, H2. repeat split; lia. }
  destruct E as (-> & -> & -> & E1 & E2 & E3).
  change (py "null") with (110 :: py "ull").
  change (py "true") with (116 :: py "rue"). change (py "false") with (102 :: py "alse").
  rewrite !starts_with_cons, E1, E2, E3. cbn [andb]. rewrite H. reflexivity.
Qed.

End Numbers.

(** ** Whitespace *)

Lemma skip_ws_app (t u : pystr) :
  forallb json_ws t = true -> skip_ws (t ++ u) = skip_ws u.
Proof.
  induction t as [|c t IH]; cbn [forallb app skip_ws]; [reflexivity|].
  intros H. apply andb_true_iff in H as [-> H]. auto.
Qed.

Lemma skip_ws_solid (u : pystr) : starts_solid u -> skip_ws u = u.
Proof. destruct u as [|c u]; simpl; [reflexivity|]. now intros ->. Qed.

Lemma newline_indent_ws (indent : option nat) (level : nat) :
  forallb json_ws (newline_indent indent level) = true.
Proof.
  destruct indent as [n|]; simpl; [|reflexivity].
  induction (n * level)%nat; simpl; auto.
Qed.

(** The separator between items: a comma, then whitespace. *)
Lemma item_separator_shape (indent : option nat) (level : nat) :
  exists blank,
    item_separator indent ++ newline_indent indent level = 44 :: blank
    /\ forallb json_ws blank = true.
Proof.
  destruct indent as [n|].
  - exists (newline_indent (Some n) level). split; [reflexivity|apply newline_indent_ws].
  - exists [32]. split; reflexivity.
Qed.

Lemma join_items (sep : pystr) (t : pystr) (ts : list pystr) (close : pystr) :
  join sep (t :: ts) ++ close = t ++ items_text ts sep close.
Proof.
  revert t; induction ts as [|t' ts IH]; intros t.
  - reflexivity.
  - change (join sep (t :: t' :: ts)) with (t ++ sep ++ join sep (t' :: ts)).
    rewrite <- !app_assoc, IH. reflexivity.
Qed.

(** ** Mappings *)

Section Dicts.
Context {R : PyRuntime}.

Lemma existsb_eqb_false (k : pystr) (l : list pystr) :
  existsb (pystr_eqb k) l = false -> ~ In k l.
Proof.
  induction l as [|x l IH]; cbn [existsb In]; [tauto|].
  rewrite orb_false_iff. intros [Hx Hl] [->|H]; [|apply IH; assumption].
  rewrite pystr_eqb_refl in Hx. discriminate.
Qed.

Lemma dict_set_new (d : dict) (k : pystr) (v : value) :
  ~ In k (keys d) -> dict_set d k v = d ++ [(k, v)].
Proof.
  induction d as [|[k' v'] d IH]; cbn [dict_set keys map fst In app]; [reflexivity|].
  intros Hn. destruct (pystr_eqb k' k) eqn:E.
  - apply pystr_eqb_eq in E. tauto.
  - rewrite IH by tauto. reflexivity.
Qed.

Lemma fold_dict_set (d acc : dict) :
  distinct (keys d) = true ->
  (forall k, In k (keys d) -> ~ In k (keys acc)) ->
  fold_left (fun a kv => dict_set a (fst kv) (snd kv)) d acc = acc ++ d.
Proof.
  revert acc; induction d as [|[k v] d IH]; intros acc Hd Hacc; cbn [fold_left].
  - now rewrite app_nil_r.
  - cbn [keys map fst distinct] in Hd. apply andb_true_iff in Hd as [Hk Hd].
    apply negb_true_iff, existsb_eqb_false in Hk.
    cbn [fst snd]. rewrite dict_set_new by (apply Hacc; left; reflexivity).
    rewrite IH; [now rewrite <- app_assoc|assumption|].
    intros k' Hin. unfold keys. rewrite map_app, in_app_iff. cbn [map fst In].
    intros [H|[H|[]]].
    + apply (Hacc k'); [right; assumption|assumption].
    + subst k'. contradiction.
Qed.

(** [dict(pairs)] of pairs with distinct keys is the list of pairs. *)
Lemma dict_of_pairs_distinct (d : dict) :
  distinct (keys d) = true -> dict_of_pairs d = d.
Proof.
  intros H. unfold dict_of_pairs. rewrite fold_dict_set; [reflexivity|assumption|].
  intros k _ [].
Qed.

End Dicts.

(** ** Values through the encoder and the decoder *)

Section RoundTrip.
Context {R : PyRuntime} {L : FloatLaws R}.

Lemma value_induction (P : value -> Prop) :
  P VNone -> (forall b, P (VBool b)) -> (forall z, P (VInt z)) ->
  (forall f, P (VFloat f)) -> (forall s, P (VStr s)) ->
  (forall l, Forall P l -> P (VList l)) ->
  (forall d, Forall (fun kv => P (snd kv)) d -> P (VDict d)) ->
  forall v, P v.
Proof.
  intros HN HB HI HF HS HL HD. fix IH 1. intros [ |b|z|f|s|l|d].
  - exact HN.
  - apply HB.
  - apply HI.
  - apply HF.
  - apply HS.
  - apply HL. induction l as [|x l IHl]; constructor; [apply IH|exact IHl].
  - apply HD. induction d as [|[k x] d IHd]; constructor; [apply IH|exact IHd].
Qed.

Lemma float_literal_head (t : pystr) :
  is_float_literal t = true ->
  exists c t', t = c :: t' /\ (is_ascii_digit c = true \/ c = 45).
Proof.
  unfold is_float_literal, match_integer. destruct t as [|c t]; [discriminate|].
  intros H. exists c, t. split; [reflexivity|].
  destruct (c =? 45) eqn:E; [right; now apply N.eqb_eq|]. left.
  destruct (c =? 48) eqn:E0; [apply N.eqb_eq in E0; subst; reflexivity|].
  destruct (is_ascii_digit c); [reflexivity|discriminate].
Qed.

Lemma number_head_starts_value (c : N) (t : pystr) :
  is_ascii_digit c = true \/ c = 45 -> starts_value (c :: t).
Proof.
  intros [H| ->]; [|split; reflexivity].
  unfold is_ascii_digit in H. apply andb_true_iff in H as [H1 H2].
  apply N.leb_le in H1, H2. unfold starts_value, json_ws.
  split; [|apply N.eqb_neq; lia].
  rewrite !orb_false_iff, !N.eqb_neq. repeat split; lia.
Qed.

Lemma float_json_starts_value (f : pyfloat) : starts_value (float_json f).
Proof.
  destruct (float_json_decodes f) as [[H _]|[[-> _]|[[-> _]|[-> _]]]];
    try (split; reflexivity).
  destruct (float_literal_head _ H) as (c & t & -> & Hc).
  now apply number_head_starts_value.
Qed.

Lemma Z_text_starts_value (z : Z) : starts_value (Z_text z).
Proof.
  destruct z as [|q|q]; try (split; reflexivity).
  unfold Z_text. destruct (N_text_head (Z.to_N (Z.pos q))) as (c & t & -> & Hc & _).
  apply number_head_starts_value. now left.
Qed.

Lemma iterencode_starts_value (indent : option nat) (level : nat) (v : value) :
  starts_value (iterencode indent level v).
Proof.
  destruct v as [ |[|]|z|f|s|[|x l]|[|kv d]]; try (split; reflexivity).
  - apply Z_text_starts_value.
  - apply float_json_starts_value.
Qed.

Lemma starts_value_solid (u rest : pystr) : starts_value u -> starts_solid (u ++ rest).
Proof. destruct u as [|c u]; simpl; [contradiction|tauto]. Qed.

Lemma scan_once_float (f : pyfloat) (fuel : nat) (rest : pystr) :
  delimited rest -> scan_once (S fuel) (float_json f ++ rest) = Scanned (VFloat f) rest.
Proof.
  intros Hrest.
  destruct (float_json_decodes f) as [[Hl Hf]|[[-> ->]|[[-> ->]|[-> ->]]]];
    try reflexivity.
  apply scan_once_number. rewrite match_number_float by assumption. now rewrite Hf.
Qed.

Lemma closing_skip (indent : option nat) (level : nat) (bracket : N) (rest : pystr) :
  json_ws bracket = false ->
  skip_ws (closing indent level bracket rest) = bracket :: rest.
Proof.
  intros H. unfold closing. rewrite skip_ws_app by apply newline_indent_ws.
  apply skip_ws_solid. exact H.
Qed.

Lemma delimited_closing (indent : option nat) (level : nat) (bracket : N) (rest : pystr) :
  number_char bracket = false -> delimited (closing indent level bracket rest).
Proof. intros H. unfold closing. destruct indent; simpl; [reflexivity|exact H]. Qed.

Lemma delimited_items (ts : list pystr) (blank close : pystr) :
  delimited close -> delimited (items_text ts (44 :: blank) close).
Proof. intros H. destruct ts; [exact H|reflexivity]. Qed.

Lemma array_items_encoded (indent : option nat) (level : nat) (blank rest : pystr) :
  forallb json_ws blank = true ->
  forall l x acc fuel,
    Forall round_trips (x :: l) ->
    (S (size x + fold_right (fun y n => S (size y + n)) O l) <= fuel)%nat ->
    array_items fuel
      (iterencode indent (S level) x
       ++ items_text (map (iterencode indent (S level)) l) (44 :: blank)
                     (closing indent level 93 rest)) acc
    = Scanned (VList (rev acc ++ x :: l)) rest.
Proof.
  intros Hblank. induction l as [|y l IH]; intros x acc fuel Hrt Hfuel;
    (destruct fuel as [|fuel]; [lia|]); cbn [array_items map items_text];
    inversion Hrt as [|? ? Hx Hl]; subst.
  - rewrite Hx; [|cbn [fold_right] in Hfuel; lia|apply delimited_closing; reflexivity].
    rewrite closing_skip by reflexivity. change (93 =? 93) with true. cbv iota.
    cbn [rev]. reflexivity.
  - rewrite Hx;
      [|cbn [fold_right] in Hfuel; lia
       |apply (delimited_items (_ :: _)), delimited_closing; reflexivity].
    cbn [app skip_ws]. change (json_ws 44) with false. cbv iota.
    change (44 =? 93) with false. change (44 =? 44) with true. cbv iota.
    rewrite skip_ws_app by assumption.
    rewrite skip_ws_solid by (apply starts_value_solid, iterencode_starts_value).
    rewrite IH; [|assumption|cbn [fold_right] in Hfuel; lia].
    cbn [rev]. rewrite <- app_assoc. reflexivity.
Qed.

Lemma pair_text_body (indent : option nat) (level : nat) (kv : pystr * value) :
  pair_text indent level kv = 34 :: pair_body indent level kv.
Proof.
  unfold pair_text, pair_body, encode_basestring_ascii. cbn [app].
  rewrite <- !app_assoc. reflexivity.
Qed.

Lemma object_items_encoded (indent : option nat) (level : nat) (blank rest : pystr) :
  forallb json_ws blank = true ->
  forall d kv acc fuel,
    Forall (fun p => wf_str (fst p) = true /\ round_trips (snd p)) (kv :: d) ->
    (S (size (snd kv) + fold_right (fun p n => S (size (snd p) + n)) O d) <= fuel)%nat ->
    object_items fuel
      (pair_body indent (S level) kv
       ++ items_text (map (pair_text indent (S level)) d) (44 :: blank)
                     (closing indent level 125 rest)) acc
    = Scanned (VDict (dict_of_pairs (rev acc ++ kv :: d))) rest.
Proof.
  intros Hblank. induction d as [|kv' d IH]; intros [k v] acc fuel Hrt Hfuel;
    (destruct fuel as [|fuel]; [lia|]); cbn [object_items map items_text];
    inversion Hrt as [|? ? [Hk Hv] Hd]; subst; cbn [fst snd] in *;
    unfold pair_body at 1; cbn [fst snd]; rewrite <- !app_assoc; cbn [app];
    rewrite (scanstring_encoded k _ Hk);
    unfold key_separator; change (py ": ") with [58; 32]; cbn [app skip_ws];
    change (json_ws 58) with false; cbv iota; change (58 =? 58) with true; cbv iota;
    cbn [skip_ws]; change (json_ws 32) with true; cbv iota;
    rewrite skip_ws_solid by (apply starts_value_solid, iterencode_starts_value).
  - rewrite Hv; [|cbn [fold_right] in Hfuel; lia|apply delimited_closing; reflexivity].
    rewrite closing_skip by reflexivity. change (125 =? 125) with true. cbv iota.
    cbn [rev]. reflexivity.
  - rewrite Hv;
      [|cbn [fold_right] in Hfuel; lia
       |apply (delimited_items (_ :: _)), delimited_closing; reflexivity].
    cbn [app skip_ws]. change (json_ws 44) with false. cbv iota.
    change (44 =? 125) with false. change (44 =? 44) with true. cbv iota.
    rewrite skip_ws_app by assumption.
    rewrite pair_text_body. cbn [app skip_ws]. change (json_ws 34) with false. cbv iota.
    change (34 =? 34) with true. cbv iota.
    rewrite IH; [|assumption|cbn [fold_right] in Hfuel; lia].
    cbn [rev]. rewrite <- app_assoc. reflexivity.
Qed.

Lemma iterencode_list (indent : option nat) (level : nat) (x : value) (l : list value)
    (rest : pystr) :
  exists blank,
    forallb json_ws blank = true
    /\ iterencode indent level (VList (x :: l)) ++ rest
       = 91 :: newline_indent indent (S level)
         ++ iterencode indent (S level) x
         ++ items_text (map (iterencode indent (S level)) l) (44 :: blank)
                       (closing indent level 93 rest).
Proof.
  destruct (item_separator_shape indent (S level)) as (blank & Hsep & Hblank).
  exists blank. split; [assumption|].
  cbn [iterencode]. rewrite Hsep. cbn [app]. f_equal.
  rewrite <- !app_assoc. f_equal. cbn [app].
  change (iterencode indent (S level) x :: map (iterencode indent (S level)) l)
    with (map (iterencode indent (S level)) (x :: l)).
  cbn [map]. rewrite join_items. reflexivity.
Qed.

Lemma iterencode_dict (indent : option nat) (level : nat) (kv : pystr * value) (d : dict)
    (rest : pystr) :
  exists blank,
    forallb json_ws blank = true
    /\ iterencode indent level (VDict (kv :: d)) ++ rest
       = 123 :: newline_indent indent (S level)
         ++ 34 :: pair_body indent (S level) kv
         ++ items_text (map (pair_text indent (S level)) d) (44 :: blank)
                       (closing indent level 125 rest).
Proof.
  destruct (item_separator_shape indent (S level)) as (blank & Hsep & Hblank).
  exists blank. split; [assumption|].
  cbn [iterencode]. rewrite Hsep. cbn [app]. f_equal.
  rewrite <- !app_assoc. f_equal. cbn [app].
  change (fun kv0 : pystr * value =>
            encode_basestring_ascii (fst kv0) ++ key_separator
            ++ iterencode indent (S level) (snd kv0))
    with (pair_text indent (S level)).
  cbn [map]. rewrite join_items, pair_text_body. reflexivity.
Qed.

(** The decoder reads back what the encoder wrote, at any indent. *)
Theorem iterencode_round_trips (v : value) : wf_value v = true -> round_trips v.
Proof.
  induction v as [ |b|z|f|s|l IH|d IH] using value_induction; intros Hwf;
    intros indent level fuel rest Hfuel Hrest;
    (destruct fuel as [|fuel]; [cbn in Hfuel; lia|]).
  - reflexivity.
  - destruct b; reflexivity.
  - apply scan_once_number, match_number_int. assumption.
  - apply scan_once_float. assumption.
  - cbn [iterencode]. unfold encode_basestring_ascii. cbn [app scan_once].
    change (34 =? 34) with true. cbv iota. cbn [wf_value] in Hwf.
    rewrite <- app_assoc. cbn [app]. rewrite (scanstring_encoded s rest Hwf). reflexivity.
  - destruct l as [|x l]; [reflexivity|].
    assert (Hall : Forall round_trips (x :: l)).
    { cbn [wf_value] in Hwf. rewrite forallb_forall in Hwf.
      rewrite Forall_forall in IH |- *. intros y Hy. apply IH; auto. }
    destruct (iterencode_list indent level x l rest) as (blank & Hblank & ->).
    cbn [scan_once]. change (91 =? 34) with false. change (91 =? 123) with false.
    change (91 =? 91) with true. cbv iota.
    rewrite skip_ws_app by apply newline_indent_ws.
    rewrite skip_ws_solid by (apply starts_value_solid, iterencode_starts_value).
    pose proof (iterencode_starts_value indent (S level) x) as Hhead.
    destruct (iterencode indent (S level) x) as [|c t] eqn:Ex; [contradiction|].
    cbn [app]. destruct Hhead as [_ ->].
    change (c :: t ++ ?u) with ((c :: t) ++ u). rewrite <- Ex.
    rewrite (array_items_encoded indent level blank rest Hblank l x [] fuel Hall).
    + reflexivity.
    + cbn [size fold_right] in Hfuel. lia.
  - destruct d as [|kv d]; [reflexivity|].
    cbn [wf_value] in Hwf. apply andb_true_iff in Hwf as [Hkeys Hwf].
    assert (Hall : Forall (fun p => wf_str (fst p) = true /\ round_trips (snd p)) (kv :: d)).
    { rewrite forallb_forall in Hwf. rewrite Forall_forall in IH |- *.
      intros p Hp. specialize (Hwf p Hp). apply andb_true_iff in Hwf as [Hk Hv].
      split; [assumption|]. apply IH; assumption. }
    destruct (iterencode_dict indent level kv d rest) as (blank & Hblank & ->).
    cbn [scan_once]. change (123 =? 34) with false. change (123 =? 123) with true.
    cbv iota.
    rewrite skip_ws_app by apply newline_indent_ws.
    cbn [skip_ws]. change (json_ws 34) with false. cbv iota.
    change (34 =? 125) with false. change (34 =? 34) with true. cbv iota.
    rewrite (object_items_encoded indent level blank rest Hblank d kv [] fuel Hall).
    + cbn [rev app]. rewrite dict_of_pairs_distinct by assumption. reflexivity.
    + cbn [size fold_right] in Hfuel. lia.
Qed.

End RoundTrip.

(** ** What the decoder consumes *)

Lemma push_char_some (c : N) (o : option (pystr * pystr)) (str r : pystr) :
  push_char c o = Some (str, r) ->
  exists str1, o = Some (str1, r) /\ str = c :: str1.
Proof.
  destruct o as [[str1 r1]|]; simpl; [|discriminate].
  intros [= <- <-]. eauto.
Qed.

Lemma scanstring_inv (s str r : pystr) :
  scanstring s = Some (str, r) -> scanned_string s str r.
Proof.
  destruct s as [|c s1]; [discriminate|]. cbn [scanstring].
  destruct (c =? 34) eqn:E34.
  { apply N.eqb_eq in E34. subst c. intros [= <- <-]. constructor. }
  destruct (c =? 92) eqn:E92.
  - apply N.eqb_eq in E92. subst c.
    destruct s1 as [|esc s2]; [discriminate|].
    destruct (esc =? 117) eqn:Eu.
    + apply N.eqb_eq in Eu. subst esc.
      destruct s2 as [|h1 [|h2 [|h3 [|h4 s3]]]]; try discriminate.
      destruct (decode_hex4 h1 h2 h3 h4) as [uni|] eqn:Eh; [|discriminate].
      destruct s3 as [|b [|u [|k1 [|k2 [|k3 [|k4 s4]]]]]];
        try (intros H; apply push_char_some in H as (str1 & H & ->);
             apply scanned_unicode; [assumption| |assumption];
             intros _ ? ? ? ? ? ? [=]).
      destruct (is_high_surrogate uni) eqn:Ehi; cbn [andb].
      * destruct ((b =? 92) && (u =? 117)) eqn:Ebu.
        -- apply andb_true_iff in Ebu as [Eb Eu]. apply N.eqb_eq in Eb, Eu. subst b u.
           destruct (decode_hex4 k1 k2 k3 k4) as [uni2|] eqn:Ek; [|discriminate].
           destruct (is_low_surrogate uni2) eqn:Elo;
             intros H; apply push_char_some in H as (str1 & H & ->).
           ++ apply scanned_pair; assumption.
           ++ apply scanned_unicode; [assumption| |assumption].
              intros _ ? ? ? ? ? ? [= <- <- <- <- <-] Hk. congruence.
        -- intros H; apply push_char_some in H as (str1 & H & ->).
           apply scanned_unicode; [assumption| |assumption].
           intros _ ? ? ? ? ? ? [= -> -> <- <- <- <- <-]. discriminate.
      * intros H; apply push_char_some in H as (str1 & H & ->).
        apply scanned_unicode; [assumption|intros Hh; congruence|assumption].
    + destruct (backslash esc) as [ch|] eqn:Eb; [|discriminate].
      intros H; apply push_char_some in H as (str1 & H & ->).
      apply N.eqb_neq in Eu. apply scanned_escape; assumption.
  - destruct (c <? 32) eqn:E32; [discriminate|].
    intros H; apply push_char_some in H as (str1 & H & ->).
    apply N.eqb_neq in E34, E92. apply N.ltb_ge in E32.
    apply scanned_raw; assumption.
Qed.

(** Induction on a successful scan of a string. *)
Lemma scanstring_ind (P : pystr -> pystr -> pystr -> Prop) :
  (forall s str r,
      scanned_string s str r ->
      (forall s' str', (List.length s' < List.length s)%nat ->
                       scanstring s' = Some (str', r) -> P s' str' r) ->
      P s str r) ->
  forall s str r, scanstring s = Some (str, r) -> P s str r.
Proof.
  intros step s.
  induction s as [s IH] using (induction_ltof1 _ (@List.length N)).
  intros str r H. apply step; [apply scanstring_inv; exact H|].
  intros s' str' Hlen H'. apply IH; assumption.
Qed.

Lemma proper_suffix_cons (c : N) (r s : pystr) :
  proper_suffix r s -> proper_suffix r (c :: s).
Proof. intros (pre & _ & ->). exists (c :: pre). split; [discriminate|reflexivity]. Qed.

Lemma proper_suffix_here (c : N) (r : pystr) : proper_suffix r (c :: r).
Proof. exists [c]. split; [discriminate|reflexivity]. Qed.

Lemma proper_suffix_trans (a b c : pystr) :
  proper_suffix a b -> proper_suffix b c -> proper_suffix a c.
Proof.
  intros (p1 & H1 & ->) (p2 & H2 & ->). exists (p2 ++ p1). split.
  - destruct p2; [contradiction|discriminate].
  - now rewrite app_assoc.
Qed.

Lemma proper_suffix_length (r s : pystr) :
  proper_suffix r s -> (List.length r < List.length s)%nat.
Proof.
  intros (pre & Hne & ->). rewrite length_app.
  destruct pre; [contradiction|]. simpl. lia.
Qed.

Lemma proper_suffix_unicode (r s : pystr) :
  proper_suffix r s -> unicode_text s = true -> unicode_text r = true.
Proof.
  intros (pre & _ & ->). unfold unicode_text. rewrite forallb_app.
  intros H. apply andb_true_iff in H. tauto.
Qed.

Lemma skip_ws_suffix (s : pystr) : exists pre, s = pre ++ skip_ws s.
Proof.
  induction s as [|c s [pre IH]]; cbn [skip_ws].
  - exists []. reflexivity.
  - destruct (json_ws c); [|exists []; reflexivity].
    exists (c :: pre). cbn [app]. now rewrite <- IH.
Qed.

(** What is left after whitespace and one more character. *)
Lemma skip_ws_cons_suffix (s r : pystr) (x : N) :
  skip_ws s = x :: r -> proper_suffix r s.
Proof.
  intros H. destruct (skip_ws_suffix s) as [pre Hp]. rewrite H in Hp.
  exists (pre ++ [x]). split.
  - destruct pre; discriminate.
  - rewrite <- app_assoc. exact Hp.
Qed.

Lemma skip_ws_unicode (s : pystr) : unicode_text s = true -> unicode_text (skip_ws s) = true.
Proof.
  intros H. destruct (skip_ws_suffix s) as [pre Hp]. rewrite Hp in H.
  unfold unicode_text in *. rewrite forallb_app in H. apply andb_true_iff in H. tauto.
Qed.

Lemma scanstring_suffix (s str r : pystr) :
  scanstring s = Some (str, r) -> proper_suffix r s.
Proof.
  revert s str r. apply (scanstring_ind (fun s _ r => proper_suffix r s)).
  intros s str r Hs IH.
  destruct Hs as [r|c s1 str1 r _ _ _ H|esc ch s2 str1 r _ _ H
                 |h1 h2 h3 h4 s3 uni str1 r _ _ H
                 |h1 h2 h3 h4 k1 k2 k3 k4 s4 hi lo str1 r _ _ _ _ H].
  - apply proper_suffix_here.
  - apply proper_suffix_cons, (IH s1 str1); [simpl; lia|assumption].
  - do 2 apply proper_suffix_cons. apply (IH s2 str1); [simpl; lia|assumption].
  - do 6 apply proper_suffix_cons. apply (IH s3 str1); [simpl; lia|assumption].
  - do 12 apply proper_suffix_cons. apply (IH s4 str1); [simpl; lia|assumption].
Qed.

Lemma wf_str_intro (c : N) (str : pystr) :
  c < 1114112 -> wf_str str = true ->
  (is_high_surrogate c = true ->
   match str with c2 :: _ => is_low_surrogate c2 = false | [] => True end) ->
  wf_str (c :: str) = true.
Proof.
  unfold wf_str. intros Hc Hs Hn. apply andb_true_iff in Hs as [Hs Hp].
  cbn [forallb no_surrogate_pair]. rewrite Hs, Hp, !andb_true_r.
  apply andb_true_iff. split; [apply N.ltb_lt; assumption|].
  destruct str as [|c2 str]; [reflexivity|].
  destruct (is_high_surrogate c); [|reflexivity]. now rewrite (Hn eq_refl).
Qed.

Lemma hex_value_bound (c d : N) : hex_value c = Some d -> d < 16.
Proof.
  unfold hex_value.
  destruct ((48 <=? c) && (c <=? 57)) eqn:E1.
  { apply andb_true_iff in E1 as [H1 H2]. apply N.leb_le in H1, H2. intros [= <-]. lia. }
  destruct ((97 <=? c) && (c <=? 102)) eqn:E2.
  { apply andb_true_iff in E2 as [H1 H2]. apply N.leb_le in H1, H2. intros [= <-]. lia. }
  destruct ((65 <=? c) && (c <=? 70)) eqn:E3; [|discriminate].
  apply andb_true_iff in E3 as [H1 H2]. apply N.leb_le in H1, H2. intros [= <-]. lia.
Qed.

Lemma decode_hex4_bound (a b c d u : N) : decode_hex4 a b c d = Some u -> u < 65536.
Proof.
  unfold decode_hex4.
  destruct (hex_value a) as [x|] eqn:Ea; [|discriminate].
  destruct (hex_value b) as [y|] eqn:Eb; [|discriminate].
  destruct (hex_value c) as [z|] eqn:Ec; [|discriminate].
  destruct (hex_value d) as [t|] eqn:Ed; [|discriminate].
  apply hex_value_bound in Ea, Eb, Ec, Ed. intros [= <-]. lia.
Qed.

Lemma join_surrogates_bound (hi lo : N) :
  is_high_surrogate hi = true -> is_low_surrogate lo = true ->
  65536 <= join_surrogates hi lo < 1114112.
Proof.
  unfold is_high_surrogate, is_low_surrogate, join_surrogates.
  rewrite !andb_true_iff, !N.leb_le. intros [H1 H2] [H3 H4].
  rewrite lor_shiftl_low by lia. lia.
Qed.

Lemma backslash_plain (esc ch : N) :
  backslash esc = Some ch -> ch < 128.
Proof.
  unfold backslash.
  repeat match goal with
  | |- context [if ?b then _ else _] => destruct b; [intros [= <-]; reflexivity|]
  end. discriminate.
Qed.

Lemma not_surrogate_high (c : N) : c < 55296 \/ 57343 < c -> is_high_surrogate c = false.
Proof.
  intros H. unfold is_high_surrogate. apply andb_false_iff.
  destruct H; [left; apply N.leb_gt|right; apply N.leb_gt]; lia.
Qed.

Lemma not_surrogate_low (c : N) : c < 55296 \/ 57343 < c -> is_low_surrogate c = false.
Proof.
  intros H. unfold is_low_surrogate. apply andb_false_iff.
  destruct H; [left; apply N.leb_gt|right; apply N.leb_gt]; lia.
Qed.

Lemma unicode_text_cons (c : N) (s : pystr) :
  unicode_text (c :: s) = true ->
  c < 1114112 /\ (c < 55296 \/ 57343 < c) /\ unicode_text s = true.
Proof.
  unfold unicode_text. cbn [forallb]. rewrite !andb_true_iff.
  unfold is_code_point, is_surrogate. intros [[H1 H2] H3].
  apply N.ltb_lt in H1. apply negb_true_iff, andb_false_iff in H2.
  repeat split; try assumption.
  destruct H2 as [H2|H2]; apply N.leb_gt in H2; lia.
Qed.

(** What [scanstring] yields from a text without surrogates: a
    well-formed text, whose first character is a low surrogate only if the
    input begins with the escape of one. *)
Lemma scanstring_wf (s str r : pystr) :
  scanstring s = Some (str, r) ->
  unicode_text s = true ->
  wf_str str = true
  /\ (forall c2 t, str = c2 :: t -> is_low_surrogate c2 = true ->
      exists k1 k2 k3 k4 s', s = 92 :: 117 :: k1 :: k2 :: k3 :: k4 :: s'
                             /\ decode_hex4 k1 k2 k3 k4 = Some c2).
Proof.
  revert s str r.
  apply (scanstring_ind
           (fun s str r =>
              unicode_text s = true ->
              wf_str str = true
              /\ (forall c2 t, str = c2 :: t -> is_low_surrogate c2 = true ->
                  exists k1 k2 k3 k4 s', s = 92 :: 117 :: k1 :: k2 :: k3 :: k4 :: s'
                                         /\ decode_hex4 k1 k2 k3 k4 = Some c2))).
  intros s str r Hs IH Hu.
  destruct Hs as [r|c s1 str1 r H34 H92 H32 H|esc ch s2 str1 r Hesc Hb H
                 |h1 h2 h3 h4 s3 uni str1 r Hd Hnj H
                 |h1 h2 h3 h4 k1 k2 k3 k4 s4 hi lo str1 r Hd Hk Hhi Hlo H].
  - split; [reflexivity|]. intros ? ? [=].
  - apply unicode_text_cons in Hu as (Hc & Hns & Hu).
    destruct (IH s1 str1 ltac:(simpl; lia) H Hu) as [Hwf _].
    split.
    + apply wf_str_intro; try assumption.
      rewrite (not_surrogate_high c Hns). discriminate.
    + intros c2 t [= <- <-] Hl. rewrite (not_surrogate_low c Hns) in Hl. discriminate.
  - assert (Hu2 : unicode_text s2 = true).
    { apply unicode_text_cons in Hu as (_ & _ & Hu).
      apply unicode_text_cons in Hu as (_ & _ & Hu). exact Hu. }
    destruct (IH s2 str1 ltac:(simpl; lia) H Hu2) as [Hwf _].
    pose proof (backslash_plain esc ch Hb) as Hch.
    split.
    + apply wf_str_intro; try assumption; [lia|].
      rewrite (not_surrogate_high ch) by lia. discriminate.
    + intros c2 t [= <- <-] Hl. rewrite (not_surrogate_low ch) in Hl by lia. discriminate.
  - assert (Hu3 : unicode_text s3 = true).
    { do 6 (apply unicode_text_cons in Hu as (_ & _ & Hu)). exact Hu. }
    destruct (IH s3 str1 ltac:(simpl; lia) H Hu3) as [Hwf Hhead].
    pose proof (decode_hex4_bound _ _ _ _ _ Hd) as Hb.
    split.
    + apply wf_str_intro; try assumption; [lia|].
      intros Hh. destruct str1 as [|c2 t]; [exact I|].
      destruct (is_low_surrogate c2) eqn:Hl; [|reflexivity].
      destruct (Hhead c2 t eq_refl Hl) as (k1 & k2 & k3 & k4 & s' & Hs3 & Hk).
      rewrite (Hnj Hh _ _ _ _ _ _ Hs3 Hk) in Hl. discriminate.
    + intros c2 t [= <- <-] Hl. do 5 eexists. split; [reflexivity|exact Hd].
  - assert (Hu4 : unicode_text s4 = true).
    { do 12 (apply unicode_text_cons in Hu as (_ & _ & Hu)). exact Hu. }
    destruct (IH s4 str1 ltac:(simpl; lia) H Hu4) as [Hwf _].
    pose proof (join_surrogates_bound hi lo Hhi Hlo) as Hj.
    split.
    + apply wf_str_intro; try assumption; [lia|].
      rewrite (not_surrogate_high (join_surrogates hi lo)) by lia. discriminate.
    + intros c2 t [= <- <-] Hl.
      rewrite (not_surrogate_low (join_surrogates hi lo)) in Hl by lia. discriminate.
Qed.

(** ** What the decoder yields *)

Section Decoded.
Context {R : PyRuntime}.

Lemma starts_with_skipn (p s : pystr) :
  p <> [] -> starts_with p s = true -> proper_suffix (skipn (List.length p) s) s.
Proof.
  intros Hne H. exists p. split; [assumption|]. now apply starts_with_split.
Qed.

Lemma match_integer_nonempty (s i r : pystr) : match_integer s = Some (i, r) -> i <> [].
Proof.
  unfold match_integer. destruct s as [|c s]; [discriminate|].
  destruct (c =? 45).
  - destruct s as [|c' s]; [discriminate|].
    destruct (c' =? 48); [intros [= <- <-]; discriminate|].
    destruct (is_ascii_digit c'); [|discriminate].
    destruct (span_digits s). intros [= <- <-]. discriminate.
  - destruct (c =? 48); [intros [= <- <-]; discriminate|].
    destruct (is_ascii_digit c); [|discriminate].
    destruct (span_digits s). intros [= <- <-]. discriminate.
Qed.

Lemma match_number_scalar (s : pystr) (v : value) (r : pystr) :
  match_number s = Some (v, r) -> is_scalar v /\ proper_suffix r s.
Proof.
  unfold match_number.
  destruct (match_integer s) as [[i r1]|] eqn:Ei; [|discriminate].
  pose proof (match_integer_split s i r1 Ei) as Hs.
  pose proof (match_integer_nonempty s i r1 Ei) as Hi.
  pose proof (match_frac_split r1) as Hf. destruct (match_frac r1) as [frac r2].
  pose proof (match_exp_split r2) as He. destruct (match_exp r2) as [exp r3].
  cbn [fst snd] in *. intros H.
  assert (Hr : r = r3 /\ is_scalar v).
  { destruct frac, exp; injection H as <- <-; split; try reflexivity; exact I. }
  destruct Hr as [-> Hv]. split; [assumption|].
  exists (i ++ frac ++ exp). split.
  - destruct i; [contradiction|discriminate].
  - rewrite <- !app_assoc. congruence.
Qed.

(** The ways [scan_once] yields a value. *)
Lemma scan_once_inv (fuel : nat) (s : pystr) (v : value) (r : pystr) :
  scan_once (S fuel) s = Scanned v r ->
  (exists s1 str, s = 34 :: s1 /\ scanstring s1 = Some (str, r) /\ v = VStr str)
  \/ (exists s1, s = 123 :: s1 /\ skip_ws s1 = 125 :: r /\ v = VDict [])
  \/ (exists s1 s2, s = 123 :: s1 /\ skip_ws s1 = 34 :: s2
                    /\ object_items fuel s2 [] = Scanned v r)
  \/ (exists s1, s = 91 :: s1 /\ skip_ws s1 = 93 :: r /\ v = VList [])
  \/ (exists s1 s2, s = 91 :: s1 /\ skip_ws s1 = s2
                    /\ array_items fuel s2 [] = Scanned v r)
  \/ (is_scalar v /\ proper_suffix r s).
Proof.
  cbn [scan_once]. destruct s as [|c s1]; [discriminate|].
  destruct (c =? 34) eqn:E1.
  { apply N.eqb_eq in E1. subst c.
    destruct (scanstring s1) as [[str rest]|] eqn:Es; [|discriminate].
    intros [= <- <-]. left. eauto. }
  destruct (c =? 123) eqn:E2.
  { apply N.eqb_eq in E2. subst c. destruct (skip_ws s1) as [|x s2] eqn:Ew; [discriminate|].
    destruct (x =? 125) eqn:Ex.
    - apply N.eqb_eq in Ex. subst x. intros [= <- <-]. right; left. eauto.
    - destruct (x =? 34) eqn:Eq; [|discriminate]. apply N.eqb_eq in Eq. subst x.
      intros H. right; right; left. eauto. }
  destruct (c =? 91) eqn:E3.
  { apply N.eqb_eq in E3. subst c. destruct (skip_ws s1) as [|x s2] eqn:Ew; [discriminate|].
    destruct (x =? 93) eqn:Ex.
    - apply N.eqb_eq in Ex. subst x. intros [= <- <-]. do 3 right; left. eauto.
    - intros H. do 4 right; left. exists s1, (x :: s2). auto. }
  intros H; do 5 right; revert H.
  destruct (starts_with (py "null") (c :: s1)) eqn:En.
  { intros [= <- <-]. split; [exact I|].
    apply (starts_with_skipn (py "null")); [discriminate|assumption]. }
  destruct (starts_with (py "true") (c :: s1)) eqn:Et.
  { intros [= <- <-]. split; [exact I|].
    apply (starts_with_skipn (py "true")); [discriminate|assumption]. }
  destruct (starts_with (py "false") (c :: s1)) eqn:Ef.
  { intros [= <- <-]. split; [exact I|].
    apply (starts_with_skipn (py "false")); [discriminate|assumption]. }
  destruct (match_number (c :: s1)) as [[v' rest]|] eqn:Em.
  { intros [= <- <-]. now apply match_number_scalar. }
  destruct (starts_with (py "NaN") (c :: s1)) eqn:E4.
  { intros [= <- <-]. split; [exact I|].
    apply (starts_with_skipn (py "NaN")); [discriminate|assumption]. }
  destruct (starts_with (py "Infinity") (c :: s1)) eqn:E5.
  { intros [= <- <-]. split; [exact I|].
    apply (starts_with_skipn (py "Infinity")); [discriminate|assumption]. }
  destruct (starts_with (py "-Infinity") (c :: s1)) eqn:E6; [|discriminate].
  intros [= <- <-]. split; [exact I|].
  apply (starts_with_skipn (py "-Infinity")); [discriminate|assumption].
Qed.

Lemma array_items_inv (fuel : nat) (s : pystr) (acc : list value) (v : value) (r : pystr) :
  array_items (S fuel) s acc = Scanned v r ->
  exists x r0,
    scan_once fuel s = Scanned x r0
    /\ ((skip_ws r0 = 93 :: r /\ v = VList (rev (x :: acc)))
        \/ (exists r1, skip_ws r0 = 44 :: r1
                       /\ array_items fuel (skip_ws r1) (x :: acc) = Scanned v r)).
Proof.
  cbn [array_items]. destruct (scan_once fuel s) as [x r0| |]; try discriminate.
  destruct (skip_ws r0) as [|y r1] eqn:Ew; [discriminate|].
  destruct (y =? 93) eqn:E1.
  { apply N.eqb_eq in E1. subst y. intros [= <- <-]. exists x, r0. split; [reflexivity|].
    left. rewrite Ew. auto. }
  destruct (y =? 44) eqn:E2; [|discriminate]. apply N.eqb_eq in E2. subst y.
  intros H. exists x, r0. split; [reflexivity|]. right. exists r1. rewrite Ew. auto.
Qed.

Lemma object_items_inv (fuel : nat) (s : pystr) (acc : list (pystr * value))
    (v : value) (r : pystr) :
  object_items (S fuel) s acc = Scanned v r ->
  exists key r0 r1 x r2,
    scanstring s = Some (key, r0)
    /\ skip_ws r0 = 58 :: r1
    /\ scan_once fuel (skip_ws r1) = Scanned x r2
    /\ ((skip_ws r2 = 125 :: r /\ v = VDict (dict_of_pairs (rev ((key, x) :: acc))))
        \/ (exists r3 r4, skip_ws r2 = 44 :: r3 /\ skip_ws r3 = 34 :: r4
                          /\ object_items fuel r4 ((key, x) :: acc) = Scanned v r)).
Proof.
  cbn [object_items]. destruct (scanstring s) as [[key r0]|]; [|discriminate].
  destruct (skip_ws r0) as [|c r1] eqn:Ew0; [discriminate|].
  destruct (c =? 58) eqn:Ec; [|discriminate]. apply N.eqb_eq in Ec. subst c.
  destruct (scan_once fuel (skip_ws r1)) as [x r2| |] eqn:Ev; try discriminate.
  destruct (skip_ws r2) as [|y r3] eqn:Ew2; [discriminate|].
  destruct (y =? 125) eqn:E1.
  { apply N.eqb_eq in E1. subst y. intros [= <- <-].
    exists key, r0, r1, x, r2. repeat split; auto. }
  destruct (y =? 44) eqn:E2; [|discriminate]. apply N.eqb_eq in E2. subst y.
  destruct (skip_ws r3) as [|q r4] eqn:Ew3; [discriminate|].
  destruct (q =? 34) eqn:E3; [|discriminate]. apply N.eqb_eq in E3. subst q.
  intros H. exists key, r0, r1, x, r2. repeat split; auto.
  right. exists r3, r4. auto.
Qed.

Lemma keys_dict_set (x : pystr) (d : dict) (k : pystr) (v : value) :
  existsb (pystr_eqb x) (keys (dict_set d k v))
  = existsb (pystr_eqb x) (keys d) || pystr_eqb x k.
Proof.
  induction d as [|[k' v'] d IH]; cbn [dict_set keys map fst existsb].
  - now rewrite orb_false_r.
  - destruct (pystr_eqb k' k) eqn:E; cbn [keys map fst existsb].
    + apply pystr_eqb_eq in E. subst k'.
      destruct (pystr_eqb x k); [reflexivity|]. now rewrite orb_false_r.
    + fold (keys (dict_set d k v)). rewrite IH. fold (keys d). now rewrite orb_assoc.
Qed.

Lemma distinct_dict_set (d : dict) (k : pystr) (v : value) :
  distinct (keys d) = true -> distinct (keys (dict_set d k v)) = true.
Proof.
  induction d as [|[k' v'] d IH]; cbn [dict_set keys map fst distinct]; [reflexivity|].
  fold (keys d). intros H. apply andb_true_iff in H as [Hk Hd].
  destruct (pystr_eqb k' k) eqn:E; cbn [keys map fst distinct].
  - fold (keys d). now rewrite Hk, Hd.
  - fold (keys (dict_set d k v)). rewrite keys_dict_set, (IH Hd), E.
    apply negb_true_iff in Hk. now rewrite Hk.
Qed.

Lemma pair_ok_dict_set (d : dict) (k : pystr) (v : value) :
  forallb pair_ok d = true -> pair_ok (k, v) = true ->
  forallb pair_ok (dict_set d k v) = true.
Proof.
  intros Hd Hkv. induction d as [|[k' v'] d IH]; cbn [dict_set forallb].
  - now rewrite Hkv.
  - cbn [forallb] in Hd. apply andb_true_iff in Hd as [Hp Hd].
    destruct (pystr_eqb k' k) eqn:E; cbn [forallb].
    + apply pystr_eqb_eq in E. subst k'. rewrite Hd, andb_true_r.
      unfold pair_ok in *. cbn [fst snd] in *.
      apply andb_true_iff in Hp as [-> _]. apply andb_true_iff in Hkv as [_ ->].
      reflexivity.
    + now rewrite Hp, (IH Hd).
Qed.

Lemma dict_of_pairs_wf (pairs : list (pystr * value)) :
  forallb pair_ok pairs = true -> wf_value (VDict (dict_of_pairs pairs)) = true.
Proof.
  intros H. cbn [wf_value]. fold pair_ok. unfold dict_of_pairs.
  assert (G : forall acc,
             distinct (keys acc) = true -> forallb pair_ok acc = true ->
             distinct (keys (fold_left (fun a kv => dict_set a (fst kv) (snd kv)) pairs acc))
             = true
             /\ forallb pair_ok (fold_left (fun a kv => dict_set a (fst kv) (snd kv)) pairs acc)
                = true).
  { induction pairs as [|[k v] pairs IH]; intros acc Hd Ha; cbn [fold_left]; [auto|].
    cbn [forallb] in H. apply andb_true_iff in H as [Hkv H].
    apply (IH H); cbn [fst snd].
    - now apply distinct_dict_set.
    - now apply pair_ok_dict_set. }
  destruct (G [] eq_refl eq_refl) as [-> ->]. reflexivity.
Qed.

Lemma forallb_rev {A} (f : A -> bool) (l : list A) : forallb f (rev l) = forallb f l.
Proof.
  induction l as [|x l IH]; [reflexivity|].
  cbn [rev forallb]. rewrite forallb_app, IH. cbn [forallb].
  rewrite andb_true_r. apply andb_comm.
Qed.

Lemma proper_suffix_app (pre r s : pystr) :
  proper_suffix r s -> proper_suffix r (pre ++ s).
Proof.
  intros (p & Hp & ->). exists (pre ++ p). split.
  - destruct pre; [assumption|discriminate].
  - now rewrite app_assoc.
Qed.

Lemma proper_suffix_skip_ws (r s : pystr) :
  proper_suffix r (skip_ws s) -> proper_suffix r s.
Proof.
  intros H. destruct (skip_ws_suffix s) as [pre Hp]. rewrite Hp.
  now apply proper_suffix_app.
Qed.

Lemma scalar_wf (v : value) : is_scalar v -> wf_value v = true.
Proof. destruct v; simpl; tauto. Qed.

(** Every scan leaves less text than it was given, and yields a
    well-formed value from a text without surrogates. *)
Lemma scan_properties (fuel : nat) :
  (forall s v r,
      scan_once fuel s = Scanned v r ->
      proper_suffix r s /\ (unicode_text s = true -> wf_value v = true))
  /\ (forall s acc v r,
         array_items fuel s acc = Scanned v r ->
         proper_suffix r s
         /\ (unicode_text s = true -> forallb wf_value acc = true -> wf_value v = true))
  /\ (forall s acc v r,
         object_items fuel s acc = Scanned v r ->
         proper_suffix r s
         /\ (unicode_text s = true -> forallb pair_ok acc = true -> wf_value v = true)).
Proof.
  induction fuel as [|fuel (IHv & IHa & IHo)].
  { repeat split; discriminate. }
  split; [|split].
  - intros s v r H.
    destruct (scan_once_inv fuel s v r H)
      as [(s1 & str & -> & Hs & ->)|[(s1 & -> & Hw & ->)|[(s1 & s2 & -> & Hw & Ho)
         |[(s1 & -> & Hw & ->)|[(s1 & s2 & -> & Hw & Ha)|[Hv Hr]]]]]].
    + split; [apply proper_suffix_cons, (scanstring_suffix s1 str r Hs)|].
      intros Hu. apply unicode_text_cons in Hu as (_ & _ & Hu).
      exact (proj1 (scanstring_wf s1 str r Hs Hu)).
    + split; [|reflexivity]. apply proper_suffix_cons, (skip_ws_cons_suffix _ _ _ Hw).
    + destruct (IHo s2 [] v r Ho) as [Hsuf Hwf].
      pose proof (skip_ws_cons_suffix _ _ _ Hw) as H2.
      split; [apply proper_suffix_cons, (proper_suffix_trans _ _ _ Hsuf H2)|].
      intros Hu. apply unicode_text_cons in Hu as (_ & _ & Hu).
      apply Hwf; [|reflexivity]. exact (proper_suffix_unicode _ _ H2 Hu).
    + split; [|reflexivity]. apply proper_suffix_cons, (skip_ws_cons_suffix _ _ _ Hw).
    + subst s2. destruct (IHa _ [] v r Ha) as [Hsuf Hwf].
      split; [apply proper_suffix_cons, proper_suffix_skip_ws, Hsuf|].
      intros Hu. apply unicode_text_cons in Hu as (_ & _ & Hu).
      apply Hwf; [|reflexivity]. now apply skip_ws_unicode.
    + split; [assumption|]. intros _. now apply scalar_wf.
  - intros s acc v r H.
    destruct (array_items_inv fuel s acc v r H) as (x & r0 & Hx & Hnext).
    destruct (IHv s x r0 Hx) as [Hsuf Hwf].
    destruct Hnext as [[Hw ->]|(r1 & Hw & Ha)].
    + split.
      * exact (proper_suffix_trans _ _ _ (skip_ws_cons_suffix _ _ _ Hw) Hsuf).
      * intros Hu Hacc. cbn [wf_value]. rewrite forallb_rev. cbn [forallb].
        now rewrite (Hwf Hu), Hacc.
    + destruct (IHa _ (x :: acc) v r Ha) as [Hsuf2 Hwf2].
      pose proof (skip_ws_cons_suffix _ _ _ Hw) as H1.
      pose proof (proper_suffix_skip_ws _ _ Hsuf2) as H2.
      split.
      * exact (proper_suffix_trans _ _ _ (proper_suffix_trans _ _ _ H2 H1) Hsuf).
      * intros Hu Hacc. apply Hwf2.
        -- apply skip_ws_unicode.
           exact (proper_suffix_unicode _ _ (proper_suffix_trans _ _ _ H1 Hsuf) Hu).
        -- cbn [forallb]. now rewrite (Hwf Hu), Hacc.
  - intros s acc v r H.
    destruct (object_items_inv fuel s acc v r H)
      as (key & r0 & r1 & x & r2 & Hk & Hw0 & Hx & Hnext).
    pose proof (scanstring_suffix s key r0 Hk) as S0.
    pose proof (skip_ws_cons_suffix _ _ _ Hw0) as S1.
    destruct (IHv _ x r2 Hx) as [S2 Hwf].
    apply proper_suffix_skip_ws in S2.
    pose proof (proper_suffix_trans _ _ _ S1 S0) as S01.
    pose proof (proper_suffix_trans _ _ _ S2 S01) as S02.
    assert (Hpair : unicode_text s = true -> pair_ok (key, x) = true).
    { intros Hu. unfold pair_ok. cbn [fst snd].
      rewrite (proj1 (scanstring_wf s key r0 Hk Hu)). cbn [andb].
      apply Hwf, skip_ws_unicode. exact (proper_suffix_unicode _ _ S01 Hu). }
    destruct Hnext as [[Hw ->]|(r3 & r4 & Hw & Hw3 & Ho)].
    + split.
      * exact (proper_suffix_trans _ _ _ (skip_ws_cons_suffix _ _ _ Hw) S02).
      * intros Hu Hacc. apply dict_of_pairs_wf. rewrite forallb_rev. cbn [forallb].
        now rewrite (Hpair Hu), Hacc.
    + destruct (IHo r4 ((key, x) :: acc) v r Ho) as [S4 Hwf4].
      pose proof (skip_ws_cons_suffix _ _ _ Hw) as S3.
      pose proof (skip_ws_cons_suffix _ _ _ Hw3) as S34.
      pose proof (proper_suffix_trans _ _ _ (proper_suffix_trans _ _ _ S34 S3) S02) as S04.
      split.
      * exact (proper_suffix_trans _ _ _ S4 S04).
      * intros Hu Hacc. apply Hwf4.
        -- exact (proper_suffix_unicode _ _ S04 Hu).
        -- cbn [forallb]. now rewrite (Hpair Hu), Hacc.
Qed.

(** What [json.loads] yields from a text without surrogates is well
    formed. *)
Lemma json_loads_wf (s : pystr) (v : value) :
  unicode_text s = true -> json_loads s = Some v -> wf_value v = true.
Proof.
  intros Hu. unfold json_loads.
  destruct (scan_once (S (2 * List.length s)) (skip_ws s)) as [x r| |] eqn:E;
    try discriminate.
  destruct (skip_ws r); [|discriminate]. intros [= <-].
  exact (proj2 (proj1 (scan_properties _) _ _ _ E) (skip_ws_unicode s Hu)).
Qed.

End Decoded.

Section Loads.
Context {R : PyRuntime} {L : FloatLaws R}.

Lemma starts_value_length (u : pystr) : starts_value u -> (1 <= List.length u)%nat.
Proof. destruct u; simpl; [contradiction|lia]. Qed.

Lemma items_text_length (A : Type) (measure : A -> nat) (text : A -> pystr)
    (l : list A) (sep close : pystr) :
  Forall (fun y => (measure y <= List.length (text y))%nat) l ->
  (fold_right (fun y n => S (measure y + n)) O l + List.length close
   <= List.length (items_text (map text l) (44%N :: sep) close))%nat.
Proof.
  induction 1 as [|y l Hy _ IH]; cbn [fold_right map items_text]; [lia|].
  cbn [app List.length]. rewrite !length_app. lia.
Qed.

Lemma size_le_length (v : value) (indent : option nat) (level : nat) :
  (size v <= List.length (iterencode indent level v))%nat.
Proof.
  revert indent level.
  induction v as [ |b|z|f|s|l IH|d IH] using value_induction; intros indent level;
    try (apply starts_value_length, iterencode_starts_value).
  - destruct l as [|x l]; [simpl; lia|].
    destruct (iterencode_list indent level x l []) as (blank & _ & E).
    rewrite app_nil_r in E. rewrite E. cbn [size fold_right List.length].
    rewrite !length_app. inversion IH as [|? ? Hx Hl]; subst.
    pose proof (items_text_length value size (iterencode indent (S level)) l blank
                  (closing indent level 93 [])
                  (Forall_impl _ (fun y H => H indent (S level)) Hl)) as Hi.
    specialize (Hx indent (S level)).
    assert (1 <= List.length (closing indent level 93 []))%nat
      by (unfold closing; rewrite length_app; simpl; lia).
    set (F := fold_right (fun y n => S (size y + n)) O l) in *.
    clearbody F. clear E IH Hl. lia.
  - destruct d as [|kv d]; [simpl; lia|].
    destruct (iterencode_dict indent level kv d []) as (blank & _ & E).
    rewrite app_nil_r in E. rewrite E. cbn [size fold_right List.length].
    rewrite !length_app. inversion IH as [|? ? Hx Hl]; subst.
    assert (Hpairs : Forall (fun p => (size (snd p) <= List.length (pair_text indent (S level) p))%nat) d).
    { apply (Forall_impl _ (P := fun p => forall i n, (size (snd p) <= List.length (iterencode i n (snd p)))%nat)); [|exact Hl].
      intros p Hp. unfold pair_text. rewrite !length_app. specialize (Hp indent (S level)). lia. }
    pose proof (items_text_length _ (fun p => size (snd p)) (pair_text indent (S level)) d blank
                  (closing indent level 125 []) Hpairs) as Hi.
    specialize (Hx indent (S level)).
    assert (size (snd kv) <= List.length (pair_body indent (S level) kv))%nat
      by (unfold pair_body; rewrite !length_app; cbn [List.length]; rewrite length_app; lia).
    assert (1 <= List.length (closing indent level 125 []))%nat
      by (unfold closing; rewrite length_app; simpl; lia).
    set (F := fold_right (fun p n => S (size (snd p) + n)) O d) in *.
    clearbody F. clear E IH Hl Hpairs. cbn [List.length]. rewrite length_app. lia.
Qed.

(** [json.loads] reads back what [json.dumps] wrote, with or without an
    indent. *)
Theorem json_loads_iterencode (v : value) (indent : option nat) :
  wf_value v = true -> json_loads (iterencode indent 0 v) = Some v.
Proof.
  intros Hwf. unfold json_loads.
  pose proof (iterencode_starts_value indent 0 v) as Hhead.
  rewrite skip_ws_solid
    by (rewrite <- (app_nil_r (iterencode indent 0 v)); now apply starts_value_solid).
  pose proof (iterencode_round_trips v Hwf indent 0%nat
                (S (2 * List.length (iterencode indent 0 v))) []) as Hrt.
  rewrite app_nil_r in Hrt. rewrite Hrt; [reflexivity| |exact I].
  pose proof (size_le_length v indent 0). lia.
Qed.


Corollary json_loads_dumps_indent (n : nat) (v : value) :
  wf_value v = true -> json_loads (json_dumps_indent n v) = Some v.
Proof. apply json_loads_iterencode. Qed.

End Loads.

(** ** The fuel of the decoder *)

Section Fuel.
Context {R : PyRuntime}.

Lemma skip_ws_length (s : pystr) : (List.length (skip_ws s) <= List.length s)%nat.
Proof.
  destruct (skip_ws_suffix s) as [pre Hp]. rewrite Hp at 2. rewrite length_app. lia.
Qed.

Lemma skip_ws_cons_length (s r : pystr) (x : N) :
  skip_ws s = x :: r -> (List.length r < List.length s)%nat.
Proof. intros H. apply proper_suffix_length, (skip_ws_cons_suffix s r x H). Qed.

Lemma scan_once_length (fuel : nat) (s : pystr) (v : value) (r : pystr) :
  scan_once fuel s = Scanned v r -> (List.length r < List.length s)%nat.
Proof. intros H. apply proper_suffix_length, (proj1 (scan_properties fuel)) with v, H. Qed.

Lemma scanstring_length (s str r : pystr) :
  scanstring s = Some (str, r) -> (List.length r < List.length s)%nat.
Proof. intros H. apply proper_suffix_length, (scanstring_suffix s str r H). Qed.

(** With twice the length of the text for fuel, no scan runs out of it. *)
Lemma scan_fuel (fuel : nat) :
  (forall s, (2 * List.length s < fuel)%nat -> scan_once fuel s <> OutOfFuel)
  /\ (forall s acc, (2 * List.length s + 1 < fuel)%nat ->
                    array_items fuel s acc <> OutOfFuel)
  /\ (forall s acc, (2 * List.length s + 1 < fuel)%nat ->
                    object_items fuel s acc <> OutOfFuel).
Proof.
  induction fuel as [|fuel (IHv & IHa & IHo)].
  { repeat split; intros; lia. }
  split; [|split].
  - intros s Hlen. cbn [scan_once]. destruct s as [|c s1]; [discriminate|].
    cbn [List.length] in Hlen.
    destruct (c =? 34); [destruct (scanstring s1) as [[? ?]|]; discriminate|].
    destruct (c =? 123).
    { destruct (skip_ws s1) as [|x s2] eqn:Ew; [discriminate|].
      destruct (x =? 125); [discriminate|]. destruct (x =? 34); [|discriminate].
      apply IHo. pose proof (skip_ws_cons_length _ _ _ Ew). lia. }
    destruct (c =? 91).
    { destruct (skip_ws s1) as [|x s2] eqn:Ew; [discriminate|].
      destruct (x =? 93); [discriminate|].
      apply IHa. pose proof (skip_ws_length s1) as Hw. rewrite Ew in Hw. lia. }
    repeat match goal with
    | |- (if ?b then _ else _) <> _ => destruct b; [discriminate|]
    | |- match ?m with Some _ => _ | None => _ end <> _ =>
        destruct m as [[? ?]|]; [discriminate|]
    end.
    discriminate.
  - intros s acc Hlen. cbn [array_items].
    destruct (scan_once fuel s) as [x r0| |] eqn:Ex.
    + pose proof (scan_once_length _ _ _ _ Ex) as H0.
      destruct (skip_ws r0) as [|y r1] eqn:Ew; [discriminate|].
      destruct (y =? 93); [discriminate|]. destruct (y =? 44); [|discriminate].
      apply IHa. pose proof (skip_ws_cons_length _ _ _ Ew).
      pose proof (skip_ws_length r1). lia.
    + discriminate.
    + exfalso. apply (IHv s); [lia|assumption].
  - intros s acc Hlen. cbn [object_items].
    destruct (scanstring s) as [[key r0]|] eqn:Ek; [|discriminate].
    pose proof (scanstring_length _ _ _ Ek) as H0.
    destruct (skip_ws r0) as [|c r1] eqn:Ew0; [discriminate|].
    pose proof (skip_ws_cons_length _ _ _ Ew0) as H1.
    destruct (c =? 58); [|discriminate].
    pose proof (skip_ws_length r1) as H1'.
    destruct (scan_once fuel (skip_ws r1)) as [x r2| |] eqn:Ex.
    + pose proof (scan_once_length _ _ _ _ Ex) as H2.
      destruct (skip_ws r2) as [|y r3] eqn:Ew2; [discriminate|].
      pose proof (skip_ws_cons_length _ _ _ Ew2) as H3.
      destruct (y =? 125); [discriminate|]. destruct (y =? 44); [|discriminate].
      destruct (skip_ws r3) as [|q r4] eqn:Ew3; [discriminate|].
      pose proof (skip_ws_cons_length _ _ _ Ew3) as H4.
      destruct (q =? 34); [|discriminate].
      apply IHo. lia.
    + discriminate.
    + exfalso. apply (IHv (skip_ws r1)); [lia|assumption].
Qed.

(** [json.loads] yields [None] only where the decoder raises. *)
Theorem json_loads_none (s : pystr) :
  json_loads s = None ->
  scan_once (S (2 * List.length s)) (skip_ws s) = DecodeError
  \/ exists v x rest,
       scan_once (S (2 * List.length s)) (skip_ws s) = Scanned v (x :: rest)
       /\ skip_ws (x :: rest) <> [].
Proof.
  unfold json_loads.
  destruct (scan_once (S (2 * List.length s)) (skip_ws s)) as [v r| |] eqn:E.
  - destruct (skip_ws r) as [|y r'] eqn:Ew; [discriminate|]. intros _. right.
    destruct r as [|x rest]; [discriminate|]. exists v, x, rest.
    split; [reflexivity|]. rewrite Ew. discriminate.
  - intros _. now left.
  - exfalso. apply (proj1 (scan_fuel (S (2 * List.length s))) (skip_ws s)); [|assumption].
    pose proof (skip_ws_length s). lia.
Qed.

End Fuel.

Section Events.
Context {R : PyRuntime}.

Lemma names_bash_get (d : dict) :
  names_bash d = true <-> dict_get d (py "tool_name") = Some (VStr (py "Bash")).
Proof.
  unfold names_bash. destruct (dict_get d (py "tool_name")) as [v|]; [|split; discriminate].
  destruct v; simpl; try (split; discriminate).
  rewrite pystr_eqb_eq. split; [intros ->; reflexivity | intros [= ->]; reflexivity].
Qed.

(** ** The filter of log-all-bash and log-failed-bash *)

Lemma all_bash_skip (w : world) (p : proc) (d : dict) :
  json_loads (stdin w) = Some (VDict d) ->
  names_bash d = false ->
  run (LogAllBash.main w) p = {| exit_status := 0; final := p |}.
Proof.
  intros Hparse Hname.
  unfold run, LogAllBash.main, bind, try_except, loads, get, get_default.
  rewrite Hparse. unfold ret. unfold names_bash in Hname.
  cbv beta iota zeta delta [and_then handle].
  destruct (dict_get d (py "tool_name")) as [v|];
    cbv beta iota zeta delta [and_then handle].
  - rewrite Hname. reflexivity.
  - reflexivity.
Qed.

Lemma failed_bash_skip (w : world) (p : proc) (d : dict) :
  json_loads (stdin w) = Some (VDict d) ->
  names_bash d = false ->
  run (LogFailedBash.main w) p = {| exit_status := 0; final := p |}.
Proof.
  intros Hparse Hname.
  unfold run, LogFailedBash.main, bind, try_except, loads, get, get_default.
  rewrite Hparse. unfold ret. unfold names_bash in Hname.
  cbv beta iota zeta delta [and_then handle].
  destruct (dict_get d (py "tool_name")) as [v|];
    cbv beta iota zeta delta [and_then handle].
  - rewrite Hname. reflexivity.
  - reflexivity.
Qed.

(** ** What the two Bash loggers write *)

Lemma get_default_dict (d : dict) (k : pystr) (default : value) :
  get_default (VDict d) k default = ret (or_default (dict_get d k) default).
Proof. unfold get_default. destruct (dict_get d k); reflexivity. Qed.

Lemma well_formed_tool_input (d : dict) :
  command_ok d = true ->
  or_default (dict_get d (py "tool_input")) (VDict []) = VDict (tool_input_of d)
  /\ or_default (dict_get (tool_input_of d) (py "command")) (VStr (py "N/A"))
     = VStr (command_text d).
Proof.
  unfold command_text, tool_input_of, command_ok, opt_field.
  destruct (dict_get d (py "tool_input")) as [v|]; simpl.
  - destruct v; simpl; try discriminate. intros Hc.
    split; [reflexivity|].
    destruct (dict_get d0 (py "command")) as [c|]; simpl; [|reflexivity].
    destruct c; simpl in Hc; try discriminate. reflexivity.
  - intros _. split; reflexivity.
Qed.

Lemma well_formed_parts (d : dict) :
  well_formed d = true ->
  command_ok d = true
  /\ opt_field d (py "error") is_string = true
  /\ opt_field d (py "prompt") is_string = true.
Proof.
  unfold well_formed. rewrite !andb_true_iff.
  intros [[[[[[[[_ Hti] _] Herr] _] _] _] _] Hprompt].
  repeat split; try assumption.
  unfold command_ok. unfold opt_field in Hti.
  destruct (dict_get d (py "tool_input")) as [v|]; [|reflexivity].
  destruct v; try discriminate.
  simpl in Hti. apply andb_true_iff in Hti as [Hc _]. exact Hc.
Qed.

Arguments json_dumps_indent : simpl never.
Arguments json_dumps : simpl never.
Arguments py_str : simpl never.
Arguments firstn : simpl never.
Arguments get_default : simpl never.
Arguments get : simpl never.
Arguments append_log : simpl never.
Arguments print : simpl never.
Arguments slice_to : simpl never.

(** Running a script symbolically: the accessors give their value, the
    monad computes. *)
Ltac script_step :=
  repeat first
    [ progress (unfold get)
    | rewrite get_default_dict
    | progress (cbv beta iota zeta delta
                  [bind ret try_except and_then handle exit_of raise sys_exit eprint fst snd
                   is_Exception is_JSONDecodeError negb]) ].

(** log-all-bash on a Bash event with a well-typed [tool_input]. *)
Lemma all_bash_run (w : world) (p : proc) (d : dict) :
  json_loads (stdin w) = Some (VDict d) ->
  names_bash d = true ->
  command_ok d = true ->
  let text := json_dumps_indent 2 (all_record w d) ++ block_end in
  let confirmation := py "[LOGGED ALL] " ++ firstn 40 (command_text d) ++ py "..." in
  run (LogAllBash.main w) p =
    if log_accepts w text then confirmed w (with_log p text) confirmation
    else {| exit_status := 1; final := with_stderr p (ErrorWritingToLog OSError) |}.
Proof.
  intros Hparse Hname Hti text confirmation. unfold confirmed.
  destruct (well_formed_tool_input d Hti) as [E1 E2].
  unfold run, LogAllBash.main, loads. rewrite Hparse. script_step.
  unfold names_bash in Hname.
  destruct (dict_get d (py "tool_name")) as [v|]; [|discriminate].
  cbn [or_default]. rewrite Hname. script_step.
  fold (all_record w d). fold block_end. fold text.
  unfold append_log at 1.
  destruct (log_accepts w text); script_step; [|reflexivity].
  rewrite E1. script_step. rewrite E2.
  unfold slice_to. script_step. unfold print.
  change (py_str (VStr (firstn 40 (command_text d)))) with (firstn 40 (command_text d)).
  fold confirmation.
  destruct (stdout_accepts w confirmation); [reflexivity|].
  destruct (stdout_refusal w confirmation); reflexivity.
Qed.

Lemma well_formed_error (d : dict) :
  opt_field d (py "error") is_string = true ->
  or_default (dict_get d (py "error")) (VStr []) = VStr (error_text d).
Proof.
  unfold error_text, opt_field.
  destruct (dict_get d (py "error")) as [v|]; simpl; [|reflexivity].
  destruct v; simpl; try discriminate. reflexivity.
Qed.

Lemma exit_code_of_text (msg : pystr) :
  code_converts msg = true ->
  (if truthy (VStr msg) then exit_code_of (VStr msg) else ret VNone)
  = ret (exit_code_field msg).
Proof.
  unfold exit_code_field, code_converts, exit_code_of, py_int.
  destruct msg as [|c msg]; [reflexivity|]. cbn [truthy].
  destruct (re_match_exit_code (c :: msg)) as [ds|]; [|reflexivity].
  destruct (too_many_digits ds); [discriminate|reflexivity].
Qed.

(** More digits than [int] takes: the conversion raises. *)
Lemma exit_code_of_long (msg : pystr) :
  code_converts msg = false ->
  (if truthy (VStr msg) then exit_code_of (VStr msg) else ret VNone)
  = raise ValueError.
Proof.
  unfold code_converts, exit_code_of, py_int.
  destruct msg as [|c msg]; [discriminate|]. cbn [truthy].
  destruct (re_match_exit_code (c :: msg)) as [ds|]; [|discriminate].
  destruct (too_many_digits ds); [reflexivity|discriminate].
Qed.

(** log-failed-bash on a Bash event with well-typed [error] and
    [tool_input]. *)
Lemma failed_bash_run (w : world) (p : proc) (d : dict) :
  json_loads (stdin w) = Some (VDict d) ->
  names_bash d = true ->
  opt_field d (py "error") is_string = true ->
  code_converts (error_text d) = true ->
  command_ok d = true ->
  let text := json_dumps_indent 2 (failure_record w d) ++ block_end in
  let confirmation :=
    py "[LOGGED FAILURE] exit=" ++ py_str (exit_code_field (error_text d))
    ++ py " cmd=" ++ firstn 40 (command_text d) ++ py "..." in
  run (LogFailedBash.main w) p =
    if log_accepts w text then confirmed w (with_log p text) confirmation
    else {| exit_status := 1; final := with_stderr p (ErrorWritingToLog OSError) |}.
Proof.
  intros Hparse Hname Herr Hfit Hti text confirmation. unfold confirmed.
  destruct (well_formed_tool_input d Hti) as [E1 E2].
  pose proof (well_formed_error d Herr) as E3.
  unfold run, LogFailedBash.main, loads. rewrite Hparse. script_step.
  unfold names_bash in Hname.
  destruct (dict_get d (py "tool_name")) as [v|]; [|discriminate].
  cbn [or_default]. rewrite Hname. script_step.
  rewrite E3, exit_code_of_text by exact Hfit. script_step.
  rewrite E1. script_step.
  fold (failure_record w d). fold block_end. fold text.
  unfold append_log at 1.
  destruct (log_accepts w text); script_step; [|reflexivity].
  rewrite E2. unfold slice_to. script_step. unfold print.
  change (py_str (VStr (firstn 40 (command_text d)))) with (firstn 40 (command_text d)).
  fold confirmation.
  destruct (stdout_accepts w confirmation); [reflexivity|].
  destruct (stdout_refusal w confirmation); reflexivity.
Qed.

(** log-failed-bash on a Bash event whose error text has an exit code of
    more digits than [int] takes. *)
Lemma failed_bash_long_code (w : world) (p : proc) (d : dict) :
  json_loads (stdin w) = Some (VDict d) ->
  names_bash d = true ->
  opt_field d (py "error") is_string = true ->
  code_converts (error_text d) = false ->
  run (LogFailedBash.main w) p
  = {| exit_status := 1; final := with_stderr p (Traceback ValueError) |}.
Proof.
  intros Hparse Hname Herr Hfit.
  pose proof (well_formed_error d Herr) as E3.
  unfold run, LogFailedBash.main, loads. rewrite Hparse. script_step.
  unfold names_bash in Hname.
  destruct (dict_get d (py "tool_name")) as [v|]; [|discriminate].
  cbn [or_default]. rewrite Hname. script_step.
  rewrite E3, exit_code_of_long by exact Hfit. script_step. reflexivity.
Qed.

(** Both loggers on a text that is not JSON. *)
Lemma all_bash_invalid (w : world) (p : proc) :
  json_loads (stdin w) = None ->
  run (LogAllBash.main w) p
  = {| exit_status := 1; final := with_stderr p InvalidJSONInput |}.
Proof.
  intros Hparse. unfold run, LogAllBash.main, loads. rewrite Hparse. reflexivity.
Qed.

Lemma failed_bash_invalid (w : world) (p : proc) :
  json_loads (stdin w) = None ->
  run (LogFailedBash.main w) p
  = {| exit_status := 1; final := with_stderr p InvalidJSONInput |}.
Proof.
  intros Hparse. unfold run, LogFailedBash.main, loads. rewrite Hparse. reflexivity.
Qed.

(** ** What log-build-loop writes *)

Lemma well_formed_prompt (d : dict) :
  opt_field d (py "prompt") is_string = true ->
  or_default (dict_get d (py "prompt")) (VStr []) = VStr (prompt_text d).
Proof.
  unfold prompt_text, opt_field.
  destruct (dict_get d (py "prompt")) as [v|]; simpl; [|reflexivity].
  destruct v; simpl; try discriminate. reflexivity.
Qed.

Lemma summary_of_text (s : pystr) :
  (if truthy (VStr s) then slice_to (VStr s) 100 else ret (VStr (py "N/A")))
  = ret (VStr (match s with [] => py "N/A" | _ => firstn 100 s end)).
Proof. destruct s; reflexivity. Qed.

Lemma build_loop_run (w : world) (p p1 : proc) (d : dict) :
  LogBuildLoop.load_hook_input w p = (p1, Return (VDict d)) ->
  (is_str (event_name d) (py "UserPromptSubmit") = true ->
   opt_field d (py "prompt") is_string = true) ->
  run (LogBuildLoop.main w) p =
    if log_accepts w (build_loop_line w d)
    then {| exit_status := 0; final := with_log p1 (build_loop_line w d) |}
    else {| exit_status := 1; final := with_stderr p1 (ErrorWritingToLog OSError) |}.
Proof.
  intros Hload Hprompt.
  unfold run, LogBuildLoop.main. unfold bind at 1. rewrite Hload.
  script_step. fold (event_name d). unfold build_loop_line.
  cbv zeta.
  destruct (is_str (event_name d) (py "UserPromptSubmit")) eqn:Eups;
  [pose proof (well_formed_prompt d (Hprompt eq_refl)) as E|];
  repeat match goal with
  | |- context [if is_str (event_name d) ?t then _ else _] =>
      destruct (is_str (event_name d) t)
  end;
  script_step;
  try (rewrite E, summary_of_text; script_step);
  unfold append_log, prompt_summary, py_str;
  destruct (prompt_text d);
  match goal with
  | |- context [log_accepts w ?t] => destruct (log_accepts w t); reflexivity
  end.
Qed.

(** How log-build-loop comes by its event. *)
Lemma load_from_stdin (w : world) (p : proc) (ev : value) :
  strip (stdin w) <> [] ->
  json_loads (stdin w) = Some ev ->
  LogBuildLoop.load_hook_input w p = (p, Return ev).
Proof.
  intros Hne Hparse. unfold LogBuildLoop.load_hook_input.
  destruct (strip (stdin w)); [contradiction|].
  unfold loads. rewrite Hparse. reflexivity.
Qed.

Lemma load_invalid (w : world) (p : proc) :
  strip (stdin w) <> [] ->
  json_loads (stdin w) = None ->
  LogBuildLoop.load_hook_input w p = (with_stderr p InvalidJSONInput, SysExit 1).
Proof.
  intros Hne Hparse. unfold LogBuildLoop.load_hook_input.
  destruct (strip (stdin w)); [contradiction|].
  unfold loads. rewrite Hparse. reflexivity.
Qed.

Lemma load_from_environ (w : world) (p : proc) (tool_args tool_result : value) :
  strip (stdin w) = [] ->
  json_loads (LogBuildLoop.environ_get_default w (py "ASP_TOOL_ARGS") (py "{}"))
  = Some tool_args ->
  json_loads (LogBuildLoop.environ_get_default w (py "ASP_TOOL_RESULT") (py "{}"))
  = Some tool_result ->
  LogBuildLoop.load_hook_input w p = (p, Return (VDict (pi_event w tool_args tool_result))).
Proof.
  intros Hblank Hargs Hres. unfold LogBuildLoop.load_hook_input.
  rewrite Hblank. unfold loads. rewrite Hargs, Hres. reflexivity.
Qed.

(** ** The exit code in an error message *)

Lemma span_decimal_app (ds rest : pystr) :
  forallb is_digit ds = true -> run_ends rest ->
  span_decimal (ds ++ rest) = (ds, rest).
Proof.
  intros Hds Hrest. induction ds as [|c ds IH]; simpl.
  - destruct rest as [|x rest]; [reflexivity|]. simpl in Hrest |- *.
    now rewrite Hrest.
  - simpl in Hds. apply andb_true_iff in Hds as [Hc Hds].
    rewrite Hc, (IH Hds). reflexivity.
Qed.

Lemma span_decimal_spec (s ds rest : pystr) :
  span_decimal s = (ds, rest) ->
  s = ds ++ rest /\ forallb is_digit ds = true /\ run_ends rest.
Proof.
  revert ds rest; induction s as [|c s IH]; intros ds rest; simpl.
  - intros [= <- <-]. repeat split.
  - destruct (is_digit c) eqn:Hc.
    + destruct (span_decimal s) as [ds' rest'] eqn:Es. intros [= <- <-].
      destruct (IH _ _ eq_refl) as (-> & Hd & Hr).
      repeat split; [|assumption]. simpl. now rewrite Hc, Hd.
    + intros [= <- <-]. repeat split. simpl. assumption.
Qed.

Lemma re_match_exit_code_run (ds rest : pystr) :
  ds <> [] -> forallb is_digit ds = true -> run_ends rest ->
  re_match_exit_code (py "Exit code " ++ ds ++ rest) = Some ds.
Proof.
  intros Hne Hds Hrest. unfold re_match_exit_code.
  rewrite starts_with_app.
  change 10%nat with (List.length (py "Exit code ")).
  rewrite skipn_app_exact, span_decimal_app by assumption.
  destruct ds; [contradiction|reflexivity].
Qed.

Lemma re_match_exit_code_some (msg ds : pystr) :
  re_match_exit_code msg = Some ds ->
  exists rest, msg = py "Exit code " ++ ds ++ rest /\ ds <> []
               /\ forallb is_digit ds = true /\ run_ends rest.
Proof.
  unfold re_match_exit_code.
  destruct (starts_with (py "Exit code ") msg) eqn:Hp; [|discriminate].
  apply starts_with_split in Hp.
  change (List.length (py "Exit code ")) with 10%nat in Hp.
  destruct (span_decimal (skipn 10 msg)) as [ds' rest] eqn:Es.
  apply span_decimal_spec in Es as (Hs & Hd & Hr). simpl.
  destruct ds' as [|c ds']; [discriminate|]. intros [= <-].
  exists rest. rewrite <- Hs. repeat split; try assumption. discriminate.
Qed.

(** A digit run within a longer one is a prefix of it. *)
Lemma span_decimal_prefix (ds rest : pystr) :
  forallb is_digit ds = true ->
  exists more, fst (span_decimal (ds ++ rest)) = ds ++ more.
Proof.
  intros Hds. induction ds as [|c ds IH]; simpl.
  - eexists. reflexivity.
  - simpl in Hds. apply andb_true_iff in Hds as [Hc Hds]. rewrite Hc.
    destruct (IH Hds) as [more Hm].
    destruct (span_decimal (ds ++ rest)) as [a b]. simpl in *. subst a.
    exists more. reflexivity.
Qed.

Lemma re_match_exit_code_none (msg : pystr) :
  ~ begins_with_exit_code msg -> re_match_exit_code msg = None.
Proof.
  intros Hno. destruct (re_match_exit_code msg) as [ds|] eqn:E; [|reflexivity].
  exfalso. apply Hno. apply re_match_exit_code_some in E as (rest & -> & Hne & Hd & _).
  exists ds, rest. auto.
Qed.

Lemma re_match_exit_code_begins (msg : pystr) :
  begins_with_exit_code msg -> exists ds, re_match_exit_code msg = Some ds.
Proof.
  intros (ds & rest & Hne & Hd & ->). unfold re_match_exit_code.
  rewrite starts_with_app.
  change 10%nat with (List.length (py "Exit code ")).
  rewrite skipn_app_exact.
  destruct (span_decimal_prefix ds rest Hd) as [more ->].
  destruct ds; [contradiction|]. eexists. reflexivity.
Qed.

Lemma ascii_digit_is_digit (c : N) : is_ascii_digit c = true -> is_digit c = true.
Proof.
  unfold is_digit, is_ascii_digit. intros H. apply andb_true_iff in H as [H1 H2].
  apply N.leb_le in H1, H2.
  destruct (c <? 128) eqn:E; [apply andb_true_iff; split; apply N.leb_le; assumption|].
  apply N.ltb_ge in E. lia.
Qed.

Lemma ascii_digits_are_digits (ds : pystr) :
  forallb is_ascii_digit ds = true -> forallb is_digit ds = true.
Proof.
  induction ds as [|c ds IH]; simpl; [reflexivity|].
  intros H. apply andb_true_iff in H as [Hc Hds].
  now rewrite (ascii_digit_is_digit c Hc), IH.
Qed.

Lemma decimal_value_ascii (ds : pystr) :
  forallb is_ascii_digit ds = true -> decimal_value ds = Z.of_N (N_of_digits ds).
Proof.
  unfold decimal_value, N_of_digits. generalize 0 as acc.
  induction ds as [|c ds IH]; intros acc; simpl; [reflexivity|].
  intros H. apply andb_true_iff in H as [Hc Hds].
  rewrite <- (IH _ Hds). do 3 f_equal.
  unfold digit_value, is_ascii_digit in *. apply andb_true_iff in Hc as [H1 H2].
  apply N.leb_le in H2. destruct (c <? 128) eqn:E; [reflexivity|].
  apply N.ltb_ge in E. lia.
Qed.

Lemma decimal_value_text (n : N) : decimal_value (N_text n) = Z.of_N n.
Proof. rewrite decimal_value_ascii, N_of_digits_text; [reflexivity|apply N_text_digits]. Qed.

(** Leading zeros do not count. *)
Lemma zeros_are_digits (zeros : pystr) :
  forallb (N.eqb 48) zeros = true -> forallb is_ascii_digit zeros = true.
Proof.
  induction zeros as [|c zeros IH]; cbn [forallb]; [reflexivity|].
  intros H. apply andb_true_iff in H as [Hc Hz]. apply N.eqb_eq in Hc. subst c.
  now rewrite IH.
Qed.

Lemma decimal_value_zeros (zeros ds : pystr) :
  forallb (N.eqb 48) zeros = true -> decimal_value (zeros ++ ds) = decimal_value ds.
Proof.
  unfold decimal_value. intros Hz. f_equal. rewrite fold_left_app. f_equal.
  induction zeros as [|c zeros IH]; cbn [forallb fold_left] in *; [reflexivity|].
  apply andb_true_iff in Hz as [Hc Hz]. apply N.eqb_eq in Hc. subst c.
  exact (IH Hz).
Qed.

(** When [int] converts the exit code of an error text. *)
Lemma code_converts_run (ds rest : pystr) :
  ds <> [] -> forallb is_digit ds = true -> run_ends rest ->
  code_converts (py "Exit code " ++ ds ++ rest) = negb (too_many_digits ds).
Proof.
  intros Hne Hds Hrest. unfold code_converts.
  now rewrite re_match_exit_code_run.
Qed.

Lemma too_many_digits_iff (ds : pystr) :
  too_many_digits ds = true <->
  (640 < List.length ds /\ 0 < int_max_str_digits < List.length ds)%nat.
Proof.
  unfold too_many_digits. cbv zeta. rewrite !andb_true_iff, !Nat.ltb_lt. tauto.
Qed.

End Events.

(** * The claims about the pipeline *)

Section Claims.
Context {R : PyRuntime}.

(** C2. An event that parses to a mapping whose [tool_name] is absent or
    is not the text Bash makes log-all-bash and log-failed-bash end with
    status 0 and leave the log file, standard output and standard error
    as they were. *)
Theorem other_tools_are_skipped (w : world) (p : proc) (d : dict) :
  json_loads (stdin w) = Some (VDict d) ->
  dict_get d (py "tool_name") <> Some (VStr (py "Bash")) ->
  run (LogAllBash.main w) p = {| exit_status := 0; final := p |}
  /\ run (LogFailedBash.main w) p = {| exit_status := 0; final := p |}.
Proof.
  intros Hparse Hname.
  assert (Hb : names_bash d = false).
  { destruct (names_bash d) eqn:E; [|reflexivity].
    apply (proj1 (names_bash_get d)) in E. contradiction. }
  split; [apply (all_bash_skip w p d) | apply (failed_bash_skip w p d)]; assumption.
Qed.

Ltac eval_eqb :=
  repeat match goal with
  | |- context [pystr_eqb (py ?a) (py ?b)] =>
      let r := eval vm_compute in (pystr_eqb (py a) (py b)) in
      change (pystr_eqb (py a) (py b)) with r
  end.

(** C8. A Bash event with a command of more than 40 characters: the block
    appended by log-all-bash is the JSON text of a record that holds the
    whole command under raw_hook_payload, tool_input, command, and the
    confirmation on standard output shows its first 40 characters and
    three dots. When the input is Unicode text and the timestamp too, the
    block parses back to that record. *)
Theorem all_bash_keeps_full_command
    (w : world) (p : proc) (d ti : dict) (cmd : pystr) :
  json_loads (stdin w) = Some (VDict d) ->
  dict_get d (py "tool_name") = Some (VStr (py "Bash")) ->
  dict_get d (py "tool_input") = Some (VDict ti) ->
  dict_get ti (py "command") = Some (VStr cmd) ->
  (40 < List.length cmd)%nat ->
  (forall t, log_accepts w t = true) ->
  (forall t, stdout_accepts w t = true) ->
  exists record shown,
    run (LogAllBash.main w) p =
      {| exit_status := 0;
         final := {| log_file := log_file p ++ json_dumps_indent 2 record ++ block_end;
                     stdout := stdout p ++ (py "[LOGGED ALL] " ++ shown ++ py "...") ++ [10];
                     stderr := stderr p |} |}
    /\ get_path record [py "raw_hook_payload"; py "tool_input"; py "command"]
       = Some (VStr cmd)
    /\ shown = firstn 40 cmd
    /\ List.length shown = 40%nat
    /\ (FloatLaws R -> unicode_text (stdin w) = true ->
        wf_str (now_isoformat w) = true ->
        json_loads (json_dumps_indent 2 record) = Some record).
Proof.
  intros Hparse Hname Hti Hcmd Hlen Hlog Hout.
  assert (Hok : command_ok d = true).
  { unfold command_ok, opt_field. rewrite Hti, Hcmd. reflexivity. }
  assert (Hc : command_text d = cmd).
  { unfold command_text, tool_input_of. rewrite Hti, Hcmd. reflexivity. }
  apply names_bash_get in Hname.
  exists (all_record w d), (firstn 40 cmd).
  rewrite (all_bash_run w p d Hparse Hname Hok), Hlog. unfold confirmed.
  rewrite Hout, Hc.
  split; [reflexivity|]. split.
  - unfold all_record. cbn [get_path dict_get]. eval_eqb. cbn [get_path dict_get].
    rewrite Hti, Hcmd. reflexivity.
  - split; [reflexivity|]. split; [rewrite length_firstn; lia|].
    intros L Hu Hts. apply json_loads_dumps_indent.
    pose proof (json_loads_wf (stdin w) _ Hu Hparse) as Hwf.
    unfold all_record. cbn [wf_value] in Hwf |- *. cbn [forallb fst snd wf_value].
    rewrite Hts, Hwf. reflexivity.
Qed.

Lemma dict_get_wf (d : dict) (k : pystr) (v : value) :
  wf_value (VDict d) = true -> dict_get d k = Some v -> wf_value v = true.
Proof.
  cbn [wf_value]. intros H. apply andb_true_iff in H as [_ H].
  induction d as [|[k' v'] d IH]; cbn [dict_get]; [discriminate|].
  cbn [forallb fst snd] in H. apply andb_true_iff in H as [Hkv H].
  destruct (pystr_eqb k' k).
  - intros [= <-]. apply andb_true_iff in Hkv. tauto.
  - now apply IH.
Qed.

Lemma or_default_wf (d : dict) (k : pystr) (default : value) :
  wf_value (VDict d) = true -> wf_value default = true ->
  wf_value (or_default (dict_get d k) default) = true.
Proof.
  intros Hd Hdef. destruct (dict_get d k) as [v|] eqn:E; cbn [or_default]; [|assumption].
  exact (dict_get_wf d k v Hd E).
Qed.

Lemma tool_input_of_wf (d : dict) :
  wf_value (VDict d) = true -> wf_value (VDict (tool_input_of d)) = true.
Proof.
  intros Hd. unfold tool_input_of.
  destruct (dict_get d (py "tool_input")) as [v|] eqn:E; [|reflexivity].
  pose proof (dict_get_wf d _ v Hd E) as Hv. destruct v; try reflexivity. exact Hv.
Qed.

Lemma error_text_wf (d : dict) : wf_value (VDict d) = true -> wf_str (error_text d) = true.
Proof.
  intros Hd. unfold error_text.
  destruct (dict_get d (py "error")) as [v|] eqn:E; [|reflexivity].
  pose proof (dict_get_wf d _ v Hd E) as Hv. destruct v; try reflexivity. exact Hv.
Qed.

Lemma failure_record_wf (w : world) (d : dict) :
  wf_value (VDict d) = true -> wf_str (now_isoformat w) = true ->
  wf_value (failure_record w d) = true.
Proof.
  intros Hd Hts. pose proof (tool_input_of_wf d Hd) as Hti.
  unfold failure_record. cbn [wf_value forallb fst snd].
  change (distinct (keys _)) with true.
  rewrite Hts, (error_text_wf d Hd).
  rewrite !(or_default_wf (tool_input_of d)), !(or_default_wf d) by (assumption || reflexivity).
  unfold exit_code_field. destruct (re_match_exit_code (error_text d)); reflexivity.
Qed.

(** C10, amended. A Bash event with well-typed fields given to
    log-failed-bash, the digits of an exit code in its error text being
    no more than [int] converts: nothing is raised, and the block
    appended is the JSON text of a record with the nine fields timestamp,
    exit_code, command, description, error_message, is_interrupt,
    session_id, cwd, tool_use_id, in this order. A field that is present
    is copied; a missing command, description, session_id, cwd or
    tool_use_id is recorded as null, a missing error as the empty text
    (and no exit code), a missing is_interrupt as false. When the input
    and the timestamp are Unicode text, the block parses back to that
    record. With more digits than [int] converts there is no record: the
    script ends with the traceback of a [ValueError] and status 1. *)
Theorem failure_record_fields (w : world) (p : proc) (d : dict) :
  json_loads (stdin w) = Some (VDict d) ->
  dict_get d (py "tool_name") = Some (VStr (py "Bash")) ->
  well_formed d = true ->
  (forall t, log_accepts w t = true) ->
  (forall t, stdout_accepts w t = true) ->
  (code_converts (error_text d) = true ->
   exists exit_code command description error_message is_interrupt
          session_id cwd tool_use_id shown record,
     record = VDict [(py "timestamp", VStr (now_isoformat w));
                     (py "exit_code", exit_code);
                     (py "command", command);
                     (py "description", description);
                     (py "error_message", error_message);
                     (py "is_interrupt", is_interrupt);
                     (py "session_id", session_id);
                     (py "cwd", cwd);
                     (py "tool_use_id", tool_use_id)]
     /\ run (LogFailedBash.main w) p =
          {| exit_status := 0;
             final := {| log_file := log_file p ++ json_dumps_indent 2 record ++ block_end;
                         stdout := stdout p ++ shown ++ [10];
                         stderr := stderr p |} |}
     /\ (dict_get (tool_input_of d) (py "command") = None -> command = VNone)
     /\ (dict_get (tool_input_of d) (py "description") = None -> description = VNone)
     /\ (dict_get d (py "error") = None ->
         error_message = VStr [] /\ exit_code = VNone)
     /\ (dict_get d (py "is_interrupt") = None -> is_interrupt = VBool false)
     /\ (dict_get d (py "session_id") = None -> session_id = VNone)
     /\ (dict_get d (py "cwd") = None -> cwd = VNone)
     /\ (dict_get d (py "tool_use_id") = None -> tool_use_id = VNone)
     /\ (forall v, dict_get (tool_input_of d) (py "command") = Some v -> command = v)
     /\ (forall v, dict_get (tool_input_of d) (py "description") = Some v ->
                   description = v)
     /\ (forall m, dict_get d (py "error") = Some (VStr m) -> error_message = VStr m)
     /\ (forall v, dict_get d (py "is_interrupt") = Some v -> is_interrupt = v)
     /\ (forall v, dict_get d (py "session_id") = Some v -> session_id = v)
     /\ (forall v, dict_get d (py "cwd") = Some v -> cwd = v)
     /\ (forall v, dict_get d (py "tool_use_id") = Some v -> tool_use_id = v)
     /\ (FloatLaws R -> unicode_text (stdin w) = true ->
         wf_str (now_isoformat w) = true ->
         json_loads (json_dumps_indent 2 record) = Some record))
  /\ (code_converts (error_text d) = false ->
      run (LogFailedBash.main w) p
      = {| exit_status := 1;
           final := {| log_file := log_file p; stdout := stdout p;
                       stderr := stderr p ++ [Traceback ValueError] |} |})
  /\ (dict_get d (py "error") = None -> code_converts (error_text d) = true)
  /\ (forall ds rest,
        dict_get d (py "error") = Some (VStr (py "Exit code " ++ ds ++ rest)) ->
        ds <> [] -> forallb is_digit ds = true -> run_ends rest ->
        code_converts (error_text d) = negb (too_many_digits ds)).
Proof.
  intros Hparse Hname Hwf Hlog Hout.
  destruct (well_formed_parts d Hwf) as (Hcmd & Herr & _).
  apply names_bash_get in Hname.
  repeat match goal with |- _ /\ _ => split end.
  - intros Hfit.
    pose proof (failed_bash_run w p d Hparse Hname Herr Hfit Hcmd) as Hrun.
    cbv zeta in Hrun. rewrite Hlog in Hrun. unfold confirmed in Hrun. rewrite Hout in Hrun.
    do 9 eexists. exists (failure_record w d).
    split; [reflexivity|]. split; [exact Hrun|].
    repeat match goal with |- _ /\ _ => split end;
      try (intros E; rewrite E; reflexivity);
      try (intros v E; rewrite E; reflexivity).
    + intros E. unfold error_text. rewrite E. split; reflexivity.
    + intros m E. unfold error_text. rewrite E. reflexivity.
    + intros L Hu Hts. apply json_loads_dumps_indent, failure_record_wf; [|assumption].
      exact (json_loads_wf (stdin w) _ Hu Hparse).
  - intros Hfit. exact (failed_bash_long_code w p d Hparse Hname Herr Hfit).
  - intros E. unfold error_text. rewrite E. reflexivity.
  - intros ds rest E Hne Hds Hrest. unfold error_text. rewrite E.
    exact (code_converts_run ds rest Hne Hds Hrest).
Qed.

(** C4, amended. In log-failed-bash, an error text that begins with
    [Exit code], a space and a run of digits that [int] converts gives
    the exit_code field the integer the run denotes; any other text, the
    empty one included, gives null, and the script ends with status 0
    either way. A run of more digits than [int] converts (more than
    [sys.int_max_str_digits], when that is set and the run is longer than
    640) makes [int] raise [ValueError]: traceback, status 1, nothing
    logged. *)
Theorem exit_code_extraction (w : world) (p : proc) (d : dict) (msg : pystr) :
  json_loads (stdin w) = Some (VDict d) ->
  dict_get d (py "tool_name") = Some (VStr (py "Bash")) ->
  dict_get d (py "error") = Some (VStr msg) ->
  command_ok d = true ->
  (forall t, log_accepts w t = true) ->
  (forall t, stdout_accepts w t = true) ->
  (code_converts msg = true ->
   exists exit_code fields shown,
     run (LogFailedBash.main w) p =
       {| exit_status := 0;
          final :=
            {| log_file :=
                 log_file p ++
                 json_dumps_indent 2
                   (VDict ((py "timestamp", VStr (now_isoformat w))
                           :: (py "exit_code", exit_code) :: fields))
                 ++ block_end;
               stdout := stdout p ++ shown ++ [10];
               stderr := stderr p |} |}
     /\ (forall ds rest,
           msg = py "Exit code " ++ ds ++ rest -> ds <> [] ->
           forallb is_digit ds = true -> run_ends rest ->
           exit_code = VInt (decimal_value ds))
     /\ (forall n rest,
           msg = py "Exit code " ++ N_text n ++ rest -> run_ends rest ->
           exit_code = VInt (Z.of_N n))
     /\ (begins_with_exit_code msg -> exists n, exit_code = VInt n)
     /\ (~ begins_with_exit_code msg -> exit_code = VNone))
  /\ (code_converts msg = false ->
      run (LogFailedBash.main w) p
      = {| exit_status := 1;
           final := {| log_file := log_file p; stdout := stdout p;
                       stderr := stderr p ++ [Traceback ValueError] |} |})
  /\ (~ begins_with_exit_code msg -> code_converts msg = true)
  /\ (forall ds rest,
        msg = py "Exit code " ++ ds ++ rest -> ds <> [] ->
        forallb is_digit ds = true -> run_ends rest ->
        code_converts msg = negb (too_many_digits ds))
  /\ (forall ds,
        too_many_digits ds = true <->
        (640 < List.length ds /\ 0 < int_max_str_digits < List.length ds)%nat).
Proof.
  intros Hparse Hname Herror Hcmd Hlog Hout.
  assert (Herr : opt_field d (py "error") is_string = true).
  { unfold opt_field. rewrite Herror. reflexivity. }
  assert (Ht : error_text d = msg).
  { unfold error_text. rewrite Herror. reflexivity. }
  apply names_bash_get in Hname.
  repeat match goal with |- _ /\ _ => split end.
  - intros Hfit. rewrite <- Ht in Hfit.
    pose proof (failed_bash_run w p d Hparse Hname Herr Hfit Hcmd) as Hrun.
    cbv zeta in Hrun. rewrite Hlog in Hrun. unfold confirmed in Hrun. rewrite Hout in Hrun.
    exists (exit_code_field (error_text d)). do 2 eexists. split; [exact Hrun|].
    rewrite Ht. unfold exit_code_field. repeat match goal with |- _ /\ _ => split end.
    + intros ds rest -> Hne Hds Hrest.
      rewrite re_match_exit_code_run by assumption. reflexivity.
    + intros n rest -> Hrest.
      rewrite re_match_exit_code_run;
        [rewrite decimal_value_text; reflexivity | apply N_text_nonempty
        | apply ascii_digits_are_digits, N_text_digits | assumption].
    + intros Hb. destruct (re_match_exit_code_begins msg Hb) as [ds ->].
      eexists. reflexivity.
    + intros Hno. rewrite re_match_exit_code_none by assumption. reflexivity.
  - intros Hfit. rewrite <- Ht in Hfit.
    exact (failed_bash_long_code w p d Hparse Hname Herr Hfit).
  - intros Hno. unfold code_converts. now rewrite re_match_exit_code_none.
  - intros ds rest -> Hne Hds Hrest. exact (code_converts_run ds rest Hne Hds Hrest).
  - intros ds. exact (too_many_digits_iff ds).
Qed.

(** ** The lines of log-build-loop *)


Lemma unknown_line (w : world) (d : dict) :
  is_recognised d = false ->
  build_loop_line w d
  = LogBuildLoop.line (now_strftime w) (py "UNKNOWN") (json_dumps (VDict d)).
Proof.
  unfold is_recognised, recognised. cbn [existsb].
  rewrite !orb_false_iff. intros (E1 & E2 & E3 & E4 & E5 & E6 & E7 & _).
  unfold build_loop_line. cbv zeta.
  rewrite E1, E2, E3, E4, E5, E6, E7. reflexivity.
Qed.


Lemma prompt_event_name (d : dict) :
  is_str (event_name d) (py "UserPromptSubmit") = true ->
  dict_get d (py "hook_event_name") = Some (VStr (py "UserPromptSubmit")).
Proof.
  unfold event_name. destruct (dict_get d (py "hook_event_name")) as [v|]; simpl.
  - destruct v; simpl; try discriminate. intros H. apply pystr_eqb_eq in H. now subst.
  - discriminate.
Qed.



(** ** The exit status *)

Lemma load_environ_invalid (w : world) (p : proc) :
  strip (stdin w) = [] ->
  json_loads (LogBuildLoop.environ_get_default w (py "ASP_TOOL_ARGS") (py "{}")) = None
  \/ json_loads (LogBuildLoop.environ_get_default w (py "ASP_TOOL_RESULT") (py "{}")) = None ->
  LogBuildLoop.load_hook_input w p = (p, Raise JSONDecodeError).
Proof.
  intros Hblank H. unfold LogBuildLoop.load_hook_input. rewrite Hblank.
  unfold loads.
  destruct (json_loads (LogBuildLoop.environ_get_default w (py "ASP_TOOL_ARGS") (py "{}")))
    as [a|]; [|reflexivity].
  destruct H as [H|H]; [discriminate|]. rewrite H. reflexivity.
Qed.

Lemma build_loop_no_event (w : world) (p p1 : proc) (e : exn) :
  LogBuildLoop.load_hook_input w p = (p1, Raise e) ->
  run (LogBuildLoop.main w) p = {| exit_status := 1; final := with_stderr p1 (Traceback e) |}.
Proof.
  intros H. unfold run, LogBuildLoop.main. unfold bind at 1. rewrite H. reflexivity.
Qed.

Lemma build_loop_invalid (w : world) (p : proc) :
  strip (stdin w) <> [] -> json_loads (stdin w) = None ->
  run (LogBuildLoop.main w) p
  = {| exit_status := 1; final := with_stderr p InvalidJSONInput |}.
Proof.
  intros Hne Hparse. unfold run, LogBuildLoop.main. unfold bind at 1.
  rewrite (load_invalid w p Hne Hparse). reflexivity.
Qed.

(** C1, amended. Only log-build-loop has the bridge. When its standard
    input is empty or blank and each of ASP_TOOL_ARGS and ASP_TOOL_RESULT
    is unset or holds JSON text, it builds the event from ASP_TOOL_NAME
    and these two, an unset one standing for the empty object, marks it
    with source pi, and writes it under UNKNOWN, the event having no
    [hook_event_name]. log-all-bash and log-failed-bash take an empty
    input for invalid JSON and end with status 1, the log untouched. *)
Theorem bridge_only_in_build_loop
    (w : world) (p : proc) (tool_args tool_result : value) :
  strip (stdin w) = [] ->
  json_loads (LogBuildLoop.environ_get_default w (py "ASP_TOOL_ARGS") (py "{}"))
  = Some tool_args ->
  json_loads (LogBuildLoop.environ_get_default w (py "ASP_TOOL_RESULT") (py "{}"))
  = Some tool_result ->
  (forall t, log_accepts w t = true) ->
  let event :=
    VDict [(py "tool_name", LogBuildLoop.environ_get w (py "ASP_TOOL_NAME"));
           (py "tool_args", tool_args);
           (py "tool_result", tool_result);
           (py "source", VStr (py "pi"))] in
  LogBuildLoop.load_hook_input w p = (p, Return event)
  /\ run (LogBuildLoop.main w) p =
       {| exit_status := 0;
          final := {| log_file := log_file p
                        ++ LogBuildLoop.line (now_strftime w) (py "UNKNOWN")
                                             (json_dumps event);
                      stdout := stdout p;
                      stderr := stderr p |} |}
  /\ (environ w (py "ASP_TOOL_ARGS") = None -> tool_args = VDict [])
  /\ (environ w (py "ASP_TOOL_RESULT") = None -> tool_result = VDict [])
  /\ (stdin w = [] ->
      run (LogAllBash.main w) p
      = {| exit_status := 1; final := with_stderr p InvalidJSONInput |}
      /\ run (LogFailedBash.main w) p
         = {| exit_status := 1; final := with_stderr p InvalidJSONInput |}).
Proof.
  intros Hblank Hargs Hres Hlog event.
  pose proof (load_from_environ w p tool_args tool_result Hblank Hargs Hres) as Hload.
  fold (pi_event w tool_args tool_result) in event.
  assert (Hrec : is_recognised (pi_event w tool_args tool_result) = false)
    by reflexivity.
  repeat match goal with |- _ /\ _ => split end.
  - exact Hload.
  - rewrite (build_loop_run w p p _ Hload).
    + rewrite Hlog, (unknown_line w _ Hrec). reflexivity.
    + intros H. discriminate H.
  - intros Hunset. unfold LogBuildLoop.environ_get_default in Hargs.
    rewrite Hunset in Hargs. vm_compute in Hargs. now injection Hargs.
  - intros Hunset. unfold LogBuildLoop.environ_get_default in Hres.
    rewrite Hunset in Hres. vm_compute in Hres. now injection Hres.
  - intros Hempty.
    assert (Hparse : json_loads (stdin w) = None) by (rewrite Hempty; reflexivity).
    rewrite all_bash_invalid, failed_bash_invalid by assumption. split; reflexivity.
Qed.

End Claims.

(** ** The payload of a log-build-loop line, read back *)

Section RoundTripClaim.
Context {R : PyRuntime} {L : FloatLaws R}.




End RoundTripClaim.

(** * Further properties of the scripts

    What the scripts do with events of any shape, with input that is no
    event at all, and what can be said of the texts they write. *)

(** ** Events of any shape *)

Section AnyEvent.
Context {R : PyRuntime}.

Ltac step :=
  repeat first
    [ progress (unfold get)
    | rewrite get_default_dict
    | progress (cbv beta iota zeta delta
                  [bind ret try_except and_then handle exit_of raise sys_exit eprint fst snd
                   is_Exception is_JSONDecodeError negb]) ].


(** log-all-bash on any Bash event. *)
Lemma all_bash_run_any (w : world) (p : proc) (d : dict) :
  json_loads (stdin w) = Some (VDict d) ->
  dict_get d (py "tool_name") = Some (VStr (py "Bash")) ->
  let text := json_dumps_indent 2 (all_record w d) ++ block_end in
  run (LogAllBash.main w) p =
    if log_accepts w text then
      match or_default (dict_get d (py "tool_input")) (VDict []) with
      | VDict t =>
          match or_default (dict_get t (py "command")) (VStr (py "N/A")) with
          | VStr s =>
              confirmed w (with_log p text)
                (py "[LOGGED ALL] " ++ firstn 40 s ++ py "...")
          | VList l =>
              confirmed w (with_log p text)
                (py "[LOGGED ALL] " ++ py_repr (VList (firstn 40 l)) ++ py "...")
          | _ => {| exit_status := 1;
                    final := with_stderr (with_log p text) (ErrorWritingToLog TypeError) |}
          end
      | _ => {| exit_status := 1;
                final := with_stderr (with_log p text) (ErrorWritingToLog AttributeError) |}
      end
    else {| exit_status := 1; final := with_stderr p (ErrorWritingToLog OSError) |}.
Proof.
  intros Hparse Hname text.
  unfold run, LogAllBash.main, loads. rewrite Hparse. step.
  rewrite Hname. cbn [or_default is_str]. 
  change (pystr_eqb (py "Bash") (py "Bash")) with true. step.
  fold (all_record w d). fold block_end. fold text.
  unfold append_log at 1.
  destruct (log_accepts w text); step; [|reflexivity].
  destruct (or_default (dict_get d (py "tool_input")) (VDict [])) as [ |b|z|f|s|l|t];
    try reflexivity.
  step.
  destruct (or_default (dict_get t (py "command")) (VStr (py "N/A"))) as [ |b|z|f|s|l|t'];
    try reflexivity; unfold slice_to, print, confirmed; step.
  - change (py_str (VStr (firstn 40 s))) with (firstn 40 s).
    destruct (stdout_accepts w _); [reflexivity|].
    destruct (stdout_refusal w _); reflexivity.
  - change (py_str (VList (firstn 40 l))) with (py_repr (VList (firstn 40 l))).
    destruct (stdout_accepts w _); [reflexivity|].
    destruct (stdout_refusal w _); reflexivity.
Qed.

Lemma harmless_code (v : value) :
  harmless v = true ->
  (if truthy v then exit_code_of v else ret VNone)
  = ret (match v with VStr m => exit_code_field m | _ => VNone end).
Proof.
  intros H.
  destruct v; cbn [harmless] in H; try apply negb_true_iff in H;
    try (rewrite H; reflexivity).
  apply exit_code_of_text. exact H.
Qed.

Lemma harmless_error (d : dict) :
  error_harmless d = true ->
  harmless (or_default (dict_get d (py "error")) (VStr [])) = true.
Proof.
  unfold error_harmless, opt_field.
  destruct (dict_get d (py "error")); [intros H; exact H|reflexivity].
Qed.

(** log-failed-bash on a Bash event whose [error] does not stop it and
    whose [tool_input] is absent or a mapping. *)
Lemma failed_bash_run_any (w : world) (p : proc) (d t : dict) :
  json_loads (stdin w) = Some (VDict d) ->
  dict_get d (py "tool_name") = Some (VStr (py "Bash")) ->
  error_harmless d = true ->
  or_default (dict_get d (py "tool_input")) (VDict []) = VDict t ->
  let err := or_default (dict_get d (py "error")) (VStr []) in
  let code := match err with VStr m => exit_code_field m | _ => VNone end in
  let record :=
    VDict [(py "timestamp", VStr (now_isoformat w));
           (py "exit_code", code);
           (py "command", or_default (dict_get t (py "command")) VNone);
           (py "description", or_default (dict_get t (py "description")) VNone);
           (py "error_message", err);
           (py "is_interrupt", or_default (dict_get d (py "is_interrupt")) (VBool false));
           (py "session_id", or_default (dict_get d (py "session_id")) VNone);
           (py "cwd", or_default (dict_get d (py "cwd")) VNone);
           (py "tool_use_id", or_default (dict_get d (py "tool_use_id")) VNone)] in
  let text := json_dumps_indent 2 record ++ block_end in
  let line := fun shown =>
    py "[LOGGED FAILURE] exit=" ++ py_str code ++ py " cmd=" ++ shown ++ py "..." in
  run (LogFailedBash.main w) p =
    if log_accepts w text then
      match or_default (dict_get t (py "command")) (VStr (py "N/A")) with
      | VStr s => confirmed w (with_log p text) (line (firstn 40 s))
      | VList l => confirmed w (with_log p text) (line (py_repr (VList (firstn 40 l))))
      | _ => {| exit_status := 1;
                final := with_stderr (with_log p text) (ErrorWritingToLog TypeError) |}
      end
    else {| exit_status := 1; final := with_stderr p (ErrorWritingToLog OSError) |}.
Proof.
  intros Hparse Hname Herr Hti err code record text line.
  unfold run, LogFailedBash.main, loads. rewrite Hparse. step.
  rewrite Hname. cbn [or_default is_str].
  change (pystr_eqb (py "Bash") (py "Bash")) with true. step.
  rewrite harmless_code by (apply harmless_error; exact Herr). step. rewrite Hti. step.
  fold err. fold code. fold record. fold block_end. fold text.
  unfold append_log at 1.
  destruct (log_accepts w text); step; [|reflexivity].
  destruct (or_default (dict_get t (py "command")) (VStr (py "N/A"))) as [ |b|z|f|s|l|t'];
    try reflexivity; unfold slice_to, print, confirmed; step.
  - change (py_str (VStr (firstn 40 s))) with (firstn 40 s).
    fold (line (firstn 40 s)).
    destruct (stdout_accepts w _); [reflexivity|].
    destruct (stdout_refusal w _); reflexivity.
  - change (py_str (VList (firstn 40 l))) with (py_repr (VList (firstn 40 l))).
    fold (line (py_repr (VList (firstn 40 l)))).
    destruct (stdout_accepts w _); [reflexivity|].
    destruct (stdout_refusal w _); reflexivity.
Qed.

(** log-failed-bash on a Bash event whose [error] is not a text and counts
    as true, and on one whose [tool_input] is not a mapping. *)
Lemma failed_bash_bad_error (w : world) (p : proc) (d : dict) (v : value) :
  json_loads (stdin w) = Some (VDict d) ->
  dict_get d (py "tool_name") = Some (VStr (py "Bash")) ->
  dict_get d (py "error") = Some v -> is_string v = false -> truthy v = true ->
  run (LogFailedBash.main w) p
  = {| exit_status := 1; final := with_stderr p (Traceback TypeError) |}.
Proof.
  intros Hparse Hname He Hs Ht.
  unfold run, LogFailedBash.main, loads. rewrite Hparse. step.
  rewrite Hname. cbn [or_default is_str].
  change (pystr_eqb (py "Bash") (py "Bash")) with true. cbv iota.
  rewrite He. cbn [or_default]. rewrite Ht.
  destruct v; try discriminate Hs; reflexivity.
Qed.

(** ... and on one whose [error] is a text with an exit code of more
    digits than [int] converts. *)
Lemma failed_bash_long_error (w : world) (p : proc) (d : dict) (m : pystr) :
  json_loads (stdin w) = Some (VDict d) ->
  dict_get d (py "tool_name") = Some (VStr (py "Bash")) ->
  dict_get d (py "error") = Some (VStr m) -> code_converts m = false ->
  run (LogFailedBash.main w) p
  = {| exit_status := 1; final := with_stderr p (Traceback ValueError) |}.
Proof.
  intros Hparse Hname He Hfit.
  apply (failed_bash_long_code w p d Hparse).
  - now apply names_bash_get.
  - unfold opt_field. now rewrite He.
  - unfold error_text. now rewrite He.
Qed.

Lemma failed_bash_bad_input (w : world) (p : proc) (d : dict) (v : value) :
  json_loads (stdin w) = Some (VDict d) ->
  dict_get d (py "tool_name") = Some (VStr (py "Bash")) ->
  error_harmless d = true ->
  dict_get d (py "tool_input") = Some v -> is_mapping v = false ->
  run (LogFailedBash.main w) p
  = {| exit_status := 1; final := with_stderr p (Traceback AttributeError) |}.
Proof.
  intros Hparse Hname Hh Hti Hm.
  unfold run, LogFailedBash.main, loads. rewrite Hparse. step.
  rewrite Hname. cbn [or_default is_str].
  change (pystr_eqb (py "Bash") (py "Bash")) with true. cbv iota.
  rewrite harmless_code by (apply harmless_error; exact Hh). step.
  rewrite Hti. cbn [or_default].
  destruct v; try discriminate Hm; reflexivity.
Qed.

Lemma not_bash_skip (d : dict) :
  dict_get d (py "tool_name") <> Some (VStr (py "Bash")) -> names_bash d = false.
Proof.
  intros H. destruct (names_bash d) eqn:E; [|reflexivity].
  apply names_bash_get in E. contradiction.
Qed.

Lemma all_bash_non_object (w : world) (p : proc) (v : value) :
  json_loads (stdin w) = Some v -> is_mapping v = false ->
  run (LogAllBash.main w) p
  = {| exit_status := 1; final := with_stderr p (Traceback AttributeError) |}.
Proof.
  intros Hparse Hv. unfold run, LogAllBash.main, loads. rewrite Hparse.
  destruct v; try discriminate Hv; reflexivity.
Qed.

Lemma failed_bash_non_object (w : world) (p : proc) (v : value) :
  json_loads (stdin w) = Some v -> is_mapping v = false ->
  run (LogFailedBash.main w) p
  = {| exit_status := 1; final := with_stderr p (Traceback AttributeError) |}.
Proof.
  intros Hparse Hv. unfold run, LogFailedBash.main, loads. rewrite Hparse.
  destruct v; try discriminate Hv; reflexivity.
Qed.

Lemma bash_or_not (d : dict) :
  dict_get d (py "tool_name") = Some (VStr (py "Bash"))
  \/ dict_get d (py "tool_name") <> Some (VStr (py "Bash")).
Proof.
  destruct (names_bash d) eqn:E.
  - left. now apply names_bash_get.
  - right. intros H. apply names_bash_get in H. congruence.
Qed.

Lemma confirmed_outcome (w : world) (p : proc) (record : value) (line : pystr) :
  bash_outcome w p
    (confirmed w (with_log p (json_dumps_indent 2 record ++ block_end)) line).
Proof.
  unfold confirmed. destruct (stdout_accepts w line) eqn:Ea.
  - eapply bash_logged; reflexivity.
  - destruct (stdout_refusal w line) eqn:Er.
    + eapply bash_unconfirmed; reflexivity.
    + eapply bash_unflushed; [exact Ea|exact Er|reflexivity].
    + eapply bash_unheard; [exact Ea|exact Er|reflexivity].
Qed.

Lemma all_bash_outcome (w : world) (p : proc) :
  bash_outcome w p (run (LogAllBash.main w) p).
Proof.
  destruct (json_loads (stdin w)) as [v|] eqn:Hparse.
  - destruct v as [ |b|z|f|s|l|d];
      try (apply bash_stopped with (dg := Traceback AttributeError);
           apply (all_bash_non_object w p _ Hparse); reflexivity).
    destruct (bash_or_not d) as [Hname|Hname].
    + rewrite (all_bash_run_any w p d Hparse Hname). cbv zeta.
      destruct (log_accepts w _); [|eapply bash_stopped; reflexivity].
      destruct (or_default (dict_get d (py "tool_input")) (VDict []));
        try (eapply bash_unconfirmed; reflexivity).
      destruct (or_default (dict_get d0 (py "command")) (VStr (py "N/A")));
        try (eapply bash_unconfirmed; reflexivity);
        apply confirmed_outcome.
    + apply bash_skipped. apply (all_bash_skip w p d Hparse (not_bash_skip d Hname)).
  - eapply bash_stopped. apply (all_bash_invalid w p Hparse).
Qed.

Lemma failed_bash_outcome (w : world) (p : proc) :
  bash_outcome w p (run (LogFailedBash.main w) p).
Proof.
  destruct (json_loads (stdin w)) as [v|] eqn:Hparse.
  - destruct v as [ |b|z|f|s|l|d];
      try (apply bash_stopped with (dg := Traceback AttributeError);
           apply (failed_bash_non_object w p _ Hparse); reflexivity).
    destruct (bash_or_not d) as [Hname|Hname].
    + destruct (error_harmless d) eqn:Hh.
      * destruct (or_default (dict_get d (py "tool_input")) (VDict [])) as [ |b|z|f|s|l|t]
          eqn:Hti;
          try (destruct (dict_get d (py "tool_input")) as [ti|] eqn:Eti;
               [|discriminate Hti]; cbn [or_default] in Hti; subst ti;
               eapply bash_stopped;
               apply (failed_bash_bad_input w p d _ Hparse Hname Hh Eti eq_refl)).
        rewrite (failed_bash_run_any w p d t Hparse Hname Hh Hti). cbv zeta.
        destruct (log_accepts w _); [|eapply bash_stopped; reflexivity].
        destruct (or_default (dict_get t (py "command")) (VStr (py "N/A")));
          try (eapply bash_unconfirmed; reflexivity);
          apply confirmed_outcome.
      * unfold error_harmless, opt_field in Hh.
        destruct (dict_get d (py "error")) as [ev|] eqn:Eerr; [|discriminate Hh].
        destruct ev as [ |b|z|f|m|l|t]; cbn [harmless] in Hh;
          try (apply negb_false_iff in Hh; eapply bash_stopped;
               apply (failed_bash_bad_error w p d _ Hparse Hname Eerr eq_refl Hh)).
        eapply bash_stopped.
        apply (failed_bash_long_error w p d m Hparse Hname Eerr Hh).
    + apply bash_skipped. apply (failed_bash_skip w p d Hparse (not_bash_skip d Hname)).
  - eapply bash_stopped. apply (failed_bash_invalid w p Hparse).
Qed.



Lemma build_loop_non_object (w : world) (p p1 : proc) (v : value) :
  LogBuildLoop.load_hook_input w p = (p1, Return v) ->
  is_mapping v = false ->
  run (LogBuildLoop.main w) p
  = {| exit_status := 1; final := with_stderr p1 (Traceback AttributeError) |}.
Proof.
  intros Hload Hv. unfold run, LogBuildLoop.main. unfold bind at 1. rewrite Hload.
  destruct v; try discriminate Hv; reflexivity.
Qed.


Lemma payload_line (w : world) (d : dict) :
  dict_get d (py "hook_event_name") <> Some (VStr (py "PreToolUse")) ->
  dict_get d (py "hook_event_name") <> Some (VStr (py "UserPromptSubmit")) ->
  exists tag,
    In tag tags
    /\ build_loop_line w d
       = LogBuildLoop.line (now_strftime w) tag (json_dumps (VDict d)).
Proof.
  intros Hpre Hprompt.
  assert (E1 : is_str (event_name d) (py "PreToolUse") = false).
  { destruct (is_str (event_name d) (py "PreToolUse")) eqn:E; [|reflexivity].
    exfalso. apply Hpre. unfold event_name in E.
    destruct (dict_get d (py "hook_event_name")) as [v|]; [|discriminate E].
    destruct v; try discriminate E. cbn in E. apply pystr_eqb_eq in E. now subst. }
  assert (E2 : is_str (event_name d) (py "UserPromptSubmit") = false).
  { destruct (is_str (event_name d) (py "UserPromptSubmit")) eqn:E; [|reflexivity].
    exfalso. apply Hprompt. now apply prompt_event_name. }
  unfold build_loop_line. cbv zeta. rewrite E1, E2.
  repeat match goal with
  | |- context [if is_str (event_name d) ?t then _ else _] =>
      destruct (is_str (event_name d) t)
  end;
  eexists; (split; [|reflexivity]);
  cbn [In tags]; repeat first [left; reflexivity | right].
Qed.

End AnyEvent.

(** ** Every invocation *)

Section EveryInvocation.
Context {R : PyRuntime}.







End EveryInvocation.

(** ** Blank text *)

Lemma lstrip_spec (s : pystr) :
  exists pre, s = pre ++ lstrip s /\ forallb py_isspace pre = true
              /\ begins_solid (lstrip s).
Proof.
  induction s as [|c s (pre & E & Hpre & Hb)]; cbn [lstrip].
  - exists []. repeat split.
  - destruct (py_isspace c) eqn:Ec.
    + exists (c :: pre). cbn [app forallb]. rewrite Ec, Hpre, <- E. repeat split.
      exact Hb.
    + exists []. repeat split. exact Ec.
Qed.

Lemma lstrip_blank (s : pystr) : forallb py_isspace s = true -> lstrip s = [].
Proof.
  induction s as [|c s IH]; cbn [lstrip forallb]; [reflexivity|].
  intros H. apply andb_true_iff in H as [-> H]. now apply IH.
Qed.

Lemma strip_spec (s : pystr) :
  exists pre post,
    s = pre ++ strip s ++ post
    /\ forallb py_isspace pre = true /\ forallb py_isspace post = true
    /\ begins_solid (strip s) /\ ends_solid (strip s).
Proof.
  unfold strip.
  destruct (lstrip_spec s) as (pre & E1 & Hpre & Hb1).
  destruct (lstrip_spec (rev (lstrip s))) as (post' & E2 & Hpost & Hb2).
  set (m := lstrip (rev (lstrip s))) in *.
  assert (Em : lstrip s = rev m ++ rev post').
  { rewrite <- rev_app_distr, <- E2, rev_involutive. reflexivity. }
  exists pre, (rev post'). repeat split.
  - rewrite <- Em. exact E1.
  - exact Hpre.
  - rewrite forallb_rev. exact Hpost.
  - rewrite Em in Hb1. unfold begins_solid in *.
    destruct (rev m); [exact I|exact Hb1].
  - unfold ends_solid. rewrite rev_involutive. exact Hb2.
Qed.

Lemma strip_blank (s : pystr) : strip s = [] <-> forallb py_isspace s = true.
Proof.
  split.
  - intros H. destruct (strip_spec s) as (pre & post & E & Hpre & Hpost & _).
    rewrite H in E. rewrite E, forallb_app. cbn [app]. now rewrite Hpre, Hpost.
  - intros H. unfold strip. now rewrite (lstrip_blank s H).
Qed.

Lemma isspace_range (c : N) : py_isspace c = true -> c <= 32 \/ 133 <= c.
Proof.
  unfold py_isspace. rewrite !orb_true_iff, !andb_true_iff, !N.leb_le, !N.eqb_eq. lia.
Qed.

Section Blank.
Context {R : PyRuntime}.

(** No JSON value begins with a space of [str.isspace] that the decoder
    does not skip. *)
Lemma scan_once_space (fuel : nat) (c : N) (s : pystr) :
  py_isspace c = true -> scan_once (S fuel) (c :: s) = DecodeError.
Proof.
  intros Hc. apply isspace_range in Hc.
  assert (E : forall k, 32 < k < 133 -> (c =? k) = false)
    by (intros k Hk; apply N.eqb_neq; lia).
  cbn [scan_once]. rewrite !E by lia.
  assert (Hs : forall k p, 32 < k < 133 -> starts_with (k :: p) (c :: s) = false)
    by (intros k p Hk; cbn [starts_with]; rewrite N.eqb_sym, E by lia; reflexivity).
  change (py "null") with (110 :: py "ull").
  change (py "true") with (116 :: py "rue").
  change (py "false") with (102 :: py "alse").
  change (py "NaN") with (78 :: py "aN").
  change (py "Infinity") with (73 :: py "nfinity").
  change (py "-Infinity") with (45 :: py "Infinity").
  rewrite !Hs by lia.
  assert (Hn : match_number (c :: s) = None).
  { unfold match_number, match_integer. rewrite !E by lia.
    assert (Hd : is_ascii_digit c = false).
    { unfold is_ascii_digit. apply andb_false_iff.
      destruct Hc; [left; apply N.leb_gt|right; apply N.leb_gt]; lia. }
    rewrite Hd. reflexivity. }
  rewrite Hn. reflexivity.
Qed.

Lemma skip_ws_blank (s : pystr) :
  forallb py_isspace s = true -> forallb py_isspace (skip_ws s) = true.
Proof.
  induction s as [|c s IH]; cbn [skip_ws forallb]; [reflexivity|].
  intros H. destruct (json_ws c); [apply andb_true_iff in H as [_ H]; auto|exact H].
Qed.

(** A text of spaces only is no JSON text. *)
Lemma json_loads_blank (s : pystr) : forallb py_isspace s = true -> json_loads s = None.
Proof.
  intros H. apply skip_ws_blank in H. unfold json_loads.
  destruct (skip_ws s) as [|c r] eqn:E; [reflexivity|].
  cbn [forallb] in H. apply andb_true_iff in H as [Hc _].
  now rewrite scan_once_space.
Qed.

(** A text that begins with a space the decoder does not skip is no JSON
    text. *)
Lemma json_loads_foreign_space (c : N) (s : pystr) :
  py_isspace c = true -> json_ws c = false -> json_loads (c :: s) = None.
Proof.
  intros Hc Hw. unfold json_loads. cbn [skip_ws]. rewrite Hw.
  now rewrite scan_once_space.
Qed.

End Blank.

(** ** Whitespace around a JSON text *)

Lemma ws_not_digit (c : N) : json_ws c = true -> is_ascii_digit c = false.
Proof.
  unfold json_ws, is_ascii_digit.
  rewrite !orb_true_iff, !N.eqb_eq. intros H. apply andb_false_iff. left.
  apply N.leb_gt. lia.
Qed.

Lemma ws_below (c : N) : json_ws c = true -> c <= 32.
Proof. unfold json_ws. rewrite !orb_true_iff, !N.eqb_eq. lia. Qed.

Lemma ws_led_delimited (t : pystr) : ws_led t -> delimited t.
Proof.
  destruct t as [|c t]; [trivial|]. cbn [ws_led delimited]. intros H.
  pose proof (ws_below c H) as Hc.
  unfold number_char, is_ascii_digit.
  rewrite !orb_false_iff, andb_false_iff, !N.eqb_neq, !N.leb_gt.
  repeat split; lia.
Qed.

Lemma match_integer_none_ext (s t : pystr) :
  ws_led t -> s <> [] -> match_integer s = None -> match_integer (s ++ t) = None.
Proof.
  intros Ht Hne. unfold match_integer.
  destruct s as [|c s]; [contradiction|]. cbn [app].
  destruct (c =? 45).
  - destruct s as [|c' s]; cbn [app].
    + intros _. destruct t as [|x t]; [reflexivity|].
      pose proof (ws_below x Ht) as Hx.
      assert (E : (x =? 48) = false) by (apply N.eqb_neq; lia).
      now rewrite E, (ws_not_digit x Ht).
    + destruct (c' =? 48); [discriminate|].
      destruct (is_ascii_digit c'); [|reflexivity].
      destruct (span_digits s); discriminate.
  - destruct (c =? 48); [discriminate|].
    destruct (is_ascii_digit c); [|reflexivity].
    destruct (span_digits s); discriminate.
Qed.

Lemma starts_with_ext (p s t : pystr) :
  starts_with p s = true ->
  starts_with p (s ++ t) = true
  /\ skipn (List.length p) (s ++ t) = skipn (List.length p) s ++ t.
Proof.
  revert s. induction p as [|x p IH]; intros s; cbn [starts_with List.length skipn].
  - auto.
  - destruct s as [|y s]; [discriminate|]. cbn [app].
    intros H. apply andb_true_iff in H as [-> H]. exact (IH s H).
Qed.

Lemma starts_with_false_ext (p s t : pystr) :
  ws_led t -> forallb (fun c => 32 <? c) p = true ->
  starts_with p s = false -> starts_with p (s ++ t) = false.
Proof.
  intros Ht. revert s. induction p as [|x p IH]; intros s Hp; cbn [starts_with].
  - discriminate.
  - cbn [forallb] in Hp. apply andb_true_iff in Hp as [Hx Hp]. apply N.ltb_lt in Hx.
    destruct s as [|y s]; cbn [app].
    + intros _. destruct t as [|c t]; [reflexivity|].
      pose proof (ws_below c Ht). 
      assert (E : (x =? c) = false) by (apply N.eqb_neq; lia).
      now rewrite E.
    + destruct (x =? y); [|reflexivity]. cbn [andb]. now apply IH.
Qed.

Lemma skip_ws_ext (s t r : pystr) (x : N) :
  skip_ws s = x :: r -> skip_ws (s ++ t) = x :: r ++ t.
Proof.
  induction s as [|c s IH]; cbn [skip_ws app]; [discriminate|].
  destruct (json_ws c); [exact IH|]. intros [= <- <-]. reflexivity.
Qed.

Lemma skip_ws_all (s : pystr) : forallb json_ws s = true -> skip_ws s = [].
Proof.
  induction s as [|c s IH]; cbn [skip_ws forallb]; [reflexivity|].
  intros H. apply andb_true_iff in H as [-> H]. auto.
Qed.

(** What follows a string does not change how it is read. *)
Lemma scanstring_ext (s str r t : pystr) :
  scanstring s = Some (str, r) -> scanstring (s ++ t) = Some (str, r ++ t).
Proof.
  intros H. revert t. revert s str r H.
  apply (scanstring_ind (fun s str r => forall t, scanstring (s ++ t) = Some (str, r ++ t))).
  intros s str r Hs IH t.
  destruct Hs as [r|c s1 str1 r H34 H92 H32 Hs1|esc ch s2 str1 r Hu Hb Hs2
                 |h1 h2 h3 h4 s3 uni str1 r Hd Hnj Hs3
                 |h1 h2 h3 h4 k1 k2 k3 k4 s4 hi lo str1 r Hd1 Hd2 Hhi Hlo Hs4].
  - reflexivity.
  - cbn [app scanstring].
    apply N.eqb_neq in H34, H92. rewrite H34, H92.
    assert (E : (c <? 32) = false) by (apply N.ltb_ge; assumption). rewrite E.
    rewrite (IH s1 str1); [reflexivity|cbn; lia|assumption].
  - cbn [app scanstring]. change (92 =? 34) with false. change (92 =? 92) with true.
    cbv iota. apply N.eqb_neq in Hu. rewrite Hu, Hb.
    rewrite (IH s2 str1); [reflexivity|cbn; lia|assumption].
  - cbn [app scanstring]. change (92 =? 34) with false. change (92 =? 92) with true.
    change (117 =? 117) with true. cbv iota. rewrite Hd.
    assert (Hrest : scanstring (s3 ++ t) = Some (str1, r ++ t))
      by (apply IH; [cbn; lia|assumption]).
    destruct s3 as [|b [|u [|k1 [|k2 [|k3 [|k4 s4]]]]]]; try discriminate Hs3;
      cbn [app] in *.
    + cbn [scanstring] in Hs3.
      destruct (b =? 34) eqn:Eb.
      * assert (E : (b =? 92) = false)
          by (apply N.eqb_eq in Eb; subst b; reflexivity).
        destruct t as [|t1 [|t2 [|t3 [|t4 [|t5 t6]]]]];
          rewrite ?E, ?andb_false_r, Hrest; reflexivity.
      * destruct (b =? 92) eqn:Eb2; [discriminate Hs3|].
        destruct t as [|t1 [|t2 [|t3 [|t4 [|t5 t6]]]]];
          rewrite ?andb_false_r, Hrest; reflexivity.
    + assert (E : (b =? 92) && (u =? 117) = false).
      { destruct (b =? 92) eqn:Eb; [|reflexivity]. destruct (u =? 117) eqn:Eu; [|reflexivity].
        apply N.eqb_eq in Eb, Eu. subst b u. discriminate Hs3. }
      destruct t as [|t1 [|t2 [|t3 [|t4 t5]]]];
        rewrite <- ?andb_assoc, ?E, ?andb_false_r, Hrest; reflexivity.
    + assert (E : (b =? 92) && (u =? 117) = false).
      { destruct (b =? 92) eqn:Eb; [|reflexivity]. destruct (u =? 117) eqn:Eu; [|reflexivity].
        apply N.eqb_eq in Eb, Eu. subst b u. discriminate Hs3. }
      destruct t as [|t1 [|t2 [|t3 t4]]];
        rewrite <- ?andb_assoc, ?E, ?andb_false_r, Hrest; reflexivity.
    + assert (E : (b =? 92) && (u =? 117) = false).
      { destruct (b =? 92) eqn:Eb; [|reflexivity]. destruct (u =? 117) eqn:Eu; [|reflexivity].
        apply N.eqb_eq in Eb, Eu. subst b u. discriminate Hs3. }
      destruct t as [|t1 [|t2 t3]];
        rewrite <- ?andb_assoc, ?E, ?andb_false_r, Hrest; reflexivity.
    + assert (E : (b =? 92) && (u =? 117) = false).
      { destruct (b =? 92) eqn:Eb; [|reflexivity]. destruct (u =? 117) eqn:Eu; [|reflexivity].
        apply N.eqb_eq in Eb, Eu. subst b u. discriminate Hs3. }
      destruct t as [|t1 t2];
        rewrite <- ?andb_assoc, ?E, ?andb_false_r, Hrest; reflexivity.
    + destruct (is_high_surrogate uni) eqn:Ehi; cbn [andb]; [|now rewrite Hrest].
      destruct ((b =? 92) && (u =? 117)) eqn:Ebu; [|now rewrite Hrest].
      apply andb_true_iff in Ebu as [Eb Eu]. apply N.eqb_eq in Eb, Eu. subst b u.
      destruct (decode_hex4 k1 k2 k3 k4) as [lo|] eqn:Ek.
      * rewrite (Hnj eq_refl _ _ _ _ _ _ eq_refl Ek). now rewrite Hrest.
      * exfalso. cbn [scanstring] in Hs3. change (92 =? 34) with false in Hs3.
        change (92 =? 92) with true in Hs3. change (117 =? 117) with true in Hs3.
        cbv iota in Hs3. rewrite Ek in Hs3. discriminate Hs3.
  - cbn [app scanstring]. change (92 =? 34) with false. change (92 =? 92) with true.
    change (117 =? 117) with true. cbv iota. rewrite Hd1, Hhi. cbn [andb]. cbv iota.
    rewrite Hd2, Hlo.
    rewrite (IH s4 str1); [reflexivity|cbn; lia|assumption].
Qed.

Section Surroundings.
Context {R : PyRuntime}.

Lemma match_number_ext (s t : pystr) (v : value) (r : pystr) :
  ws_led t -> match_number s = Some (v, r) -> match_number (s ++ t) = Some (v, r ++ t).
Proof.
  intros Ht. pose proof (ws_led_delimited t Ht) as Hd. unfold match_number.
  destruct (match_integer s) as [[i r1]|] eqn:Ei; [|discriminate].
  rewrite (match_integer_app s t i r1 (delimited_no_digit t Hd) Ei).
  rewrite (match_frac_app r1 t Hd). destruct (match_frac r1) as [frac r2]. cbn [fst snd].
  rewrite (match_exp_app r2 t Hd). destruct (match_exp r2) as [exp r3]. cbn [fst snd].
  destruct frac, exp; intros [= <- <-]; reflexivity.
Qed.

Lemma match_number_none_ext (s t : pystr) :
  ws_led t -> s <> [] -> match_number s = None -> match_number (s ++ t) = None.
Proof.
  intros Ht Hne. unfold match_number.
  destruct (match_integer s) as [[i r1]|] eqn:Ei.
  - destruct (match_frac r1) as [frac r2]. destruct (match_exp r2) as [exp r3].
    destruct frac, exp; discriminate.
  - intros _. now rewrite (match_integer_none_ext s t Ht Hne Ei).
Qed.

Lemma scan_once_eq (fuel : nat) (s : pystr) :
  scan_once (S fuel) s =
    match s with
    | [] => DecodeError
    | c :: s1 =>
        if c =? 34 then
          match scanstring s1 with
          | Some (str, rest) => Scanned (VStr str) rest
          | None => DecodeError
          end
        else if c =? 123 then
          match skip_ws s1 with
          | x :: s2 =>
              if x =? 125 then Scanned (VDict []) s2
              else if x =? 34 then object_items fuel s2 []
              else DecodeError
          | [] => DecodeError
          end
        else if c =? 91 then
          match skip_ws s1 with
          | x :: s2 =>
              if x =? 93 then Scanned (VList []) s2
              else array_items fuel (x :: s2) []
          | [] => DecodeError
          end
        else if starts_with (py "null") s then Scanned VNone (skipn 4 s)
        else if starts_with (py "true") s then Scanned (VBool true) (skipn 4 s)
        else if starts_with (py "false") s then Scanned (VBool false) (skipn 5 s)
        else
          match match_number s with
          | Some (v, rest) => Scanned v rest
          | None =>
              if starts_with (py "NaN") s then Scanned (VFloat float_nan) (skipn 3 s)
              else if starts_with (py "Infinity") s
              then Scanned (VFloat float_inf) (skipn 8 s)
              else if starts_with (py "-Infinity") s
              then Scanned (VFloat float_neginf) (skipn 9 s)
              else DecodeError
          end
    end.
Proof. destruct s; reflexivity. Qed.

Lemma array_items_eq (fuel : nat) (s : pystr) (acc : list value) :
  array_items (S fuel) s acc =
    match scan_once fuel s with
    | Scanned v r =>
        match skip_ws r with
        | x :: r1 =>
            if x =? 93 then Scanned (VList (rev (v :: acc))) r1
            else if x =? 44 then array_items fuel (skip_ws r1) (v :: acc)
            else DecodeError
        | [] => DecodeError
        end
    | DecodeError => DecodeError
    | OutOfFuel => OutOfFuel
    end.
Proof. reflexivity. Qed.

Lemma object_items_eq (fuel : nat) (s : pystr) (acc : list (pystr * value)) :
  object_items (S fuel) s acc =
    match scanstring s with
    | None => DecodeError
    | Some (key, r) =>
        match skip_ws r with
        | x :: r1 =>
            if x =? 58 then
              match scan_once fuel (skip_ws r1) with
              | Scanned v r2 =>
                  match skip_ws r2 with
                  | y :: r3 =>
                      if y =? 125
                      then Scanned (VDict (dict_of_pairs (rev ((key, v) :: acc)))) r3
                      else if y =? 44 then
                        match skip_ws r3 with
                        | q :: r4 =>
                            if q =? 34 then object_items fuel r4 ((key, v) :: acc)
                            else DecodeError
                        | [] => DecodeError
                        end
                      else DecodeError
                  | [] => DecodeError
                  end
              | DecodeError => DecodeError
              | OutOfFuel => OutOfFuel
              end
            else DecodeError
        | [] => DecodeError
        end
    end.
Proof. reflexivity. Qed.

Lemma scan_once_nil (fuel : nat) (v : value) (r : pystr) :
  scan_once fuel [] <> Scanned v r.
Proof. destruct fuel; discriminate. Qed.

Lemma array_items_nil (fuel : nat) (acc : list value) (v : value) (r : pystr) :
  array_items fuel [] acc <> Scanned v r.
Proof.
  destruct fuel as [|fuel]; [discriminate|]. rewrite array_items_eq.
  destruct fuel; discriminate.
Qed.

Ltac literal_ext Ht E s1 t :=
  match type of E with
  | starts_with ?p ?s = true =>
      let E1 := fresh in
      let E2 := fresh in
      destruct (starts_with_ext p s t E) as [E1 E2];
      let n := eval vm_compute in (List.length p) in
      change (List.length p) with n in E2;
      rewrite E1, E2; clear E1 E2
  | starts_with ?p ?s = false =>
      rewrite (starts_with_false_ext p s t Ht eq_refl E)
  end.

(** Whitespace after the text a scan is given changes neither the value
    it yields nor where it stops. *)
Lemma scan_ext (t : pystr) (fuel : nat) :
  ws_led t ->
  (forall s v r, scan_once fuel s = Scanned v r ->
                 scan_once fuel (s ++ t) = Scanned v (r ++ t))
  /\ (forall s acc v r, array_items fuel s acc = Scanned v r ->
                        array_items fuel (s ++ t) acc = Scanned v (r ++ t))
  /\ (forall s acc v r, object_items fuel s acc = Scanned v r ->
                        object_items fuel (s ++ t) acc = Scanned v (r ++ t)).
Proof.
  intros Ht. induction fuel as [|fuel (IHv & IHa & IHo)].
  { repeat split; discriminate. }
  split; [|split].
  - intros s v r. rewrite !scan_once_eq.
    destruct s as [|c s1]; [discriminate|]. 
    change ((c :: s1) ++ t) with (c :: (s1 ++ t)). cbv iota.
    destruct (c =? 34).
    { destruct (scanstring s1) as [[str rest]|] eqn:Es; [|discriminate].
      intros [= <- <-]. now rewrite (scanstring_ext s1 str rest t Es). }
    destruct (c =? 123).
    { destruct (skip_ws s1) as [|x s2] eqn:Ew; [discriminate|].
      rewrite (skip_ws_ext s1 t s2 x Ew).
      destruct (x =? 125); [intros [= <- <-]; reflexivity|].
      destruct (x =? 34); [|discriminate]. apply IHo. }
    destruct (c =? 91).
    { destruct (skip_ws s1) as [|x s2] eqn:Ew; [discriminate|].
      rewrite (skip_ws_ext s1 t s2 x Ew).
      destruct (x =? 93); [intros [= <- <-]; reflexivity|].
      intros H. apply (IHa (x :: s2)). exact H. }
    change (c :: (s1 ++ t)) with ((c :: s1) ++ t).
    destruct (starts_with (py "null") (c :: s1)) eqn:E1.
    { literal_ext Ht E1 s1 t. intros [= <- <-]. reflexivity. }
    literal_ext Ht E1 s1 t.
    destruct (starts_with (py "true") (c :: s1)) eqn:E2.
    { literal_ext Ht E2 s1 t. intros [= <- <-]. reflexivity. }
    literal_ext Ht E2 s1 t.
    destruct (starts_with (py "false") (c :: s1)) eqn:E3.
    { literal_ext Ht E3 s1 t. intros [= <- <-]. reflexivity. }
    literal_ext Ht E3 s1 t.
    destruct (match_number (c :: s1)) as [[v' rest]|] eqn:Em.
    { rewrite (match_number_ext _ t _ _ Ht Em). intros [= <- <-]. reflexivity. }
    rewrite (match_number_none_ext (c :: s1) t Ht ltac:(discriminate) Em).
    destruct (starts_with (py "NaN") (c :: s1)) eqn:E4.
    { literal_ext Ht E4 s1 t. intros [= <- <-]. reflexivity. }
    literal_ext Ht E4 s1 t.
    destruct (starts_with (py "Infinity") (c :: s1)) eqn:E5.
    { literal_ext Ht E5 s1 t. intros [= <- <-]. reflexivity. }
    literal_ext Ht E5 s1 t.
    destruct (starts_with (py "-Infinity") (c :: s1)) eqn:E6; [|discriminate].
    literal_ext Ht E6 s1 t. intros [= <- <-]. reflexivity.
  - intros s acc v r. rewrite !array_items_eq.
    destruct (scan_once fuel s) as [x r0| |] eqn:Ex; try discriminate.
    rewrite (IHv s x r0 Ex).
    destruct (skip_ws r0) as [|y r1] eqn:Ew; [discriminate|].
    rewrite (skip_ws_ext r0 t r1 y Ew).
    destruct (y =? 93); [intros [= <- <-]; reflexivity|].
    destruct (y =? 44); [|discriminate].
    intros H. destruct (skip_ws r1) as [|z r2] eqn:Ew1.
    { exfalso. exact (array_items_nil _ _ _ _ H). }
    rewrite (skip_ws_ext r1 t r2 z Ew1). apply (IHa (z :: r2)). exact H.
  - intros s acc v r. rewrite !object_items_eq.
    destruct (scanstring s) as [[key r0]|] eqn:Ek; [|discriminate].
    rewrite (scanstring_ext s key r0 t Ek).
    destruct (skip_ws r0) as [|c r1] eqn:Ew0; [discriminate|].
    rewrite (skip_ws_ext r0 t r1 c Ew0).
    destruct (c =? 58); [|discriminate].
    destruct (scan_once fuel (skip_ws r1)) as [x r2| |] eqn:Ex; try discriminate.
    destruct (skip_ws r1) as [|z r1'] eqn:Ew1.
    { exfalso. exact (scan_once_nil _ _ _ Ex). }
    rewrite (skip_ws_ext r1 t r1' z Ew1).
    change (z :: r1' ++ t) with ((z :: r1') ++ t).
    rewrite (IHv (z :: r1') x r2 Ex).
    destruct (skip_ws r2) as [|y r3] eqn:Ew2; [discriminate|].
    rewrite (skip_ws_ext r2 t r3 y Ew2).
    destruct (y =? 125); [intros [= <- <-]; reflexivity|].
    destruct (y =? 44); [|discriminate].
    destruct (skip_ws r3) as [|q r4] eqn:Ew3; [discriminate|].
    rewrite (skip_ws_ext r3 t r4 q Ew3).
    destruct (q =? 34); [|discriminate]. apply IHo.
Qed.

(** More fuel changes nothing of a scan that yields a value. *)
Lemma scan_more_fuel (fuel : nat) :
  (forall s v r, scan_once fuel s = Scanned v r -> scan_once (S fuel) s = Scanned v r)
  /\ (forall s acc v r, array_items fuel s acc = Scanned v r ->
                        array_items (S fuel) s acc = Scanned v r)
  /\ (forall s acc v r, object_items fuel s acc = Scanned v r ->
                        object_items (S fuel) s acc = Scanned v r).
Proof.
  induction fuel as [|fuel (IHv & IHa & IHo)].
  { repeat split; discriminate. }
  split; [|split].
  - intros s v r. rewrite (scan_once_eq (S fuel)), (scan_once_eq fuel).
    destruct s as [|c s1]; [discriminate|].
    destruct (c =? 34); [trivial|].
    destruct (c =? 123).
    { destruct (skip_ws s1) as [|x s2]; [discriminate|].
      destruct (x =? 125); [trivial|]. destruct (x =? 34); [apply IHo|discriminate]. }
    destruct (c =? 91).
    { destruct (skip_ws s1) as [|x s2]; [discriminate|].
      destruct (x =? 93); [trivial|]. apply IHa. }
    trivial.
  - intros s acc v r. rewrite (array_items_eq (S fuel)), (array_items_eq fuel).
    destruct (scan_once fuel s) as [x r0| |] eqn:Ex; try discriminate.
    rewrite (IHv s x r0 Ex).
    destruct (skip_ws r0) as [|y r1]; [discriminate|].
    destruct (y =? 93); [trivial|]. destruct (y =? 44); [apply IHa|discriminate].
  - intros s acc v r. rewrite (object_items_eq (S fuel)), (object_items_eq fuel).
    destruct (scanstring s) as [[key r0]|]; [|discriminate].
    destruct (skip_ws r0) as [|c r1]; [discriminate|].
    destruct (c =? 58); [|discriminate].
    destruct (scan_once fuel (skip_ws r1)) as [x r2| |] eqn:Ex; try discriminate.
    rewrite (IHv _ x r2 Ex).
    destruct (skip_ws r2) as [|y r3]; [discriminate|].
    destruct (y =? 125); [trivial|]. destruct (y =? 44); [|discriminate].
    destruct (skip_ws r3) as [|q r4]; [discriminate|].
    destruct (q =? 34); [apply IHo|discriminate].
Qed.

Lemma scan_once_fuel_le (f1 f2 : nat) (s : pystr) (v : value) (r : pystr) :
  (f1 <= f2)%nat -> scan_once f1 s = Scanned v r -> scan_once f2 s = Scanned v r.
Proof.
  induction 1 as [|f2 _ IH]; [trivial|].
  intros H. apply (proj1 (scan_more_fuel f2)). now apply IH.
Qed.

(** JSON whitespace around a JSON text does not change what it is read
    as. *)
Lemma json_loads_surrounded (a s b : pystr) (v : value) :
  forallb json_ws a = true -> forallb json_ws b = true ->
  json_loads s = Some v -> json_loads (a ++ s ++ b) = Some v.
Proof.
  intros Ha Hb. unfold json_loads.
  destruct (scan_once (S (2 * List.length s)) (skip_ws s)) as [x r| |] eqn:E;
    try discriminate.
  destruct (skip_ws r) as [|y r'] eqn:Er; [|discriminate]. intros [= <-].
  rewrite skip_ws_app by assumption.
  destruct (skip_ws s) as [|c s'] eqn:Es; [exfalso; exact (scan_once_nil _ _ _ E)|].
  rewrite (skip_ws_ext s b s' c Es).
  assert (Ht : ws_led b) by (destruct b; [exact I|]; cbn in Hb |- *;
                             apply andb_true_iff in Hb; tauto).
  apply (proj1 (scan_ext b _ Ht)) in E.
  assert (Hf : (S (2 * List.length s) <= S (2 * List.length (a ++ s ++ b)))%nat)
    by (rewrite !length_app; lia).
  change (c :: s' ++ b) with ((c :: s') ++ b).
  rewrite (scan_once_fuel_le _ _ _ _ _ Hf E).
  assert (Hr : skip_ws (r ++ b) = []).
  { destruct (skip_ws_suffix r) as [pre Hp]. rewrite Er, app_nil_r in Hp.
    assert (forallb json_ws r = true).
    { clear -Er. induction r as [|k r IH]; [reflexivity|]. cbn [skip_ws] in Er.
      cbn [forallb]. destruct (json_ws k); [auto|discriminate]. }
    apply skip_ws_all. rewrite forallb_app. now rewrite H, Hb. }
  now rewrite Hr.
Qed.

End Surroundings.

(** ** The characters of an encoded value *)

Lemma printable_range (c : N) : ascii_printable c = true <-> 32 <= c <= 126.
Proof. unfold ascii_printable. rewrite andb_true_iff, !N.leb_le. tauto. Qed.

Lemma hex_digit_printable (d : N) : d < 16 -> ascii_printable (hex_digit d) = true.
Proof.
  intros H. apply printable_range. unfold hex_digit.
  destruct (d <? 10) eqn:E; [apply N.ltb_lt in E|apply N.ltb_ge in E]; lia.
Qed.

Lemma hex4_printable (n : N) : forallb ascii_printable (hex4 n) = true.
Proof.
  unfold hex4. cbn [forallb].
  rewrite !hex_digit_printable; [reflexivity| | | |];
    apply N.mod_lt; discriminate.
Qed.

Lemma escape_ascii_printable (c : N) : forallb ascii_printable (escape_ascii c) = true.
Proof.
  unfold escape_ascii.
  repeat match goal with
  | |- forallb _ (if ?b then _ else _) = true => destruct b eqn:?; [reflexivity|]
  end.
  destruct ((32 <=? c) && (c <=? 126)) eqn:E.
  { cbn [forallb]. unfold ascii_printable. now rewrite E. }
  destruct (c <? 65536).
  - cbn [forallb]. rewrite hex4_printable. reflexivity.
  - cbv zeta. cbn [forallb]. rewrite forallb_app. cbn [forallb].
    rewrite !hex4_printable. reflexivity.
Qed.

Lemma flat_map_printable (s : pystr) :
  forallb ascii_printable (flat_map escape_ascii s) = true.
Proof.
  induction s as [|c s IH]; [reflexivity|].
  cbn [flat_map]. now rewrite forallb_app, escape_ascii_printable, IH.
Qed.

Lemma encode_basestring_printable (s : pystr) :
  forallb ascii_printable (encode_basestring_ascii s) = true.
Proof.
  unfold encode_basestring_ascii. cbn [forallb].
  now rewrite forallb_app, flat_map_printable.
Qed.

Lemma forallb_weaken (P Q : N -> bool) (s : pystr) :
  (forall c, P c = true -> Q c = true) -> forallb P s = true -> forallb Q s = true.
Proof.
  intros H. induction s as [|c s IH]; cbn [forallb]; [reflexivity|].
  intros Hs. apply andb_true_iff in Hs as [Hc Hs]. now rewrite (H c Hc), IH.
Qed.

Lemma digit_printable (c : N) : is_ascii_digit c = true -> ascii_printable c = true.
Proof.
  unfold is_ascii_digit. rewrite andb_true_iff, !N.leb_le. intros H.
  apply printable_range. lia.
Qed.

Lemma number_char_printable (c : N) : number_char c = true -> ascii_printable c = true.
Proof.
  unfold number_char. rewrite !orb_true_iff, !N.eqb_eq.
  intros [[[[[H|H]|H]|H]|H]|H]; try (subst c; reflexivity).
  now apply digit_printable.
Qed.

Lemma N_text_printable (n : N) : forallb ascii_printable (N_text n) = true.
Proof. exact (forallb_weaken _ _ _ digit_printable (N_text_digits n)). Qed.

Lemma Z_text_printable (z : Z) : forallb ascii_printable (Z_text z) = true.
Proof.
  destruct z; unfold Z_text; cbn [forallb]; rewrite ?N_text_printable; reflexivity.
Qed.

Lemma span_digits_fst (s : pystr) : forallb is_ascii_digit (fst (span_digits s)) = true.
Proof.
  induction s as [|c s IH]; cbn [span_digits]; [reflexivity|].
  destruct (is_ascii_digit c) eqn:E; [|reflexivity].
  destruct (span_digits s) as [ds r]. cbn [fst forallb] in *. now rewrite E, IH.
Qed.

Lemma digits_number_chars (ds : pystr) :
  forallb is_ascii_digit ds = true -> forallb number_char ds = true.
Proof.
  apply forallb_weaken. intros c H. unfold number_char. now rewrite H.
Qed.

Lemma match_integer_chars (s i r : pystr) :
  match_integer s = Some (i, r) -> forallb number_char i = true.
Proof.
  unfold match_integer. destruct s as [|c s]; [discriminate|].
  destruct (c =? 45) eqn:E45.
  - apply N.eqb_eq in E45. subst c. destruct s as [|c' s]; [discriminate|].
    destruct (c' =? 48) eqn:E48.
    + apply N.eqb_eq in E48. subst c'. intros [= <- <-]. reflexivity.
    + destruct (is_ascii_digit c') eqn:Ed; [|discriminate].
      pose proof (span_digits_fst s) as Hs. destruct (span_digits s) as [ds rest].
      intros [= <- <-]. cbn [app forallb fst] in *.
      rewrite (digits_number_chars ds Hs). unfold number_char at 2. now rewrite Ed.
  - destruct (c =? 48) eqn:E48.
    + apply N.eqb_eq in E48. subst c. intros [= <- <-]. reflexivity.
    + destruct (is_ascii_digit c) eqn:Ed; [|discriminate].
      pose proof (span_digits_fst s) as Hs. destruct (span_digits s) as [ds rest].
      intros [= <- <-]. cbn [app forallb fst] in *.
      rewrite (digits_number_chars ds Hs). unfold number_char at 1. now rewrite Ed.
Qed.

Lemma match_frac_chars (s : pystr) : forallb number_char (fst (match_frac s)) = true.
Proof.
  unfold match_frac. destruct s as [|c s]; [reflexivity|].
  destruct (c =? 46) eqn:E; [|reflexivity]. apply N.eqb_eq in E. subst c.
  pose proof (span_digits_fst s) as Hs. destruct (span_digits s) as [ds rest].
  cbn [fst] in Hs. destruct ds as [|x ds]; [reflexivity|].
  cbn [fst]. change (forallb number_char (46 :: x :: ds))
    with (true && forallb number_char (x :: ds)).
  now rewrite (digits_number_chars _ Hs).
Qed.

Lemma match_exp_chars (s : pystr) : forallb number_char (fst (match_exp s)) = true.
Proof.
  unfold match_exp. destruct s as [|c s]; [reflexivity|].
  destruct ((c =? 101) || (c =? 69)) eqn:E; [|reflexivity].
  assert (Hc : number_char c = true).
  { unfold number_char. apply orb_true_iff in E as [E|E]; rewrite E;
      rewrite ?orb_true_r; reflexivity. }
  destruct s as [|x s].
  - reflexivity.
  - destruct ((x =? 45) || (x =? 43)) eqn:Ex.
    + assert (Hx : number_char x = true).
      { unfold number_char. apply orb_true_iff in Ex as [Ex|Ex]; rewrite Ex;
          rewrite ?orb_true_r; reflexivity. }
      pose proof (span_digits_fst s) as Hs. destruct (span_digits s) as [ds rest].
      cbn [fst] in Hs. destruct ds as [|y ds]; [reflexivity|].
      cbn [fst app]. cbn [forallb] in *. rewrite Hc, Hx.
      apply andb_true_iff in Hs as [Hy Hs].
      rewrite (digits_number_chars _ Hs). unfold number_char at 1. now rewrite Hy.
    + pose proof (span_digits_fst (x :: s)) as Hs.
      destruct (span_digits (x :: s)) as [ds rest].
      cbn [fst] in Hs. destruct ds as [|y ds]; [reflexivity|].
      cbn [fst app]. cbn [forallb] in *. rewrite Hc.
      apply andb_true_iff in Hs as [Hy Hs].
      rewrite (digits_number_chars _ Hs). unfold number_char at 1. now rewrite Hy.
Qed.

Lemma float_literal_chars (t : pystr) :
  is_float_literal t = true -> forallb number_char t = true.
Proof.
  unfold is_float_literal.
  destruct (match_integer t) as [[i r1]|] eqn:Ei; [|discriminate].
  pose proof (match_integer_split t i r1 Ei) as Hs.
  pose proof (match_integer_chars t i r1 Ei) as Hi.
  pose proof (match_frac_split r1) as Hf. pose proof (match_frac_chars r1) as Hfc.
  destruct (match_frac r1) as [frac r2].
  pose proof (match_exp_split r2) as He. pose proof (match_exp_chars r2) as Hec.
  destruct (match_exp r2) as [exp r3]. cbn [fst snd] in *.
  intros H.
  assert (r3 = []) by (destruct r3; [reflexivity|]; destruct frac, exp; discriminate).
  subst r3. rewrite app_nil_r in He. subst r2 r1 t.
  now rewrite !forallb_app, Hi, Hfc, Hec.
Qed.

Lemma forallb_join (P : N -> bool) (sep : pystr) (parts : list pystr) :
  forallb P sep = true -> Forall (fun t => forallb P t = true) parts ->
  forallb P (join sep parts) = true.
Proof.
  intros Hsep. induction 1 as [|t ts Ht Hts IH]; [reflexivity|].
  destruct ts as [|t' ts]; [exact Ht|].
  change (join sep (t :: t' :: ts)) with (t ++ sep ++ join sep (t' :: ts)).
  now rewrite !forallb_app, Ht, Hsep, IH.
Qed.

Lemma indented_printable (a r : pystr) :
  forallb ascii_printable a = true -> indented (a ++ r) = indented r.
Proof.
  induction a as [|c a IH]; cbn [forallb app indented]; [reflexivity|].
  intros H. apply andb_true_iff in H as [Hc Ha].
  apply printable_range in Hc.
  assert (E : (c =? 10) = false) by (apply N.eqb_neq; lia).
  rewrite E. cbn [andb]. now apply IH.
Qed.

Lemma indented_spaces (k : nat) (r : pystr) :
  indented (repeat 32 k ++ r) = indented r.
Proof. apply indented_printable. induction k; [reflexivity|exact IHk]. Qed.

Lemma indented_newline (n level : nat) (r : pystr) :
  indented r = true ->
  (0 < n * level)%nat
  \/ match r with x :: _ => line_opener x = true | [] => False end ->
  indented (newline_indent (Some n) level ++ r) = true.
Proof.
  intros Hr Hk. cbn [newline_indent app indented].
  change (10 =? 10) with true. cbv iota.
  rewrite indented_spaces, Hr, andb_true_r.
  destruct (n * level)%nat as [|k]; cbn [repeat app].
  - destruct Hk as [Hk|Hk]; [lia|]. destruct r; [contradiction|assumption].
  - reflexivity.
Qed.

Lemma join_indented (n level : nat) (ts : list pystr) (rest : pystr) :
  (0 < n)%nat ->
  Forall (fun t => forall r, indented r = true -> indented (t ++ r) = true) ts ->
  indented rest = true ->
  indented (join (item_separator (Some n) ++ newline_indent (Some n) (S level)) ts ++ rest)
  = true.
Proof.
  intros Hn Hts Hrest. induction Hts as [|t ts Ht Hts IH]; [exact Hrest|].
  destruct ts as [|t' ts]; [now apply Ht|].
  change (join ?sep (t :: t' :: ts)) with (t ++ sep ++ join sep (t' :: ts)).
  rewrite <- !app_assoc. apply Ht.
  change (item_separator (Some n)) with [44]. cbn [app indented].
  change (44 =? 10) with false. cbv iota. cbn [andb].
  apply indented_newline; [exact IH|left; lia].
Qed.

Section Characters.
Context {R : PyRuntime} {L : FloatLaws R}.

Lemma float_json_printable (f : pyfloat) : forallb ascii_printable (float_json f) = true.
Proof.
  destruct (float_json_decodes f) as [[H _]|[[-> _]|[[-> _]|[-> _]]]];
    try reflexivity.
  exact (forallb_weaken _ _ _ number_char_printable (float_literal_chars _ H)).
Qed.

(** The encoder writes printable ASCII, and what [newline_indent] gives. *)
Lemma iterencode_chars (P : N -> bool) (indent : option nat) :
  (forall c, ascii_printable c = true -> P c = true) ->
  (forall level, forallb P (newline_indent indent level) = true) ->
  forall v level, forallb P (iterencode indent level v) = true.
Proof.
  intros HP Hnl.
  assert (Hpr : forall s, forallb ascii_printable s = true -> forallb P s = true)
    by (intros s; apply forallb_weaken; exact HP).
  assert (Hsep : forall level,
             forallb P (item_separator indent ++ newline_indent indent level) = true).
  { intros level. rewrite forallb_app, Hnl, andb_true_r. apply Hpr.
    destruct indent; reflexivity. }
  induction v as [ |b|z|f|s|l IH|d IH] using value_induction; intros level.
  - apply Hpr. reflexivity.
  - apply Hpr. destruct b; reflexivity.
  - apply Hpr, Z_text_printable.
  - apply Hpr, float_json_printable.
  - apply Hpr, encode_basestring_printable.
  - destruct l as [|x l]; [apply Hpr; reflexivity|].
    cbn [iterencode]. rewrite !forallb_app, !Hnl.
    rewrite (Hpr [91] eq_refl), (Hpr [93] eq_refl), andb_true_r. cbn [andb].
    apply forallb_join; [apply Hsep|].
    change (iterencode indent (S level) x :: map (iterencode indent (S level)) l)
      with (map (iterencode indent (S level)) (x :: l)).
    apply Forall_map. revert IH. apply Forall_impl. intros y Hy. apply Hy.
  - destruct d as [|kv d]; [apply Hpr; reflexivity|].
    cbn [iterencode]. rewrite !forallb_app, !Hnl.
    rewrite (Hpr [123] eq_refl), (Hpr [125] eq_refl), andb_true_r. cbn [andb].
    apply forallb_join; [apply Hsep|].
    assert (Hpair : forall y : pystr * value,
               (forall level, forallb P (iterencode indent level (snd y)) = true) ->
               forallb P (encode_basestring_ascii (fst y) ++ key_separator
                          ++ iterencode indent (S level) (snd y)) = true).
    { intros y Hy.
      rewrite !forallb_app, (Hpr _ (encode_basestring_printable (fst y))).
      rewrite (Hpr key_separator eq_refl). cbn [andb]. apply Hy. }
    inversion IH as [|? ? Hx Hl]; subst. constructor; [now apply Hpair|].
    apply Forall_map. revert Hl. apply Forall_impl. exact Hpair.
Qed.

Lemma json_dumps_printable (v : value) : forallb ascii_printable (json_dumps v) = true.
Proof. unfold json_dumps. apply iterencode_chars; auto. Qed.

Lemma json_dumps_indent_chars (n : nat) (v : value) :
  forallb ascii_or_newline (json_dumps_indent n v) = true.
Proof.
  unfold json_dumps_indent. apply iterencode_chars.
  - intros c H. unfold ascii_or_newline. now rewrite H.
  - intros level. cbn [newline_indent forallb].
    induction (n * level)%nat as [|k IH]; [reflexivity|exact IH].
Qed.

(** In a text written with a positive indent every line after the first
    begins with a space or a closing bracket. *)
Lemma iterencode_indented (n : nat) (v : value) :
  (0 < n)%nat ->
  forall level r, indented r = true -> indented (iterencode (Some n) level v ++ r) = true.
Proof.
  intros Hn.
  induction v as [ |b|z|f|s|l IH|d IH] using value_induction; intros level r Hr.
  - now rewrite indented_printable.
  - rewrite indented_printable; [assumption|destruct b; reflexivity].
  - rewrite indented_printable; [assumption|apply Z_text_printable].
  - rewrite indented_printable; [assumption|apply float_json_printable].
  - rewrite indented_printable; [assumption|apply encode_basestring_printable].
  - destruct l as [|x l]; [now rewrite indented_printable|].
    cbn [iterencode]. rewrite <- !app_assoc. cbn [app indented].
    change (91 =? 10) with false. cbv iota. cbn [andb].
    apply indented_newline; [|left; lia].
    apply join_indented; [assumption| |].
    + change (iterencode (Some n) (S level) x :: map (iterencode (Some n) (S level)) l)
        with (map (iterencode (Some n) (S level)) (x :: l)).
      apply Forall_map. revert IH. apply Forall_impl. intros y Hy. apply Hy.
    + apply indented_newline; [|right; reflexivity].
      cbn [indented]. change (93 =? 10) with false. exact Hr.
  - destruct d as [|kv d]; [now rewrite indented_printable|].
    cbn [iterencode]. rewrite <- !app_assoc. cbn [app indented].
    change (123 =? 10) with false. cbv iota. cbn [andb].
    apply indented_newline; [|left; lia].
    assert (Hpair : forall y : pystr * value,
               (forall level r, indented r = true ->
                                indented (iterencode (Some n) level (snd y) ++ r) = true) ->
               forall r, indented r = true ->
                 indented ((encode_basestring_ascii (fst y) ++ key_separator
                            ++ iterencode (Some n) (S level) (snd y)) ++ r) = true).
    { intros y Hy r0 Hr0. rewrite <- !app_assoc.
      rewrite indented_printable by apply encode_basestring_printable.
      rewrite indented_printable by reflexivity. now apply Hy. }
    apply join_indented; [assumption| |].
    + inversion IH as [|? ? Hx Hl]; subst. constructor; [now apply Hpair|].
      apply Forall_map. revert Hl. apply Forall_impl. exact Hpair.
    + apply indented_newline; [|right; reflexivity].
      cbn [indented]. change (125 =? 10) with false. exact Hr.
Qed.

(** No separator line begins inside an indented JSON text. *)
Lemma separator_after (J rest pre post : pystr) :
  indented (J ++ [32]) = true ->
  J ++ block_end ++ rest = pre ++ block_end ++ post ->
  exists more, pre = J ++ more.
Proof.
  revert pre. induction J as [|c J IH]; intros pre HJ E.
  - exists pre. reflexivity.
  - destruct pre as [|y pre].
    + exfalso. cbn [app] in E. change block_end with (10 :: 45 :: py "--" ++ [10]) in E.
      cbn [app] in E. injection E as Ec E. subst c.
      cbn [app indented] in HJ. change (10 =? 10) with true in HJ. cbv iota in HJ.
      destruct J as [|x J]; cbn [app] in *; [discriminate E|].
      injection E as Ex _. subst x. discriminate HJ.
    + cbn [app] in E. injection E as <- E.
      cbn [app indented] in HJ. apply andb_true_iff in HJ as [_ HJ].
      destruct (IH pre HJ E) as [more ->]. exists more. reflexivity.
Qed.

End Characters.

(** ** Repeated keys, numbers, paths *)

Section RepeatedKeys.
Context {R : PyRuntime}.

Lemma dict_get_set (d : dict) (k k' : pystr) (v : value) :
  dict_get (dict_set d k v) k' = if pystr_eqb k k' then Some v else dict_get d k'.
Proof.
  induction d as [|[x y] d IH]; cbn [dict_set dict_get].
  - reflexivity.
  - destruct (pystr_eqb x k) eqn:E; cbn [dict_get].
    + apply pystr_eqb_eq in E. subst x. destruct (pystr_eqb k k'); reflexivity.
    + rewrite IH. destruct (pystr_eqb x k') eqn:E'; [|reflexivity].
      apply pystr_eqb_eq in E'. subst x.
      destruct (pystr_eqb k k') eqn:E2; [|reflexivity].
      apply pystr_eqb_eq in E2. subst k'. rewrite pystr_eqb_refl in E. discriminate E.
Qed.

Lemma dict_get_app (a b : dict) (k : pystr) :
  dict_get (a ++ b) k = match dict_get a k with Some v => Some v | None => dict_get b k end.
Proof.
  induction a as [|[x y] a IH]; cbn [app dict_get]; [reflexivity|].
  destruct (pystr_eqb x k); [reflexivity|exact IH].
Qed.

(** Looking a key up in [dict(pairs)] gives its last occurrence. *)
Lemma dict_of_pairs_get (pairs : list (pystr * value)) (k : pystr) :
  dict_get (dict_of_pairs pairs) k = dict_get (rev pairs) k.
Proof.
  unfold dict_of_pairs.
  assert (G : forall acc,
             dict_get (fold_left (fun d kv => dict_set d (fst kv) (snd kv)) pairs acc) k
             = match dict_get (rev pairs) k with
               | Some v => Some v
               | None => dict_get acc k
               end).
  { induction pairs as [|[x y] pairs IH]; intros acc; cbn [fold_left rev]; [reflexivity|].
    rewrite IH, dict_get_app. cbn [fst snd dict_get]. rewrite dict_get_set.
    destruct (dict_get (rev pairs) k); [reflexivity|].
    destruct (pystr_eqb x k); reflexivity. }
  rewrite G. destruct (dict_get (rev pairs) k); reflexivity.
Qed.

End RepeatedKeys.

Lemma Z_text_of_N (n : N) : Z_text (Z.of_N n) = N_text n.
Proof. destruct n; reflexivity. Qed.


Lemma lstrip_char_spec (c : N) (s : pystr) :
  exists pre, s = pre ++ lstrip_char c s /\ forallb (N.eqb c) pre = true
              /\ match lstrip_char c s with x :: _ => (x =? c) = false | [] => True end.
Proof.
  induction s as [|x s (pre & E & Hpre & Hh)]; cbn [lstrip_char].
  - exists []. repeat split.
  - destruct (x =? c) eqn:Ex.
    + exists (x :: pre). cbn [app forallb]. rewrite N.eqb_sym, Ex, Hpre, <- E.
      repeat split. exact Hh.
    + exists []. repeat split. exact Ex.
Qed.

Lemma rstrip_char_spec (c : N) (s : pystr) :
  exists tail, s = rstrip_char c s ++ tail /\ forallb (N.eqb c) tail = true
               /\ match rev (rstrip_char c s) with
                  | x :: _ => (x =? c) = false
                  | [] => True
                  end.
Proof.
  unfold rstrip_char. destruct (lstrip_char_spec c (rev s)) as (pre & E & Hpre & Hh).
  exists (rev pre). rewrite rev_involutive. repeat split.
  - rewrite <- rev_app_distr, <- E, rev_involutive. reflexivity.
  - rewrite forallb_rev. exact Hpre.
  - exact Hh.
Qed.

Lemma expanduser_home (env : pystr -> option pystr) (pw : passwd) (rest : pystr) :
  expanduser env pw (126 :: 47 :: rest)
  = match match env (py "HOME") with
          | Some home => Some home
          | None => getpwuid_dir pw
          end with
    | Some home => rstrip_char 47 home ++ 47 :: rest
    | None => 126 :: 47 :: rest
    end.
Proof.
  unfold expanduser. change (py "~") with [126]. cbn [starts_with find_or_len].
  change (126 =? 126) with true. change (47 =? 47) with true.
  cbn [andb negb Nat.eqb skipn].
  destruct (match env (py "HOME") with Some home => Some home | None => getpwuid_dir pw end)
    as [home|]; [|reflexivity].
  destruct (rstrip_char 47 home); reflexivity.
Qed.

(** * The further properties *)

(** ** Input that is no event *)

Section Input.
Context {R : PyRuntime}.


(** X2. A blank standard input (empty, or spaces of [str.isspace] only),
    the very input that sends log-build-loop to its bridge, is invalid
    JSON to log-all-bash and log-failed-bash: status 1, one diagnostic,
    nothing logged. *)
Theorem blank_input_fails_the_bash_loggers (w : world) (p : proc) :
  strip (stdin w) = [] ->
  json_loads (stdin w) = None
  /\ run (LogAllBash.main w) p
     = {| exit_status := 1; final := with_stderr p InvalidJSONInput |}
  /\ run (LogFailedBash.main w) p
     = {| exit_status := 1; final := with_stderr p InvalidJSONInput |}.
Proof.
  intros Hblank. apply strip_blank in Hblank.
  pose proof (json_loads_blank (stdin w) Hblank) as Hparse.
  split; [assumption|].
  split; [apply (all_bash_invalid w p Hparse)|apply (failed_bash_invalid w p Hparse)].
Qed.

(** X3. The spaces of [str.strip] are more than the whitespace of JSON.
    An input that begins with one of the others (a form feed, a
    no-break space, ...) is not blank to log-build-loop as soon as
    anything else follows, and it is no JSON text, whatever follows: the
    script reports invalid JSON, and so do the other two. *)
Theorem foreign_space_is_rejected (w : world) (p : proc) (c : N) (s : pystr) :
  stdin w = c :: s ->
  py_isspace c = true -> json_ws c = false ->
  let reported := {| exit_status := 1; final := with_stderr p InvalidJSONInput |} in
  run (LogAllBash.main w) p = reported
  /\ run (LogFailedBash.main w) p = reported
  /\ (strip (stdin w) <> [] -> run (LogBuildLoop.main w) p = reported).
Proof.
  intros Hin Hc Hw reported. subst reported.
  assert (Hparse : json_loads (stdin w) = None)
    by (rewrite Hin; now apply json_loads_foreign_space).
  split; [apply (all_bash_invalid w p Hparse)|].
  split; [apply (failed_bash_invalid w p Hparse)|].
  intros Hne. apply (build_loop_invalid w p Hne Hparse).
Qed.

(** X4. An input that is JSON but not an object (a list, a text, a
    number, true, false, null): no script has a case for it, the first
    [get] raises, and each ends with a traceback and status 1, nothing
    logged. *)
Theorem non_object_input_crashes (w : world) (p : proc) (v : value) :
  json_loads (stdin w) = Some v ->
  is_mapping v = false ->
  let crashed :=
    {| exit_status := 1; final := with_stderr p (Traceback AttributeError) |} in
  run (LogAllBash.main w) p = crashed
  /\ run (LogFailedBash.main w) p = crashed
  /\ run (LogBuildLoop.main w) p = crashed.
Proof.
  intros Hparse Hv crashed. subst crashed.
  split; [apply (all_bash_non_object w p v Hparse Hv)|].
  split; [apply (failed_bash_non_object w p v Hparse Hv)|].
  apply (build_loop_non_object w p p v); [|assumption].
  apply load_from_stdin; [|assumption].
  intros Hblank. apply strip_blank in Hblank.
  rewrite (json_loads_blank _ Hblank) in Hparse. discriminate Hparse.
Qed.

(** X5. JSON whitespace around the payload does not matter: a payload
    that is read as a value is read as the same value with spaces, tabs,
    line feeds and carriage returns before and after it (a final newline,
    for one), and each script does with it what it does with the bare
    payload. *)
Theorem surrounding_whitespace_is_ignored
    (w : world) (p : proc) (a b : pystr) (v : value) :
  json_loads (stdin w) = Some v ->
  forallb json_ws a = true -> forallb json_ws b = true ->
  let w' := with_stdin w (a ++ stdin w ++ b) in
  json_loads (stdin w') = Some v
  /\ run (LogAllBash.main w') p = run (LogAllBash.main w) p
  /\ run (LogFailedBash.main w') p = run (LogFailedBash.main w) p
  /\ run (LogBuildLoop.main w') p = run (LogBuildLoop.main w) p.
Proof.
  intros Hparse Ha Hb w'.
  assert (Hparse' : json_loads (stdin w') = Some v)
    by (apply json_loads_surrounded; assumption).
  split; [assumption|]. split; [|split].
  - unfold run, LogAllBash.main, loads. rewrite Hparse', Hparse. reflexivity.
  - unfold run, LogFailedBash.main, loads. rewrite Hparse', Hparse. reflexivity.
  - assert (Hne : forall x, json_loads (stdin x) = Some v -> strip (stdin x) <> []).
    { intros x Hx Hblank. apply strip_blank in Hblank.
      rewrite (json_loads_blank _ Hblank) in Hx. discriminate Hx. }
    unfold run, LogBuildLoop.main, bind.
    rewrite (load_from_stdin w' p v (Hne w' Hparse') Hparse').
    rewrite (load_from_stdin w p v (Hne w Hparse) Hparse). reflexivity.
Qed.

(** X6. A log file that cannot be written: each script ends with status
    1 and the diagnostic of a failed write; the log and standard output
    stay as they were. For log-failed-bash this is the end of an event
    that reaches the write: its [error] is absent, a value that counts as
    false, or a text whose exit code, if any, [int] converts, and its
    [tool_input] is absent or a mapping. *)
Theorem write_failure_is_reported (w : world) (p : proc) (d : dict) :
  json_loads (stdin w) = Some (VDict d) ->
  (forall t, log_accepts w t = false) ->
  let failed :=
    {| exit_status := 1; final := with_stderr p (ErrorWritingToLog OSError) |} in
  (dict_get d (py "tool_name") = Some (VStr (py "Bash")) ->
   run (LogAllBash.main w) p = failed)
  /\ (dict_get d (py "tool_name") = Some (VStr (py "Bash")) ->
      error_harmless d = true ->
      is_mapping (or_default (dict_get d (py "tool_input")) (VDict [])) = true ->
      run (LogFailedBash.main w) p = failed)
  /\ ((dict_get d (py "hook_event_name") = Some (VStr (py "UserPromptSubmit")) ->
       opt_field d (py "prompt") is_string = true) ->
      run (LogBuildLoop.main w) p = failed).
Proof.
  intros Hparse Hlog failed. subst failed. split; [|split].
  - intros Hname. rewrite (all_bash_run_any w p d Hparse Hname). cbv zeta.
    now rewrite Hlog.
  - intros Hname Hh Hm.
    destruct (or_default (dict_get d (py "tool_input")) (VDict [])) as [ | | | | | |t] eqn:Hti;
      try discriminate Hm.
    rewrite (failed_bash_run_any w p d t Hparse Hname Hh Hti). cbv zeta.
    now rewrite Hlog.
  - intros Hprompt.
    assert (Hload : LogBuildLoop.load_hook_input w p = (p, Return (VDict d))).
    { apply load_from_stdin; [|assumption].
      intros Hblank. apply strip_blank in Hblank.
      rewrite (json_loads_blank _ Hblank) in Hparse. discriminate Hparse. }
    rewrite (build_loop_run w p p d Hload).
    + now rewrite Hlog.
    + intros H. apply Hprompt. now apply prompt_event_name.
Qed.

End Input.

(** ** The two Bash loggers *)

Section BashLoggers.
Context {R : PyRuntime}.


(** X8. log-all-bash writes the record before it computes the confirmation
    line, inside the same [try]. For every Bash event, whatever the types
    of its fields, the block is appended, and it parses back to a record
    that holds the whole event when the input and the timestamp are
    Unicode text. The status is 0, with a confirmation line, when
    [tool_input] is absent or a mapping whose command is absent, a text or
    a list; otherwise it is 1, with the diagnostic of a failed write and
    nothing on standard output. *)
Theorem all_bash_logs_before_confirming (w : world) (p : proc) (d : dict) :
  json_loads (stdin w) = Some (VDict d) ->
  dict_get d (py "tool_name") = Some (VStr (py "Bash")) ->
  (forall t, log_accepts w t = true) ->
  (forall t, stdout_accepts w t = true) ->
  let out := run (LogAllBash.main w) p in
  let record :=
    VDict [(py "timestamp", VStr (now_isoformat w)); (py "raw_hook_payload", VDict d)] in
  log_file (final out) = log_file p ++ json_dumps_indent 2 record ++ block_end
  /\ (FloatLaws R -> unicode_text (stdin w) = true -> wf_str (now_isoformat w) = true ->
      json_loads (json_dumps_indent 2 record) = Some record)
  /\ (command_sliceable d = true ->
      exit_status out = 0%Z /\ stderr (final out) = stderr p
      /\ exists shown,
           stdout (final out)
           = stdout p ++ (py "[LOGGED ALL] " ++ shown ++ py "...") ++ [10])
  /\ (command_sliceable d = false ->
      exit_status out = 1%Z /\ stdout (final out) = stdout p
      /\ exists e, stderr (final out) = stderr p ++ [ErrorWritingToLog e]).
Proof.
  intros Hparse Hname Hlog Hout out record. subst out record.
  fold (all_record w d).
  assert (Hback : FloatLaws R -> unicode_text (stdin w) = true ->
                  wf_str (now_isoformat w) = true ->
                  json_loads (json_dumps_indent 2 (all_record w d))
                  = Some (all_record w d)).
  { intros L Hu Hts. apply json_loads_dumps_indent.
    pose proof (json_loads_wf (stdin w) _ Hu Hparse) as Hwf.
    unfold all_record. cbn [wf_value] in Hwf |- *. cbn [forallb fst snd wf_value].
    rewrite Hts, Hwf. reflexivity. }
  rewrite (all_bash_run_any w p d Hparse Hname). cbv zeta. rewrite Hlog.
  unfold command_sliceable, opt_field, confirmed.
  destruct (dict_get d (py "tool_input")) as [v|]; cbn [or_default dict_get].
  - destruct v as [ |b|z|f|s|l|t];
      try (split; [reflexivity|]; split; [exact Hback|]; split; [discriminate|];
           intros _; split; [reflexivity|]; split; [reflexivity|]; eexists; reflexivity).
    destruct (dict_get t (py "command")) as [c|]; cbn [or_default].
    + destruct c as [ |b|z|f|s|l|t']; rewrite ?Hout; cbn [sliceable];
        (split; [reflexivity|]); (split; [exact Hback|]); split;
        try discriminate;
        intros _; (split; [reflexivity|]); (split; [reflexivity|]);
        eexists; reflexivity.
    + rewrite Hout. split; [reflexivity|]. split; [exact Hback|]. split; [|discriminate].
      intros _. split; [reflexivity|]. split; [reflexivity|]. eexists; reflexivity.
  - rewrite Hout. split; [reflexivity|]. split; [exact Hback|]. split; [|discriminate].
    intros _. split; [reflexivity|]. split; [reflexivity|]. eexists; reflexivity.
Qed.

(** X9. The confirmation line of log-all-bash for a command that needs
    no cutting: a command of at most 40 characters is shown whole, a
    missing command (or a missing [tool_input]) as N/A, and the three dots
    follow in every case. *)
Theorem all_bash_confirmation_line (w : world) (p : proc) (d : dict) :
  json_loads (stdin w) = Some (VDict d) ->
  dict_get d (py "tool_name") = Some (VStr (py "Bash")) ->
  command_ok d = true ->
  (forall t, log_accepts w t = true) ->
  (forall t, stdout_accepts w t = true) ->
  let out := run (LogAllBash.main w) p in
  exit_status out = 0%Z
  /\ (dict_get (tool_input_of d) (py "command") = None ->
      stdout (final out) = stdout p ++ py "[LOGGED ALL] N/A..." ++ [10])
  /\ (forall cmd, dict_get (tool_input_of d) (py "command") = Some (VStr cmd) ->
                  (List.length cmd <= 40)%nat ->
                  stdout (final out)
                  = stdout p ++ (py "[LOGGED ALL] " ++ cmd ++ py "...") ++ [10]).
Proof.
  intros Hparse Hname Hok Hlog Hout out. subst out.
  apply names_bash_get in Hname.
  rewrite (all_bash_run w p d Hparse Hname Hok). cbv zeta. rewrite Hlog.
  unfold confirmed. rewrite Hout.
  split; [reflexivity|]. unfold command_text. split.
  - intros ->. reflexivity.
  - intros cmd -> Hlen. rewrite firstn_all2 by assumption. reflexivity.
Qed.

(** X10. log-failed-bash stops with a traceback, before anything is
    logged, on a Bash event whose [error] is a value other than a text
    that counts as true (the match needs a text), on one whose [error] is
    a text with an exit code of more digits than [int] converts, and,
    the [error] being none of these, on one whose [tool_input] is not a
    mapping. *)
Theorem failed_bash_crashes_before_logging (w : world) (p : proc) (d : dict) :
  json_loads (stdin w) = Some (VDict d) ->
  dict_get d (py "tool_name") = Some (VStr (py "Bash")) ->
  (forall v, dict_get d (py "error") = Some v ->
             is_string v = false -> truthy v = true ->
             run (LogFailedBash.main w) p
             = {| exit_status := 1; final := with_stderr p (Traceback TypeError) |})
  /\ (forall m, dict_get d (py "error") = Some (VStr m) ->
                code_converts m = false ->
                run (LogFailedBash.main w) p
                = {| exit_status := 1; final := with_stderr p (Traceback ValueError) |})
  /\ (forall v, error_harmless d = true ->
                dict_get d (py "tool_input") = Some v -> is_mapping v = false ->
                run (LogFailedBash.main w) p
                = {| exit_status := 1;
                     final := with_stderr p (Traceback AttributeError) |})
  /\ (error_harmless d = true <->
      forall v, dict_get d (py "error") = Some v ->
                (is_string v = false -> truthy v = false)
                /\ (forall m, v = VStr m -> code_converts m = true)).
Proof.
  intros Hparse Hname. repeat match goal with |- _ /\ _ => split end.
  - intros v. apply failed_bash_bad_error; assumption.
  - intros m. apply failed_bash_long_error; assumption.
  - intros v. apply failed_bash_bad_input; assumption.
  - unfold error_harmless, opt_field. split.
    + intros H v E. rewrite E in H. split.
      * intros Hs. destruct v; try discriminate Hs; cbn [harmless] in H;
          now apply negb_true_iff in H.
      * intros m ->. exact H.
    + intros H.
      destruct (dict_get d (py "error")) as [v|]; [|reflexivity].
      destruct (H v eq_refl) as [Hf Hm].
      destruct v; cbn [harmless]; try (apply negb_true_iff, Hf; reflexivity).
      now apply Hm.
Qed.

(** X11. An [error] that is present but is not a text and counts as false
    (null, false, 0, an empty list or mapping) is logged by
    log-failed-bash as it is, not as the empty text, and gives no exit
    code. *)
Theorem failed_bash_falsy_error (w : world) (p : proc) (d : dict) (v : value) :
  json_loads (stdin w) = Some (VDict d) ->
  dict_get d (py "tool_name") = Some (VStr (py "Bash")) ->
  dict_get d (py "error") = Some v ->
  is_string v = false -> truthy v = false ->
  command_ok d = true ->
  (forall t, log_accepts w t = true) ->
  (forall t, stdout_accepts w t = true) ->
  exists command description fields shown,
    run (LogFailedBash.main w) p =
      {| exit_status := 0;
         final :=
           {| log_file :=
                log_file p ++
                json_dumps_indent 2
                  (VDict ((py "timestamp", VStr (now_isoformat w))
                          :: (py "exit_code", VNone)
                          :: (py "command", command)
                          :: (py "description", description)
                          :: (py "error_message", v) :: fields))
                ++ block_end;
              stdout := stdout p ++ (py "[LOGGED FAILURE] exit=None cmd=" ++ shown) ++ [10];
              stderr := stderr p |} |}.
Proof.
  intros Hparse Hname Herr Hs Ht Hok Hlog Hout.
  destruct (well_formed_tool_input d Hok) as [E1 E2].
  assert (Hh : error_harmless d = true).
  { unfold error_harmless, opt_field. rewrite Herr.
    destruct v; try discriminate Hs; cbn [harmless]; now rewrite Ht. }
  rewrite (failed_bash_run_any w p d (tool_input_of d) Hparse Hname Hh E1).
  cbv zeta. rewrite Hlog, E2. unfold confirmed. rewrite Hout, Herr. cbn [or_default].
  destruct v; try discriminate Hs; do 4 eexists; reflexivity.
Qed.

(** X12. log-failed-bash on a Bash event whose command is present but is
    neither a text nor a list (null, for one), the [error] being absent,
    a value that counts as false, or a text whose exit code, if any,
    [int] converts: the record is appended with that command, and only
    then does the confirmation fail; the status is 1, the diagnostic that
    of a failed write, and standard output stays as it was. *)
Theorem failed_bash_logs_before_confirming
    (w : world) (p : proc) (d t : dict) (c : value) :
  json_loads (stdin w) = Some (VDict d) ->
  dict_get d (py "tool_name") = Some (VStr (py "Bash")) ->
  error_harmless d = true ->
  dict_get d (py "tool_input") = Some (VDict t) ->
  dict_get t (py "command") = Some c ->
  sliceable c = false ->
  (forall x, log_accepts w x = true) ->
  exists exit_code description fields e,
    run (LogFailedBash.main w) p =
      {| exit_status := 1;
         final :=
           {| log_file :=
                log_file p ++
                json_dumps_indent 2
                  (VDict ((py "timestamp", VStr (now_isoformat w))
                          :: (py "exit_code", exit_code)
                          :: (py "command", c)
                          :: (py "description", description) :: fields))
                ++ block_end;
              stdout := stdout p;
              stderr := stderr p ++ [ErrorWritingToLog e] |} |}.
Proof.
  intros Hparse Hname Hh Hti Hc Hs Hlog.
  assert (E1 : or_default (dict_get d (py "tool_input")) (VDict []) = VDict t)
    by (rewrite Hti; reflexivity).
  rewrite (failed_bash_run_any w p d t Hparse Hname Hh E1).
  cbv zeta. rewrite Hlog, Hc. cbn [or_default].
  destruct c; try discriminate Hs; do 4 eexists; reflexivity.
Qed.

(** X13. The confirmation line of log-failed-bash, for an event with
    well-typed fields whose exit code, if the error text has one, [int]
    converts: [[LOGGED FAILURE] exit=], the exit code in decimal, or None
    when the error text gave none, then [ cmd=], the first 40 characters
    of the command, or N/A when there is none, and three dots. The exit
    code is shown as the number the digits stand for: without leading
    zeros, and in ASCII digits whatever digits the text used. *)
Theorem failed_bash_confirmation_line (w : world) (p : proc) (d : dict) :
  json_loads (stdin w) = Some (VDict d) ->
  dict_get d (py "tool_name") = Some (VStr (py "Bash")) ->
  well_formed d = true ->
  code_converts (error_text d) = true ->
  (forall t, log_accepts w t = true) ->
  (forall t, stdout_accepts w t = true) ->
  exists code shown,
    stdout (final (run (LogFailedBash.main w) p))
    = stdout p
      ++ (py "[LOGGED FAILURE] exit=" ++ code ++ py " cmd=" ++ shown ++ py "...")
      ++ [10]
    /\ (~ begins_with_exit_code (error_text d) -> code = py "None")
    /\ (forall ds rest,
          error_text d = py "Exit code " ++ ds ++ rest -> ds <> [] ->
          forallb is_digit ds = true -> run_ends rest ->
          code = Z_text (decimal_value ds))
    /\ (forall n rest,
          error_text d = py "Exit code " ++ N_text n ++ rest -> run_ends rest ->
          code = N_text n)
    /\ (forall zeros n rest,
          error_text d = py "Exit code " ++ zeros ++ N_text n ++ rest ->
          forallb (N.eqb 48) zeros = true -> run_ends rest ->
          code = N_text n)
    /\ (dict_get (tool_input_of d) (py "command") = None -> shown = py "N/A")
    /\ (forall cmd, dict_get (tool_input_of d) (py "command") = Some (VStr cmd) ->
                    shown = firstn 40 cmd).
Proof.
  intros Hparse Hname Hwf Hfit Hlog Hout.
  destruct (well_formed_parts d Hwf) as (Hcmd & Herr & _).
  apply names_bash_get in Hname.
  rewrite (failed_bash_run w p d Hparse Hname Herr Hfit Hcmd). cbv zeta.
  rewrite Hlog. unfold confirmed. rewrite Hout.
  exists (py_str (exit_code_field (error_text d))), (firstn 40 (command_text d)).
  split; [reflexivity|]. repeat match goal with |- _ /\ _ => split end.
  - intros Hno. unfold exit_code_field.
    now rewrite (re_match_exit_code_none _ Hno).
  - intros ds rest -> Hne Hds Hrest. unfold exit_code_field.
    rewrite re_match_exit_code_run by assumption. reflexivity.
  - intros n rest -> Hrest. unfold exit_code_field.
    rewrite re_match_exit_code_run;
      [|apply N_text_nonempty|apply ascii_digits_are_digits, N_text_digits|assumption].
    rewrite decimal_value_text. apply Z_text_of_N.
  - intros zeros n rest -> Hz Hrest. unfold exit_code_field.
    rewrite (app_assoc zeros).
    rewrite re_match_exit_code_run;
      [|intros E; apply app_eq_nil in E as [_ E]; exact (N_text_nonempty n E)
       |apply ascii_digits_are_digits; rewrite forallb_app, N_text_digits, andb_true_r;
        exact (zeros_are_digits zeros Hz)
       |assumption].
    rewrite (decimal_value_zeros zeros _ Hz), decimal_value_text. apply Z_text_of_N.
  - unfold command_text. intros ->. reflexivity.
  - unfold command_text. intros cmd ->. reflexivity.
Qed.

End BashLoggers.

(** ** The texts of the Bash logs *)

Section LogTexts.
Context {R : PyRuntime} {L : FloatLaws R}.

(** X14. Whatever the payload holds, what the two Bash loggers append to
    their logs is ASCII: printable characters and line feeds. The
    encoder escapes every other character of the payload and of the
    timestamp. *)
Theorem bash_logs_are_ascii (w : world) (p : proc) (out : outcome) :
  out = run (LogAllBash.main w) p \/ out = run (LogFailedBash.main w) p ->
  exists text,
    log_file (final out) = log_file p ++ text
    /\ forallb ascii_or_newline text = true.
Proof.
  intros Hout.
  assert (H : bash_outcome w p out)
    by (destruct Hout as [-> | ->]; [apply all_bash_outcome|apply failed_bash_outcome]).
  assert (Hblock : forall record,
             forallb ascii_or_newline (json_dumps_indent 2 record ++ block_end) = true).
  { intros record. rewrite forallb_app, json_dumps_indent_chars. reflexivity. }
  destruct H as [-> |dg -> |record line -> |record e ->
                |record line _ _ -> |record line _ _ ->];
    cbn [exit_status final with_log with_stdout with_stderr log_file stdout stderr].
  - exists []. now rewrite app_nil_r.
  - exists []. now rewrite app_nil_r.
  - eexists. split; [reflexivity|apply Hblock].
  - eexists. split; [reflexivity|apply Hblock].
  - eexists. split; [reflexivity|apply Hblock].
  - eexists. split; [reflexivity|apply Hblock].
Qed.

(** X15. The separator line of the two Bash logs cannot be mistaken: the
    JSON text of a record, written with indent 2, holds no line that
    begins with a dash, so in a log that begins with a block the first
    separator is the one that closes this block, and a block alone holds
    the separator nowhere but at its end. *)
Theorem first_separator_closes_the_block (record : value) (rest pre post : pystr) :
  json_dumps_indent 2 record ++ block_end ++ rest = pre ++ block_end ++ post ->
  (exists more, pre = json_dumps_indent 2 record ++ more)
  /\ (rest = [] -> pre = json_dumps_indent 2 record /\ post = []).
Proof.
  intros E.
  assert (HJ : indented (json_dumps_indent 2 record ++ [32]) = true)
    by (apply iterencode_indented; [lia|reflexivity]).
  destruct (separator_after _ _ _ _ HJ E) as [more Hpre].
  split; [exists more; exact Hpre|].
  intros ->. subst pre. rewrite app_nil_r, <- app_assoc in E.
  apply app_inv_head in E.
  assert (Hlen : List.length block_end
                 = (List.length more + List.length block_end + List.length post)%nat)
    by (rewrite E at 1; rewrite !length_app; lia).
  destruct more; [|cbn [List.length] in Hlen; lia].
  destruct post; [|cbn [List.length] in Hlen; lia].
  rewrite app_nil_r. split; reflexivity.
Qed.

End LogTexts.

(** ** log-build-loop *)

Section BuildLoop.
Context {R : PyRuntime}.





End BuildLoop.

Section BuildLoopLines.
Context {R : PyRuntime} {L : FloatLaws R}.

(** X20. An event that log-build-loop writes with its payload (every
    event but a tool call about to run and a prompt) takes one line of
    the log, whatever it holds: with a timestamp on one line, the text
    appended has a single line feed, its last character. *)
Theorem payload_takes_one_line (w : world) (p p1 : proc) (d : dict) :
  LogBuildLoop.load_hook_input w p = (p1, Return (VDict d)) ->
  dict_get d (py "hook_event_name") <> Some (VStr (py "PreToolUse")) ->
  dict_get d (py "hook_event_name") <> Some (VStr (py "UserPromptSubmit")) ->
  ~ In 10 (now_strftime w) ->
  (forall t, log_accepts w t = true) ->
  exists body,
    log_file (final (run (LogBuildLoop.main w) p)) = log_file p1 ++ body ++ [10]
    /\ ~ In 10 body.
Proof.
  intros Hload Hpre Hprompt Hts Hlog.
  rewrite (build_loop_run w p p1 d Hload), Hlog
    by (intros H; apply prompt_event_name in H; contradiction).
  destruct (payload_line w d Hpre Hprompt) as (tag & Hin & ->).
  unfold LogBuildLoop.line.
  exists (py "[" ++ now_strftime w ++ py "] " ++ tag ++ py ": " ++ json_dumps (VDict d)).
  split.
  - cbn [final with_log log_file]. now rewrite <- !app_assoc.
  - assert (Hno : forall s, forallb ascii_printable s = true -> ~ In 10 s).
    { intros s Hs Hin10. rewrite forallb_forall in Hs. specialize (Hs _ Hin10).
      discriminate Hs. }
    rewrite !in_app_iff. intros [H|[H|[H|[H|[H|H]]]]].
    + revert H. now apply Hno.
    + contradiction.
    + revert H. now apply Hno.
    + revert H. apply Hno. cbn [In tags] in Hin.
      repeat destruct Hin as [<-|Hin]; try reflexivity. contradiction.
    + revert H. now apply Hno.
    + revert H. apply Hno, json_dumps_printable.
Qed.

End BuildLoopLines.

(** ** The bridge *)

Section Bridge.
Context {R : PyRuntime}.

(** X21. A bridge variable that is not JSON is not reported like a bad
    standard input: the [JSONDecodeError] of [load_hook_input] is caught
    only around the parse of standard input, so the script ends with a
    traceback and status 1, nothing logged. *)
Theorem bad_bridge_variable_is_a_traceback (w : world) (p : proc) :
  strip (stdin w) = [] ->
  json_loads (LogBuildLoop.environ_get_default w (py "ASP_TOOL_ARGS") (py "{}")) = None
  \/ json_loads (LogBuildLoop.environ_get_default w (py "ASP_TOOL_RESULT") (py "{}"))
     = None ->
  run (LogBuildLoop.main w) p
  = {| exit_status := 1; final := with_stderr p (Traceback JSONDecodeError) |}.
Proof.
  intros Hblank Hbad.
  exact (build_loop_no_event w p p _ (load_environ_invalid w p Hblank Hbad)).
Qed.


(** X23. log-build-loop takes its event from the bridge exactly when
    every character of standard input is a space of [str.isspace]: such
    an input is treated like the empty one, and with any other input the
    environment is not read. *)
Theorem bridge_exactly_on_blank_input (w : world) (p : proc) :
  (forallb py_isspace (stdin w) = true ->
   LogBuildLoop.load_hook_input w p = LogBuildLoop.load_hook_input (with_stdin w []) p)
  /\ (forallb py_isspace (stdin w) = false ->
      forall env,
        LogBuildLoop.load_hook_input (with_environ w env) p
        = LogBuildLoop.load_hook_input w p).
Proof.
  split.
  - intros H. apply strip_blank in H. unfold LogBuildLoop.load_hook_input.
    cbn [stdin with_stdin]. rewrite H. reflexivity.
  - intros H env. unfold LogBuildLoop.load_hook_input. cbn [stdin with_environ].
    destruct (strip (stdin w)) eqn:E; [|reflexivity].
    apply strip_blank in E. congruence.
Qed.

End Bridge.

(** ** What the scripts call *)

Section Library.
Context {R : PyRuntime} {L : FloatLaws R}.

(** X24. A key that an object of the input gives more than once. The
    text of an object that lists the pairs [pairs] in this order, keys
    repeated or not, is read by [json.loads] as the mapping in which
    every key has the value of its last occurrence. *)
Theorem repeated_key_last_wins (pairs : list (pystr * value)) :
  forallb (fun kv => wf_str (fst kv) && wf_value (snd kv)) pairs = true ->
  exists d,
    json_loads (json_dumps (VDict pairs)) = Some (VDict d)
    /\ forall k, dict_get d k = dict_get (rev pairs) k.
Proof.
  intros Hwf. exists (dict_of_pairs pairs). split; [|apply dict_of_pairs_get].
  unfold json_loads, json_dumps.
  pose proof (iterencode_starts_value None 0 (VDict pairs)) as Hhead.
  rewrite skip_ws_solid
    by (rewrite <- (app_nil_r (iterencode None 0 (VDict pairs)));
        now apply starts_value_solid).
  pose proof (size_le_length (VDict pairs) None 0) as Hsize.
  destruct pairs as [|kv d]; [reflexivity|].
  assert (Hall : Forall (fun p => wf_str (fst p) = true /\ round_trips (snd p)) (kv :: d)).
  { rewrite forallb_forall in Hwf. rewrite Forall_forall. intros p Hp.
    specialize (Hwf p Hp). apply andb_true_iff in Hwf as [Hk Hv].
    split; [assumption|]. now apply iterencode_round_trips. }
  destruct (iterencode_dict None 0 kv d []) as (blank & Hblank & E).
  rewrite app_nil_r in E. rewrite E in Hsize |- *.
  set (fuel := (2 * List.length _)%nat) in *.
  cbn [scan_once]. change (123 =? 34) with false. change (123 =? 123) with true.
  cbv iota.
  rewrite skip_ws_app by apply newline_indent_ws.
  cbn [skip_ws]. change (json_ws 34) with false. cbv iota.
  change (34 =? 125) with false. change (34 =? 34) with true. cbv iota.
  rewrite (object_items_encoded None 0 blank [] Hblank d kv [] fuel Hall).
  - reflexivity.
  - cbn [size fold_right] in Hsize. subst fuel. lia.
Qed.

End Library.

(** X25. [str.strip], as log-build-loop uses it to tell a blank input:
    the text is the stripped text between two runs of spaces, the
    stripped text neither begins nor ends with a space, and it is empty
    exactly when the text holds spaces only. *)
Theorem strip_trims_both_ends (s : pystr) :
  (exists pre post,
     s = pre ++ strip s ++ post
     /\ forallb py_isspace pre = true /\ forallb py_isspace post = true)
  /\ begins_solid (strip s) /\ ends_solid (strip s)
  /\ (strip s = [] <-> forallb py_isspace s = true).
Proof.
  destruct (strip_spec s) as (pre & post & E & Hpre & Hpost & Hb & He).
  split; [exists pre, post; auto|]. split; [assumption|]. split; [assumption|].
  apply strip_blank.
Qed.

(** X26. Where the two Bash loggers write: in the directory [.claude] of
    the home directory, which is HOME without its final slashes when HOME
    is set, else the directory the password database gives for the user,
    without its final slashes, and the literal [~] when neither is
    known. The two files are in the same directory and are never the same
    file. *)
Theorem bash_log_files (env : pystr -> option pystr) (pw : passwd) :
  exists home,
    LogAllBash.LOG_FILE env pw = home ++ py "/.claude/bash-all.log"
    /\ LogFailedBash.LOG_FILE env pw = home ++ py "/.claude/bash-failures.log"
    /\ LogAllBash.LOG_FILE env pw <> LogFailedBash.LOG_FILE env pw
    /\ ends_with_sep home = false
    /\ (forall dir, env (py "HOME") = Some dir ->
          home = rstrip_char 47 dir
          /\ exists slashes, dir = home ++ slashes /\ forallb (N.eqb 47) slashes = true)
    /\ (forall dir, env (py "HOME") = None -> getpwuid_dir pw = Some dir ->
          home = rstrip_char 47 dir
          /\ exists slashes, dir = home ++ slashes /\ forallb (N.eqb 47) slashes = true)
    /\ (env (py "HOME") = None -> getpwuid_dir pw = None -> home = py "~").
Proof.
  unfold LogAllBash.LOG_FILE, LogFailedBash.LOG_FILE.
  change (py "~/.claude/bash-all.log") with (126 :: 47 :: py ".claude/bash-all.log").
  change (py "~/.claude/bash-failures.log")
    with (126 :: 47 :: py ".claude/bash-failures.log").
  rewrite !expanduser_home.
  assert (Hdiff : forall h, h ++ py "/.claude/bash-all.log"
                            <> h ++ py "/.claude/bash-failures.log").
  { intros h E. apply app_inv_head in E. discriminate E. }
  assert (Hdone : forall dir,
             ends_with_sep (rstrip_char 47 dir) = false
             /\ exists slashes, dir = rstrip_char 47 dir ++ slashes
                                /\ forallb (N.eqb 47) slashes = true).
  { intros dir. destruct (rstrip_char_spec 47 dir) as (tail & E & Htail & Hend). split.
    - unfold ends_with_sep. destruct (rev (rstrip_char 47 dir)); [reflexivity|exact Hend].
    - exists tail. split; assumption. }
  destruct (env (py "HOME")) as [dir|] eqn:Ehome.
  - destruct (Hdone dir) as (Hend & Hsl).
    exists (rstrip_char 47 dir).
    split; [reflexivity|]. split; [reflexivity|]. split; [apply Hdiff|].
    split; [exact Hend|]. split; [|split].
    + intros dir' [= <-]. split; [reflexivity|exact Hsl].
    + intros dir' H. discriminate H.
    + intros H. discriminate H.
  - destruct (getpwuid_dir pw) as [dir|] eqn:Epw.
    + destruct (Hdone dir) as (Hend & Hsl).
      exists (rstrip_char 47 dir).
      split; [reflexivity|]. split; [reflexivity|]. split; [apply Hdiff|].
      split; [exact Hend|]. split; [|split].
      * intros dir' H. discriminate H.
      * intros dir' _ [= <-]. split; [reflexivity|exact Hsl].
      * intros _ H. discriminate H.
    + exists (py "~").
      split; [reflexivity|]. split; [reflexivity|]. split; [apply (Hdiff (py "~"))|].
      split; [reflexivity|]. split; [|split].
      * intros dir' H. discriminate H.
      * intros dir' _ H. discriminate H.
      * intros _ _. reflexivity.
Qed.

(** X27. Where log-build-loop writes: the file [build-loop.log] of the
    working directory. A slash is put between the two exactly when the
    working directory does not end with one already, as the root does;
    should the directory be the empty text, the path is the bare file
    name. *)
Theorem build_loop_log_file (cwd : pystr) :
  (ends_with_sep cwd = true ->
   LogBuildLoop.LOG_FILE cwd = cwd ++ py "build-loop.log")
  /\ (cwd <> [] -> ends_with_sep cwd = false ->
      LogBuildLoop.LOG_FILE cwd = cwd ++ py "/build-loop.log")
  /\ (cwd = [] -> LogBuildLoop.LOG_FILE cwd = py "build-loop.log")
  /\ (cwd <> [] ->
      exists dir,
        LogBuildLoop.LOG_FILE cwd = dir ++ py "/build-loop.log"
        /\ (cwd = dir \/ cwd = dir ++ py "/")).
Proof.
  unfold LogBuildLoop.LOG_FILE, path_join.
  change (starts_with (py "/") (py "build-loop.log")) with false. cbv iota.
  repeat match goal with |- _ /\ _ => split end.
  - intros ->. now rewrite orb_true_r.
  - intros Hne ->. destruct cwd; [contradiction|reflexivity].
  - intros ->. reflexivity.
  - intros Hne.
    destruct cwd as [|c cwd]; [contradiction|]. cbn [orb].
    unfold ends_with_sep. destruct (rev (c :: cwd)) as [|x r] eqn:Er.
    + exists (c :: cwd). split; [reflexivity|now left].
    + destruct (x =? 47) eqn:Ex.
      * apply N.eqb_eq in Ex. subst x.
        assert (E : c :: cwd = rev r ++ py "/").
        { rewrite <- (rev_involutive (c :: cwd)), Er. reflexivity. }
        exists (rev r). rewrite E, <- app_assoc. split; [reflexivity|now right].
      * exists (c :: cwd). split; [reflexivity|now left].
Qed.

(** * The claims at concrete invocations *)

#[local] Existing Instance ascii_runtime.

Lemma other_tools_are_skipped_witness :
  let w := sample_world (jq "{'tool_name':'Edit'}") in
  run (@LogAllBash.main ascii_runtime w) fresh = {| exit_status := 0; final := fresh |}
  /\ run (@LogFailedBash.main ascii_runtime w) fresh
     = {| exit_status := 0; final := fresh |}.
Proof.
  apply (@other_tools_are_skipped ascii_runtime
           (sample_world (jq "{'tool_name':'Edit'}")) fresh
           [(py "tool_name", VStr (py "Edit"))]).
  - vm_compute. reflexivity.
  - vm_compute. discriminate.
Defined.

Lemma all_bash_keeps_full_command_witness :
  exists record shown,
    run (@LogAllBash.main ascii_runtime (sample_world long_command_input)) fresh =
      {| exit_status := 0;
         final := {| log_file := json_dumps_indent 2 record ++ block_end;
                     stdout := (py "[LOGGED ALL] " ++ shown ++ py "...") ++ [10];
                     stderr := [] |} |}
    /\ get_path record [py "raw_hook_payload"; py "tool_input"; py "command"]
       = Some (VStr long_command)
    /\ shown = firstn 40 long_command
    /\ List.length shown = 40%nat
    /\ (FloatLaws ascii_runtime ->
        unicode_text (stdin (sample_world long_command_input)) = true ->
        wf_str (now_isoformat (sample_world long_command_input)) = true ->
        json_loads (json_dumps_indent 2 record) = Some record).
Proof.
  apply (@all_bash_keeps_full_command ascii_runtime
           (sample_world long_command_input) fresh
           [(py "tool_name", VStr (py "Bash"));
            (py "tool_input", VDict [(py "command", VStr long_command)])]
           [(py "command", VStr long_command)] long_command).
  - vm_compute. reflexivity.
  - vm_compute. reflexivity.
  - vm_compute. reflexivity.
  - vm_compute. reflexivity.
  - vm_compute. lia.
  - intros t. reflexivity.
  - intros t. reflexivity.
Defined.

Lemma failure_record_fields_witness :
  exists shown,
    run (@LogFailedBash.main ascii_runtime (sample_world (jq "{'tool_name':'Bash'}"))) fresh =
      {| exit_status := 0;
         final :=
           {| log_file :=
                json_dumps_indent 2
                  (VDict [(py "timestamp", VStr (py "2026-01-01T00:00:00"));
                          (py "exit_code", VNone);
                          (py "command", VNone);
                          (py "description", VNone);
                          (py "error_message", VStr []);
                          (py "is_interrupt", VBool false);
                          (py "session_id", VNone);
                          (py "cwd", VNone);
                          (py "tool_use_id", VNone)])
                ++ block_end;
              stdout := shown ++ [10];
              stderr := [] |} |}.
Proof.
  destruct (@failure_record_fields ascii_runtime
              (sample_world (jq "{'tool_name':'Bash'}")) fresh
              [(py "tool_name", VStr (py "Bash"))])
    as (Hfits & _ & Hnone & _).
  - vm_compute. reflexivity.
  - vm_compute. reflexivity.
  - vm_compute. reflexivity.
  - intros t. reflexivity.
  - intros t. reflexivity.
  - destruct (Hfits (Hnone eq_refl))
      as (ec & c & ds & em & ii & si & cw & tu & sh & record & Hrec & Hrun
          & H1 & H2 & H3 & H4 & H5 & H6 & H7 & _).
    exists sh. rewrite Hrun, Hrec.
    rewrite (H1 eq_refl), (H2 eq_refl), (proj1 (H3 eq_refl)), (proj2 (H3 eq_refl)),
      (H4 eq_refl), (H5 eq_refl), (H6 eq_refl), (H7 eq_refl).
    reflexivity.
Defined.

Lemma exit_code_extraction_witness :
  exists fields shown,
    run (@LogFailedBash.main ascii_runtime (sample_world failure_input)) fresh =
      {| exit_status := 0;
         final :=
           {| log_file :=
                json_dumps_indent 2
                  (VDict ((py "timestamp", VStr (py "2026-01-01T00:00:00"))
                          :: (py "exit_code", VInt 127) :: fields))
                ++ block_end;
              stdout := shown ++ [10];
              stderr := [] |} |}.
Proof.
  destruct (@exit_code_extraction ascii_runtime (sample_world failure_input) fresh
              [(py "tool_name", VStr (py "Bash"));
               (py "error", VStr (py "Exit code 127: command not found"));
               (py "tool_input", VDict [(py "command", VStr (py "foo"))])]
              (py "Exit code 127: command not found"))
    as (Hfits & _).
  - vm_compute. reflexivity.
  - vm_compute. reflexivity.
  - vm_compute. reflexivity.
  - vm_compute. reflexivity.
  - intros t. reflexivity.
  - intros t. reflexivity.
  - destruct Hfits as (ec & fields & shown & Hrun & _ & Hn & _ & _).
    + vm_compute. reflexivity.
    + exists fields, shown.
      rewrite (Hn 127 (py ": command not found")) in Hrun.
      * exact Hrun.
      * vm_compute. reflexivity.
      * vm_compute. reflexivity.
Defined.





Lemma bridge_only_in_build_loop_witness :
  let event :=
    VDict [(py "tool_name", VNone); (py "tool_args", VDict []);
           (py "tool_result", VDict []); (py "source", VStr (py "pi"))] in
  @LogBuildLoop.load_hook_input ascii_runtime (sample_world []) fresh = (fresh, Return event)
  /\ run (@LogBuildLoop.main ascii_runtime (sample_world [])) fresh =
       {| exit_status := 0;
          final := {| log_file := LogBuildLoop.line (py "2026-01-01 00:00:00") (py "UNKNOWN")
                                                    (json_dumps event);
                      stdout := [];
                      stderr := [] |} |}.
Proof.
  destruct (@bridge_only_in_build_loop ascii_runtime (sample_world []) fresh
              (VDict []) (VDict []))
    as (Hload & Hrun & _).
  - vm_compute. reflexivity.
  - vm_compute. reflexivity.
  - vm_compute. reflexivity.
  - intros t. reflexivity.
  - split; [exact Hload | exact Hrun].
Defined.

(** C1 as stated fails: on an empty standard input log-all-bash reports
    invalid JSON and ends with status 1, with nothing logged. *)
Lemma all_bash_fails_on_empty_stdin :
  run (@LogAllBash.main ascii_runtime (sample_world [])) fresh
  = {| exit_status := 1;
       final := {| log_file := []; stdout := []; stderr := [InvalidJSONInput] |} |}.
Proof. vm_compute. reflexivity. Qed.


(** C4 as stated fails: on an error text that begins with [Exit code]
    and 4301 digits [int] raises, the script ends with the traceback of
    a [ValueError] and status 1, and there is no record. *)
Lemma long_exit_code_raises :
  let w := sample_world (long_code_input 55) in
  begins_with_exit_code (long_code 55)
  /\ json_loads (stdin w)
     = Some (VDict [(py "tool_name", VStr (py "Bash"));
                    (py "error", VStr (long_code 55))])
  /\ exit_code_of (VStr (long_code 55)) fresh = (fresh, Raise ValueError)
  /\ run (@LogFailedBash.main ascii_runtime w) fresh
     = {| exit_status := 1;
          final := {| log_file := []; stdout := []; stderr := [Traceback ValueError] |} |}.
Proof.
  split.
  - exists (repeat 55 4301), []. split; [discriminate|].
    split; [vm_compute; reflexivity|]. unfold long_code. now rewrite app_nil_r.
  - vm_compute. repeat split.
Qed.

(** C10 as stated fails: the event has well-typed fields, its error text
    an exit code of 4301 zeros, and log-failed-bash writes no record. *)
Lemma well_typed_event_without_record :
  let d := [(py "tool_name", VStr (py "Bash")); (py "error", VStr (long_code 48))] in
  let o := run (@LogFailedBash.main ascii_runtime (sample_world (long_code_input 48)))
               fresh in
  json_loads (long_code_input 48) = Some (VDict d)
  /\ well_formed d = true
  /\ log_file (final o) = []
  /\ stdout (final o) = []
  /\ stderr (final o) = [Traceback ValueError]
  /\ exit_status o = 1%Z.
Proof. vm_compute. repeat split. Qed.



Lemma ascii_float_laws : FloatLaws ascii_runtime.
Proof. constructor. intros []. left. split; reflexivity. Qed.


(** * The further properties at concrete invocations *)


Lemma blank_input_fails_the_bash_loggers_witness :
  let w := sample_world [32; 10; 9] in
  @json_loads ascii_runtime (stdin w) = None
  /\ run (@LogAllBash.main ascii_runtime w) fresh
     = {| exit_status := 1; final := with_stderr fresh InvalidJSONInput |}
  /\ run (@LogFailedBash.main ascii_runtime w) fresh
     = {| exit_status := 1; final := with_stderr fresh InvalidJSONInput |}.
Proof.
  apply (@blank_input_fails_the_bash_loggers ascii_runtime (sample_world [32; 10; 9]) fresh).
  vm_compute. reflexivity.
Defined.

Lemma foreign_space_is_rejected_witness :
  let w := sample_world (12 :: short_command_input) in
  run (@LogBuildLoop.main ascii_runtime w) fresh
  = {| exit_status := 1; final := with_stderr fresh InvalidJSONInput |}.
Proof.
  destruct (@foreign_space_is_rejected ascii_runtime
              (sample_world (12 :: short_command_input)) fresh 12 short_command_input)
    as (_ & _ & H).
  - reflexivity.
  - reflexivity.
  - reflexivity.
  - apply H. vm_compute. discriminate.
Defined.

Lemma non_object_input_crashes_witness :
  let w := sample_world (jq "[1, 2]") in
  let crashed :=
    {| exit_status := 1; final := with_stderr fresh (Traceback AttributeError) |} in
  run (@LogAllBash.main ascii_runtime w) fresh = crashed
  /\ run (@LogFailedBash.main ascii_runtime w) fresh = crashed
  /\ run (@LogBuildLoop.main ascii_runtime w) fresh = crashed.
Proof.
  apply (@non_object_input_crashes ascii_runtime (sample_world (jq "[1, 2]")) fresh
           (VList [VInt 1; VInt 2])).
  - vm_compute. reflexivity.
  - reflexivity.
Defined.

Lemma surrounding_whitespace_is_ignored_witness :
  let w := sample_world short_command_input in
  let w' := with_stdin w ([32; 10] ++ short_command_input ++ [13; 10]) in
  run (@LogAllBash.main ascii_runtime w') fresh = run (@LogAllBash.main ascii_runtime w) fresh.
Proof.
  destruct (@surrounding_whitespace_is_ignored ascii_runtime
              (sample_world short_command_input) fresh [32; 10] [13; 10]
              (VDict [(py "tool_name", VStr (py "Bash"));
                      (py "tool_input", VDict [(py "command", VStr (py "ls"))])]))
    as (_ & H & _).
  - vm_compute. reflexivity.
  - reflexivity.
  - reflexivity.
  - exact H.
Defined.

Lemma write_failure_is_reported_witness :
  let w := closed_log_world short_command_input in
  let failed :=
    {| exit_status := 1; final := with_stderr fresh (ErrorWritingToLog OSError) |} in
  run (@LogAllBash.main ascii_runtime w) fresh = failed
  /\ run (@LogFailedBash.main ascii_runtime w) fresh = failed
  /\ run (@LogBuildLoop.main ascii_runtime w) fresh = failed.
Proof.
  destruct (@write_failure_is_reported ascii_runtime
              (closed_log_world short_command_input) fresh
              [(py "tool_name", VStr (py "Bash"));
               (py "tool_input", VDict [(py "command", VStr (py "ls"))])])
    as (H1 & H2 & H3).
  - vm_compute. reflexivity.
  - intros t. reflexivity.
  - split; [apply H1; vm_compute; reflexivity|].
    split; [apply H2; vm_compute; reflexivity|].
    apply H3. vm_compute. discriminate.
Defined.


Lemma all_bash_logs_before_confirming_witness :
  let w := sample_world null_command_input in
  let out := run (@LogAllBash.main ascii_runtime w) fresh in
  log_file (final out)
  = json_dumps_indent 2
      (VDict [(py "timestamp", VStr (now_isoformat w));
              (py "raw_hook_payload",
               VDict [(py "tool_name", VStr (py "Bash"));
                      (py "tool_input", VDict [(py "command", VNone)])])])
    ++ block_end
  /\ exit_status out = 1%Z.
Proof.
  destruct (@all_bash_logs_before_confirming ascii_runtime
              (sample_world null_command_input) fresh
              [(py "tool_name", VStr (py "Bash"));
               (py "tool_input", VDict [(py "command", VNone)])])
    as (Hlog & _ & _ & Hbad).
  - vm_compute. reflexivity.
  - vm_compute. reflexivity.
  - intros t. reflexivity.
  - intros t. reflexivity.
  - split; [exact Hlog|]. apply Hbad. vm_compute. reflexivity.
Defined.

Lemma all_bash_confirmation_line_witness :
  stdout (final (run (@LogAllBash.main ascii_runtime (sample_world short_command_input))
                     fresh))
  = py "[LOGGED ALL] ls..." ++ [10].
Proof.
  destruct (@all_bash_confirmation_line ascii_runtime
              (sample_world short_command_input) fresh
              [(py "tool_name", VStr (py "Bash"));
               (py "tool_input", VDict [(py "command", VStr (py "ls"))])])
    as (_ & _ & H).
  - vm_compute. reflexivity.
  - vm_compute. reflexivity.
  - vm_compute. reflexivity.
  - intros t. reflexivity.
  - intros t. reflexivity.
  - apply (H (py "ls")).
    + vm_compute. reflexivity.
    + vm_compute. lia.
Defined.

Lemma failed_bash_crashes_before_logging_witness :
  run (@LogFailedBash.main ascii_runtime (sample_world (jq "{'tool_name':'Bash','error':5}")))
      fresh
  = {| exit_status := 1; final := with_stderr fresh (Traceback TypeError) |}.
Proof.
  destruct (@failed_bash_crashes_before_logging ascii_runtime
              (sample_world (jq "{'tool_name':'Bash','error':5}")) fresh
              [(py "tool_name", VStr (py "Bash")); (py "error", VInt 5)])
    as [H _].
  - vm_compute. reflexivity.
  - vm_compute. reflexivity.
  - apply (H (VInt 5)).
    + vm_compute. reflexivity.
    + reflexivity.
    + reflexivity.
Defined.

Lemma failed_bash_falsy_error_witness :
  exists command description fields shown,
    run (@LogFailedBash.main ascii_runtime
           (sample_world (jq "{'tool_name':'Bash','error':null}"))) fresh =
      {| exit_status := 0;
         final :=
           {| log_file :=
                json_dumps_indent 2
                  (VDict ((py "timestamp", VStr (py "2026-01-01T00:00:00"))
                          :: (py "exit_code", VNone)
                          :: (py "command", command)
                          :: (py "description", description)
                          :: (py "error_message", VNone) :: fields))
                ++ block_end;
              stdout := (py "[LOGGED FAILURE] exit=None cmd=" ++ shown) ++ [10];
              stderr := [] |} |}.
Proof.
  apply (@failed_bash_falsy_error ascii_runtime
           (sample_world (jq "{'tool_name':'Bash','error':null}")) fresh
           [(py "tool_name", VStr (py "Bash")); (py "error", VNone)] VNone).
  - vm_compute. reflexivity.
  - vm_compute. reflexivity.
  - vm_compute. reflexivity.
  - reflexivity.
  - reflexivity.
  - vm_compute. reflexivity.
  - intros t. reflexivity.
  - intros t. reflexivity.
Defined.

Lemma failed_bash_logs_before_confirming_witness :
  exists exit_code description fields e,
    run (@LogFailedBash.main ascii_runtime (sample_world null_command_input)) fresh =
      {| exit_status := 1;
         final :=
           {| log_file :=
                json_dumps_indent 2
                  (VDict ((py "timestamp", VStr (py "2026-01-01T00:00:00"))
                          :: (py "exit_code", exit_code)
                          :: (py "command", VNone)
                          :: (py "description", description) :: fields))
                ++ block_end;
              stdout := [];
              stderr := [ErrorWritingToLog e] |} |}.
Proof.
  apply (@failed_bash_logs_before_confirming ascii_runtime
           (sample_world null_command_input) fresh
           [(py "tool_name", VStr (py "Bash"));
            (py "tool_input", VDict [(py "command", VNone)])]
           [(py "command", VNone)] VNone).
  - vm_compute. reflexivity.
  - vm_compute. reflexivity.
  - vm_compute. reflexivity.
  - vm_compute. reflexivity.
  - vm_compute. reflexivity.
  - reflexivity.
  - intros t. reflexivity.
Defined.

Lemma failed_bash_confirmation_line_witness :
  stdout (final (run (@LogFailedBash.main ascii_runtime (sample_world failure_input)) fresh))
  = py "[LOGGED FAILURE] exit=127 cmd=foo..." ++ [10].
Proof.
  destruct (@failed_bash_confirmation_line ascii_runtime (sample_world failure_input) fresh
              [(py "tool_name", VStr (py "Bash"));
               (py "error", VStr (py "Exit code 127: command not found"));
               (py "tool_input", VDict [(py "command", VStr (py "foo"))])])
    as (code & shown & Hout & _ & _ & Hcode & _ & _ & Hshown).
  - vm_compute. reflexivity.
  - vm_compute. reflexivity.
  - vm_compute. reflexivity.
  - vm_compute. reflexivity.
  - intros t. reflexivity.
  - intros t. reflexivity.
  - rewrite Hout.
    rewrite (Hcode 127 (py ": command not found") eq_refl eq_refl).
    rewrite (Hshown (py "foo") eq_refl). reflexivity.
Defined.

Lemma bash_logs_are_ascii_witness :
  exists text,
    log_file (final (run (@LogAllBash.main ascii_runtime (sample_world post_tool_input)) fresh))
    = text
    /\ forallb ascii_or_newline text = true.
Proof.
  exact (@bash_logs_are_ascii ascii_runtime ascii_float_laws
           (sample_world post_tool_input) fresh _ (or_introl eq_refl)).
Defined.

Lemma first_separator_closes_the_block_witness :
  let text := @json_dumps_indent ascii_runtime 2 (VDict [(py "exit_code", VInt (-1))]) in
  (exists more, text = text ++ more)
  /\ (@nil N = [] -> text = text /\ @nil N = []).
Proof.
  apply (@first_separator_closes_the_block ascii_runtime ascii_float_laws
           (VDict [(py "exit_code", VInt (-1))]) [] _ []).
  reflexivity.
Defined.




Lemma payload_takes_one_line_witness :
  exists body,
    log_file (final (run (@LogBuildLoop.main ascii_runtime (sample_world post_tool_input))
                         fresh))
    = body ++ [10]
    /\ ~ In 10 body.
Proof.
  apply (@payload_takes_one_line ascii_runtime ascii_float_laws
           (sample_world post_tool_input) fresh fresh post_tool_event).
  - vm_compute. reflexivity.
  - vm_compute. discriminate.
  - vm_compute. discriminate.
  - vm_compute. intros H.
    repeat (destruct H as [H|H]; [discriminate H|]). exact H.
  - intros t. reflexivity.
Defined.

Lemma bad_bridge_variable_is_a_traceback_witness :
  run (@LogBuildLoop.main ascii_runtime (bridge_world [(py "ASP_TOOL_ARGS", py "oops")]))
      fresh
  = {| exit_status := 1; final := with_stderr fresh (Traceback JSONDecodeError) |}.
Proof.
  apply (@bad_bridge_variable_is_a_traceback ascii_runtime
           (bridge_world [(py "ASP_TOOL_ARGS", py "oops")]) fresh).
  - vm_compute. reflexivity.
  - left. vm_compute. reflexivity.
Defined.


Lemma repeated_key_last_wins_witness :
  exists d,
    @json_loads ascii_runtime (jq "{'a': 1, 'b': 2, 'a': 3}") = Some (VDict d)
    /\ forall k, dict_get d k = dict_get [(py "a", VInt 3); (py "b", VInt 2); (py "a", VInt 1)] k.
Proof.
  apply (@repeated_key_last_wins ascii_runtime ascii_float_laws
           [(py "a", VInt 1); (py "b", VInt 2); (py "a", VInt 3)]).
  reflexivity.
Defined.

Lemma build_loop_log_file_witness :
  LogBuildLoop.LOG_FILE (py "/work") = py "/work/build-loop.log"
  /\ LogBuildLoop.LOG_FILE (py "/") = py "/build-loop.log".
Proof.
  split.
  - apply (proj1 (proj2 (build_loop_log_file (py "/work")))).
    + discriminate.
    + reflexivity.
  - apply (proj1 (build_loop_log_file (py "/"))). reflexivity.
Defined.
